(** * ihm.metadata: metadata extraction from PDB and MRC file headers

    A shallow embedding of [src/ihm/metadata.py] (python-ihm): the classes
    [MRCParser] and [PDBParser].  Python 3 semantics are modelled
    (the [sys.version_info[0] < 3] branches are the dead ones).

    Conventions of the embedding:
    - a text file is the list of lines that iterating the file handle
      yields, each line with its line terminator; text is 8-bit
      (code points below 256), a character being an [ascii];
    - a binary file is a [list byte];
    - a raised exception is the [Raise] case of [result];
    - Python dictionaries are [gmap]s; dynamically typed values that the
      code stores without looking at them are [pyval]s. *)

From Stdlib Require Import ZArith Ascii String Strings.Byte List Lia Sorted Permutation.
From stdpp Require Import base option list strings gmap.

Local Open Scope string_scope.
Local Open Scope list_scope.
Set Warnings "-register-all".

(** ** Exceptions and the error monad *)

Inductive exn : Type :=
| StructError                 (* struct.error *)
| KeyError (key : string)
| ValueError (arg : string)
| IndexError
| TypeError
| AttributeError
| URLError (reason : string).

Inductive result (A : Type) : Type :=
| Ok (a : A)
| Raise (e : exn).
Arguments Ok {A} a.
Arguments Raise {A} e.

#[global] Instance result_ret : MRet result := fun A a => Ok a.
#[global] Instance result_bind : MBind result := fun A B f m =>
  match m with
  | Ok a => f a
  | Raise e => Raise e
  end.

Definition is_ok {A} (r : result A) : bool :=
  match r with Ok _ => true | Raise _ => false end.

(** ** Python string primitives *)

Module Py.

(** [s[n:]] *)
Fixpoint sdrop (n : nat) (s : string) : string :=
  match n, s with
  | O, _ => s
  | S n', String _ s' => sdrop n' s'
  | S _, EmptyString => EmptyString
  end.

(** [s[:n]] *)
Fixpoint stake (n : nat) (s : string) : string :=
  match n, s with
  | O, _ => EmptyString
  | S n', String c s' => String c (stake n' s')
  | S _, EmptyString => EmptyString
  end.

(** [s[a:b]] for [0 <= a <= b]; out-of-range bounds are clamped. *)
Definition slice (a b : nat) (s : string) : string := stake (b - a) (sdrop a s).

(** [s.startswith(p)] *)
Fixpoint startswith (s p : string) : bool :=
  match p, s with
  | EmptyString, _ => true
  | String a p', String b s' => Ascii.eqb a b && startswith s' p'
  | String _ _, EmptyString => false
  end.

Definition code (c : ascii) : nat := nat_of_ascii c.

Definition in_range (lo hi : nat) (c : ascii) : bool :=
  (lo <=? code c)%nat && (code c <=? hi)%nat.

(** [str.isspace] on code points below 256, which is also the class [\s]
    of a [str] pattern. *)
Definition isspace (c : ascii) : bool :=
  in_range 9 13 c || in_range 28 32 c
  || (code c =? 133)%nat || (code c =? 160)%nat.

(** Whitespace of [bytes.strip], and of [\s] in a [bytes] pattern. *)
Definition bytes_isspace (c : ascii) : bool :=
  in_range 9 13 c || (code c =? 32)%nat.

Definition isdigit (c : ascii) : bool := in_range 48 57 c.
Definition islower (c : ascii) : bool := in_range 97 122 c.
Definition isupper (c : ascii) : bool := in_range 65 90 c.
Definition isalpha (c : ascii) : bool := islower c || isupper c.
Definition isalnum (c : ascii) : bool := isalpha c || isdigit c.
Definition newline : ascii := ascii_of_nat 10.

Fixpoint lstrip_by (sp : ascii -> bool) (s : string) : string :=
  match s with
  | String c s' => if sp c then lstrip_by sp s' else s
  | EmptyString => EmptyString
  end.

Fixpoint rstrip_by (sp : ascii -> bool) (s : string) : string :=
  match s with
  | String c s' =>
      match rstrip_by sp s' with
      | EmptyString => if sp c then EmptyString else String c EmptyString
      | r => String c r
      end
  | EmptyString => EmptyString
  end.

Definition rstrip : string -> string := rstrip_by isspace.
Definition strip (s : string) : string := rstrip_by isspace (lstrip_by isspace s).
Definition bytes_strip (s : string) : string :=
  rstrip_by bytes_isspace (lstrip_by bytes_isspace s).

(** Every character of [s] is in the class [p]. *)
Fixpoint all_chars (p : ascii -> bool) (s : string) : bool :=
  match s with
  | EmptyString => true
  | String c s' => p c && all_chars p s'
  end.

(** [c.upper()] for the characters the code applies it to (ASCII). *)
Definition upper_char (c : ascii) : ascii :=
  if islower c then ascii_of_nat (code c - 32) else c.

Fixpoint upper (s : string) : string :=
  match s with
  | String c s' => String (upper_char c) (upper s')
  | EmptyString => EmptyString
  end.

(** [s.split(' ', 1)]: cut at the first space, if there is one. *)
Fixpoint split_space_once (s : string) : list string :=
  match s with
  | EmptyString => [EmptyString]
  | String c s' =>
      if Ascii.eqb c " " then [EmptyString; s']
      else match split_space_once s' with
           | h :: t => String c h :: t
           | [] => [String c EmptyString]
           end
  end.

(** *** [int(s)]

    Base 10, with an optional sign and with single underscores between
    digits; the cap that recent interpreters put on the number of digits
    is left out. *)

Definition digit_val (c : ascii) : Z := Z.of_nat (code c - 48).

(** Digits with single underscores between them; [prev] tells whether the
    previous character was a digit. *)
Fixpoint int_digits (s : string) (acc : Z) (prev : bool) : option Z :=
  match s with
  | EmptyString => if prev then Some acc else None
  | String c s' =>
      if isdigit c then int_digits s' (10 * acc + digit_val c)%Z true
      else if Ascii.eqb c "_" && prev then int_digits s' acc false
      else None
  end.

Definition int (s : string) : result Z :=
  let body :=
    match strip s with
    | String "-" t => option_map Z.opp (int_digits t 0%Z false)
    | String "+" t => int_digits t 0%Z false
    | t => int_digits t 0%Z false
    end in
  match body with
  | Some z => Ok z
  | None => Raise (ValueError s)
  end.

(** *** [float(s)]

    Only the syntax check of [float] is modelled; the floating-point value
    is represented by the literal it was read from. *)

Record pyfloat : Type := FloatOf { float_literal : string }.

(** Skips [digit (_? digit)*]; [None] when [s] does not start with a digit. *)
Fixpoint skip_digits (s : string) (prev : bool) : option string :=
  match s with
  | String c s' =>
      if isdigit c then
        match skip_digits s' true with
        | Some r => Some r
        | None => Some s'
        end
      else if Ascii.eqb c "_" && prev then
        match s' with
        | String d _ => if isdigit d then skip_digits s' false else None
        | EmptyString => None
        end
      else None
  | EmptyString => None
  end.

Definition lower_char (c : ascii) : ascii :=
  if isupper c then ascii_of_nat (code c + 32) else c.

Fixpoint lower (s : string) : string :=
  match s with
  | String c s' => String (lower_char c) (lower s')
  | EmptyString => EmptyString
  end.

Definition float_exponent_ok (s : string) : bool :=
  match s with
  | EmptyString => true
  | String e t =>
      if Ascii.eqb (lower_char e) "e" then
        let t' := match t with
                  | String "+" u => u
                  | String "-" u => u
                  | _ => t
                  end in
        match skip_digits t' false with
        | Some EmptyString => true
        | _ => false
        end
      else false
  end.

Definition float_unsigned_ok (s : string) : bool :=
  let l := lower s in
  if String.eqb l "inf" || String.eqb l "infinity" || String.eqb l "nan" then true
  else
    match skip_digits s false with
    | Some (String "." r) =>
        match skip_digits r false with
        | Some r' => float_exponent_ok r'
        | None => float_exponent_ok r
        end
    | Some r => float_exponent_ok r
    | None =>
        match s with
        | String "." r =>
            match skip_digits r false with
            | Some r' => float_exponent_ok r'
            | None => false
            end
        | _ => false
        end
    end.

Definition float (s : string) : result pyfloat :=
  let t := strip s in
  let u := match t with
           | String "-" u => u
           | String "+" u => u
           | _ => t
           end in
  if float_unsigned_ok u then Ok (FloatOf t) else Raise (ValueError s).

End Py.

(** ** The fragment of [re] the module uses

    A backtracking matcher in continuation-passing style: greedy
    repetition of a character class, greedy optional parts, numbered
    capture groups, and [$]. *)

Module Re.

Inductive regex : Type :=
| Lit (s : string)              (* a literal string *)
| Cls (p : ascii -> bool)       (* one character of a class *)
| Star (p : ascii -> bool)      (* class*, greedy *)
| Plus (p : ascii -> bool)      (* class+, greedy *)
| Seq (r1 r2 : regex)
| Grp (n : nat) (r : regex)     (* capture group number n *)
| Opt (r : regex)               (* (...)?, greedy *)
| Eos.                          (* $ *)

(** A match object: the text of each group that took part in the match. *)
Abbreviation groups := (gmap nat string).

Fixpoint lit_match (p s : string) : option string :=
  match p, s with
  | EmptyString, _ => Some s
  | String a p', String b s' => if Ascii.eqb a b then lit_match p' s' else None
  | String _ _, EmptyString => None
  end.

(** Longest run first, then shorter ones until the continuation accepts. *)
Fixpoint star_match {A} (p : ascii -> bool) (s : string)
    (k : string -> option A) : option A :=
  match s with
  | String c s' =>
      if p c then
        match star_match p s' k with
        | Some x => Some x
        | None => k s
        end
      else k s
  | EmptyString => k s
  end.

(** [$]: at the end, or just before a newline that ends the string. *)
Definition at_end (s : string) : bool :=
  match s with
  | EmptyString => true
  | String c EmptyString => Ascii.eqb c Py.newline
  | _ => false
  end.

Fixpoint rmatch (r : regex) (s : string) (g : groups)
    (k : string -> groups -> option groups) : option groups :=
  match r with
  | Lit p =>
      match lit_match p s with
      | Some s' => k s' g
      | None => None
      end
  | Cls p =>
      match s with
      | String c s' => if p c then k s' g else None
      | EmptyString => None
      end
  | Star p => star_match p s (fun s' => k s' g)
  | Plus p =>
      match s with
      | String c s' => if p c then star_match p s' (fun s'' => k s'' g) else None
      | EmptyString => None
      end
  | Seq r1 r2 => rmatch r1 s g (fun s' g' => rmatch r2 s' g' k)
  | Grp n r =>
      rmatch r s g (fun s' g' =>
        k s' (<[n := Py.stake (String.length s - String.length s') s]> g'))
  | Opt r =>
      match rmatch r s g k with
      | Some x => Some x
      | None => k s g
      end
  | Eos => if at_end s then k s g else None
  end.

(** [r.match(s)]: anchored at the start of [s]. *)
Definition match_ (r : regex) (s : string) : option groups :=
  rmatch r s ∅ (fun _ g => Some g).

(** [r.search(s)]: the leftmost position where [r] matches. *)
Fixpoint search (r : regex) (s : string) : option groups :=
  match match_ r s with
  | Some g => Some g
  | None =>
      match s with
      | String _ s' => search r s'
      | EmptyString => None
      end
  end.

(** [m.group(n)] for a group that took part in the match. *)
Definition group (m : groups) (n : nat) : string := default EmptyString (m !! n).

(** Whether the pattern has a group numbered [n]. *)
Fixpoint captures (n : nat) (r : regex) : bool :=
  match r with
  | Grp m r' => Nat.eqb n m || captures n r'
  | Seq r1 r2 => captures n r1 || captures n r2
  | Opt r' => captures n r'
  | _ => false
  end.

Declare Scope regex_scope.
Delimit Scope regex_scope with re.
Bind Scope regex_scope with regex.
Infix "⋅" := Seq (at level 60, right associativity) : regex_scope.

(** [.] (any character but a newline), [\S], [\d] *)
Definition dot (c : ascii) : bool := negb (Ascii.eqb c Py.newline).
Definition nonspace (c : ascii) : bool := negb (Py.isspace c).
Definition digit : ascii -> bool := Py.isdigit.

End Re.

Import Re.

(** ** Values of dynamic type

    What the code stores without inspecting: JSON values returned by the
    EMDB web service (numbers other than integers are left out), and the
    values of the ['software'] dictionary. *)

Inductive pyval : Type :=
| PNone
| PBool (b : bool)
| PInt (z : Z)
| PStr (s : string)
| PList (l : list pyval)
| PDict (items : list (string * pyval)).

(** Truth value of a Python object, as tested by [x if x else y]. *)
Definition truthy (v : pyval) : bool :=
  match v with
  | PNone => false
  | PBool b => b
  | PInt z => negb (z =? 0)%Z
  | PStr s => negb (String.eqb s EmptyString)
  | PList l => match l with [] => false | _ => true end
  | PDict l => match l with [] => false | _ => true end
  end.

(** ** Data model: locations, datasets, templates *)

(** Modelled from the spec: [ihm.location.Repository], of which only the
    constructor call [Repository(doi=...)] is in the source at hand. *)
Record Repository : Type := { doi : string }.

(** Modelled from the spec: the classes of [ihm.location], which the
    source constructs but does not define.  [PDBLocation] and
    [EMDBLocation] are the database locations (accession, version,
    details); [InputFileLocation] is the file location (path, optional
    repository, details). *)
Inductive Location : Type :=
| PDBLocation (db_code : string) (version details : pyval)
| EMDBLocation (db_code : string) (version details : pyval)
| InputFileLocation (path : string) (repo : option Repository) (details : pyval).

Definition details_of (l : Location) : pyval :=
  match l with
  | PDBLocation _ _ d => d
  | EMDBLocation _ _ d => d
  | InputFileLocation _ _ d => d
  end.

Definition access_code (l : Location) : option string :=
  match l with
  | PDBLocation c _ _ => Some c
  | EMDBLocation c _ _ => Some c
  | InputFileLocation _ _ _ => None
  end.

(** [l.details = d] *)
Definition set_details (l : Location) (d : pyval) : Location :=
  match l with
  | PDBLocation c v _ => PDBLocation c v d
  | EMDBLocation c v _ => EMDBLocation c v d
  | InputFileLocation p r _ => InputFileLocation p r d
  end.

Inductive dataset_kind : Type := PDBKind | ComparativeModelKind | EMDensityKind.

(** Modelled from the spec: the classes of [ihm.dataset]; a dataset has a
    location and a list of parents, empty on construction. *)
Inductive Dataset : Type :=
| mkDataset (kind : dataset_kind) (location : Location) (parents : list Dataset).

Definition PDBDataset (l : Location) : Dataset := mkDataset PDBKind l [].
Definition ComparativeModelDataset (l : Location) : Dataset :=
  mkDataset ComparativeModelKind l [].
Definition EMDensityDataset (l : Location) : Dataset := mkDataset EMDensityKind l [].

Definition kind (d : Dataset) : dataset_kind := let (k, _, _) := d in k.
Definition location (d : Dataset) : Location := let (_, l, _) := d in l.
Definition parents (d : Dataset) : list Dataset := let (_, _, p) := d in p.

(** [d.parents.append(p)] *)
Definition append_parent (d p : Dataset) : Dataset :=
  mkDataset (kind d) (location d) (parents d ++ [p]).

(** Modelled from the spec: [ihm.startmodel.Template], a record of the
    keyword arguments it is constructed with. *)
Record Template : Type := {
  dataset : Dataset;
  asym_id : string;
  seq_id_range : Z * Z;
  template_seq_id_range : Z * Z;
  sequence_identity : Py.pyfloat;
  alignment_file : option Location
}.

(** Modelled from the spec: [ihm.startmodel.PDBHelix], one raw record per
    [HELIX] line. *)
Record PDBHelix : Type := { helix_line : string }.

(** The dictionary that [PDBParser.parse_file] returns; the key
    ['dataset'] is absent until an extractor sets it. *)
Record Ret : Type := {
  ret_templates : list Template;
  ret_software : gmap string pyval;
  ret_metadata : list PDBHelix;
  ret_dataset : option Dataset
}.

(** ** MRCParser *)

Module MRC.

(** An open binary file: its content and the position of the next read. *)
Record handle : Type := { data : list byte; pos : nat }.

Definition open_rb (content : list byte) : handle := {| data := content; pos := 0 |}.

(** [fh.seek(n)]; seeking past the end is allowed. *)
Definition seek (n : nat) (fh : handle) : handle := {| data := data fh; pos := n |}.

(** [fh.read(n)]: at most [n] bytes, fewer at the end of the file. *)
Definition read (n : nat) (fh : handle) : list byte * handle :=
  let chunk := take n (drop (pos fh) (data fh)) in
  (chunk, {| data := data fh; pos := pos fh + length chunk |}).

Definition byte_val (b : byte) : Z := Z.of_N (Byte.to_N b).

(** Two's complement reading of a 32-bit pattern. *)
Definition signed32 (u : Z) : Z :=
  if Z.testbit u 31 then (u - 2 ^ 32)%Z else u.

(** [struct.unpack_from('>i', raw)]; the buffer must hold 4 bytes. *)
Definition unpack_big (raw : list byte) : result Z :=
  match raw with
  | b0 :: b1 :: b2 :: b3 :: _ =>
      Ok (signed32 (Z.lor (Z.shiftl (byte_val b0) 24)
                   (Z.lor (Z.shiftl (byte_val b1) 16)
                   (Z.lor (Z.shiftl (byte_val b2) 8) (byte_val b3)))))
  | _ => Raise StructError
  end.

(** [struct.unpack_from('<i', raw)] *)
Definition unpack_little (raw : list byte) : result Z :=
  match raw with
  | b0 :: b1 :: b2 :: b3 :: _ =>
      Ok (signed32 (Z.lor (Z.shiftl (byte_val b3) 24)
                   (Z.lor (Z.shiftl (byte_val b2) 16)
                   (Z.lor (Z.shiftl (byte_val b1) 8) (byte_val b0)))))
  | _ => Raise StructError
  end.

(** [b'EMDATABANK\.org ANY (EMD\-\d+)'], where [ANY] stands for the greedy
    [.] repetition of the source pattern (no spaces around it). *)
Definition emdb_re : regex :=
  (Lit "EMDATABANK.org" ⋅ Star dot ⋅ Grp 1 (Lit "EMD-" ⋅ Plus digit))%re.

(** What one pass of the loop body finds in a label. *)
Definition label_code (raw : list byte) : option string :=
  match Re.search emdb_re (Py.bytes_strip (string_of_list_byte raw)) with
  | Some m => Some (group m 1)
  | None => None
  end.

(** [for i in range(num_labels)]: the loop of [_get_emdb], with the
    number of passes that are left. *)
Fixpoint scan_labels (passes : nat) (fh : handle) : option string :=
  match passes with
  | O => None
  | S passes' =>
      let '(raw, fh') := read 80 fh in
      match label_code raw with
      | Some c => Some c
      | None => scan_labels passes' fh'
      end
  end.

(** [MRCParser._get_emdb] *)
Definition get_emdb (content : list byte) : result (option string) :=
  let fh := seek 220 (open_rb content) in
  let '(num_labels_raw, fh) := read 4 fh in
  num_labels_big ← unpack_big num_labels_raw;
  num_labels_little ← unpack_little num_labels_raw;
  let num_labels := Z.min num_labels_big num_labels_little in
  Ok (scan_labels (Z.to_nat num_labels) fh).

(** Python subscription [v[k]] with a string key. *)
Definition getitem (v : pyval) (k : string) : result pyval :=
  match v with
  | PDict items =>
      match List.find (fun kv => String.eqb (fst kv) k) items with
      | Some kv => Ok (snd kv)
      | None => Raise (KeyError k)
      end
  | _ => Raise TypeError
  end.

(** Python subscription [v[0]]. *)
Definition getitem0 (v : pyval) : result pyval :=
  match v with
  | PList (x :: _) => Ok x
  | PList [] => Raise IndexError
  | PStr (String c _) => Ok (PStr (String c EmptyString))
  | PStr EmptyString => Raise IndexError
  | PDict _ => Raise (KeyError "0")
  | _ => Raise TypeError
  end.

(** The URL that [_get_emdb_info] requests for an entry. *)
Definition summary_url (emdb : string) : string :=
  "https://www.ebi.ac.uk/pdbe/api/emdb/entry/summary/" +:+ emdb.

Section Network.

(** The EMDB web service: what [json.load(urllib2.urlopen(req))] gives for
    the URL requested. *)
Variable urlopen_json : string -> result pyval.

(** [MRCParser._get_emdb_info] *)
Definition get_emdb_info (emdb : string) : result (pyval * pyval) :=
  contents ← urlopen_json (summary_url emdb);
  keys ← match contents with
         | PDict items => Ok (map fst items)
         | _ => Raise AttributeError
         end;
  key0 ← match keys with
         | k :: _ => Ok k
         | [] => Raise IndexError
         end;
  entry ← getitem contents key0;
  first ← getitem0 entry;
  info ← getitem first "deposition";
  date ← getitem info "map_release_date";
  title ← getitem info "title";
  Ok (date, title).

(** [MRCParser.parse_file]; the dictionary returned has the one key
    ['dataset'], whose value is given here. *)
Definition parse_file (filename : string) (content : list byte) : result Dataset :=
  emdb ← get_emdb content;
  l ← match emdb with
      | Some (String _ _ as code) =>
          '(version, details) ← get_emdb_info code;
          Ok (EMDBLocation code version
                (if truthy details then details
                 else PStr "Electron microscopy density map"))
      | _ =>
          Ok (InputFileLocation filename None
                (PStr "Electron microscopy density map"))
      end;
  Ok (EMDensityDataset l).

End Network.

(** *** The scanner, as the specification words it *)

(** The unsigned value of four bytes, most significant first. *)
Definition word32 (b0 b1 b2 b3 : byte) : Z :=
  (byte_val b0 * 2 ^ 24 + byte_val b1 * 2 ^ 16 + byte_val b2 * 2 ^ 8 + byte_val b3)%Z.

(** The signed reading of an unsigned 32-bit value. *)
Definition twos_complement32 (u : Z) : Z :=
  if (u <? 2 ^ 31)%Z then u else (u - 2 ^ 32)%Z.

(** The label count: the smaller of the two readings of bytes 220..223. *)
Definition label_count (content : list byte) : result Z :=
  let field := take 4 (drop 220 content) in
  be ← unpack_big field;
  le ← unpack_little field;
  Ok (Z.min be le).

(** How many 80-byte reads after the count field return any byte. *)
Definition records_to_eof (content : list byte) : nat :=
  (length content - 224 + 79) / 80.

(** The first [n] consecutive 80-byte records of [rest]; past the end of
    the file they are short, then empty. *)
Fixpoint label_records (n : nat) (rest : list byte) : list (list byte) :=
  match n with
  | O => []
  | S n' => take 80 rest :: label_records n' (drop 80 rest)
  end.

(** The code of the first record that holds one. *)
Fixpoint first_code (records : list (list byte)) : option string :=
  match records with
  | [] => None
  | r :: records' =>
      match label_code r with
      | Some c => Some c
      | None => first_code records'
      end
  end.

(** The decimal digits that [s] starts with. *)
Fixpoint leading_digits (s : string) : string :=
  match s with
  | String c s' => if Py.isdigit c then String c (leading_digits s') else EmptyString
  | EmptyString => EmptyString
  end.

(** The accession code that [s] starts with: [EMD-] and the decimal
    digits that follow it, one at least. *)
Definition code_at (s : string) : option string :=
  if Py.startswith s "EMD-" then
    match leading_digits (Py.sdrop 4 s) with
    | EmptyString => None
    | digits => Some ("EMD-" +:+ digits)
    end
  else None.

(** The last accession code that starts on the first line of [s]. *)
Fixpoint last_code_on_line (s : string) : option string :=
  match s with
  | EmptyString => None
  | String c s' =>
      if Ascii.eqb c Py.newline then None
      else match last_code_on_line s' with
           | Some code => Some code
           | None => code_at s
           end
  end.

(** The code that a text is marked with: at the first [EMDATABANK.org]
    that has an accession code behind it on the same line, the last code
    of that line. *)
Fixpoint marked_code (s : string) : option string :=
  let here := if Py.startswith s "EMDATABANK.org"
              then last_code_on_line (Py.sdrop 14 s) else None in
  match here with
  | Some code => Some code
  | None =>
      match s with
      | String _ s' => marked_code s'
      | EmptyString => None
      end
  end.

(** The accession code of a label record: the code that its text,
    without the white space around it, is marked with. *)
Definition accession (raw : list byte) : option string :=
  marked_code (Py.bytes_strip (string_of_list_byte raw)).

(** The accession code of the first record that has one. *)
Fixpoint first_accession (records : list (list byte)) : option string :=
  match records with
  | [] => None
  | r :: records' =>
      match accession r with
      | Some c => Some c
      | None => first_accession records'
      end
  end.

End MRC.

(** ** PDBParser *)

Module PDB.

(** ['REMARK   6 ALIGNMENT: (\S+)'] *)
Definition alnfilere : regex :=
  (Lit "REMARK   6 ALIGNMENT: " ⋅ Grp 1 (Plus nonspace))%re.

(** ['REMARK   6 TEMPLATE PATH (\S+) (\S+)'] *)
Definition tmppathre : regex :=
  (Lit "REMARK   6 TEMPLATE PATH " ⋅ Grp 1 (Plus nonspace) ⋅ Lit " "
   ⋅ Grp 2 (Plus nonspace))%re.

(** ['REMARK   6 TEMPLATE: (\S+) (\S+):(\S+) \- (\S+):\S+ MODELS
     (\S+):\S+ \- (\S+):\S+ AT (\S+)%'] *)
Definition tmpre : regex :=
  (Lit "REMARK   6 TEMPLATE: "
   ⋅ Grp 1 (Plus nonspace) ⋅ Lit " "
   ⋅ Grp 2 (Plus nonspace) ⋅ Lit ":" ⋅ Grp 3 (Plus nonspace) ⋅ Lit " - "
   ⋅ Grp 4 (Plus nonspace) ⋅ Lit ":" ⋅ Plus nonspace ⋅ Lit " MODELS "
   ⋅ Grp 5 (Plus nonspace) ⋅ Lit ":" ⋅ Plus nonspace ⋅ Lit " - "
   ⋅ Grp 6 (Plus nonspace) ⋅ Lit ":" ⋅ Plus nonspace ⋅ Lit " AT "
   ⋅ Grp 7 (Plus nonspace) ⋅ Lit "%")%re.

(** ['(\d[a-zA-Z0-9]{3})[a-zA-Z](_ANY)?$'], where [ANY] stands for the
    greedy [.] repetition of the source pattern. *)
Definition pdb_code_re : regex :=
  (Grp 1 (Cls digit ⋅ Cls Py.isalnum ⋅ Cls Py.isalnum ⋅ Cls Py.isalnum)
   ⋅ Cls Py.isalpha ⋅ Opt (Grp 2 (Lit "_" ⋅ Star dot)) ⋅ Eos)%re.

(** [_parse_pdb_records]: the loop, with its two accumulators. *)
Fixpoint pdb_records_loop (fh : list string) (details : string)
    (metadata : list PDBHelix) : string * list PDBHelix :=
  match fh with
  | [] => (details, metadata)
  | line :: fh' =>
      if Py.startswith line "TITLE" then
        pdb_records_loop fh' (details +:+ Py.rstrip (Py.sdrop 10 line)) metadata
      else if Py.startswith line "HELIX" then
        pdb_records_loop fh' details (metadata ++ [{| helix_line := line |}])
      else pdb_records_loop fh' details metadata
  end.

(** [PDBParser._parse_pdb_records] *)
Definition parse_pdb_records (fh : list string) (first_line : string)
    : string * pyval * list PDBHelix :=
  let '(details, metadata) := pdb_records_loop fh EmptyString [] in
  (Py.strip (Py.slice 50 59 first_line),
   if truthy (PStr details) then PStr details else PNone,
   metadata).

(** [_parse_details]: the loop, which a line starting with [ATOM] ends. *)
Fixpoint details_loop (fh : list string) (details : string) : string :=
  match fh with
  | [] => details
  | line :: fh' =>
      if Py.startswith line "TITLE" then
        details_loop fh' (details +:+ Py.rstrip (Py.sdrop 10 line))
      else if Py.startswith line "ATOM" then details
      else details_loop fh' details
  end.

(** [PDBParser._parse_details] *)
Definition parse_details (fh : list string) : string := details_loop fh EmptyString.

Definition set_metadata (ret : Ret) (m : list PDBHelix) : Ret :=
  {| ret_templates := ret_templates ret; ret_software := ret_software ret;
     ret_metadata := m; ret_dataset := ret_dataset ret |}.

Definition set_dataset (ret : Ret) (d : Dataset) : Ret :=
  {| ret_templates := ret_templates ret; ret_software := ret_software ret;
     ret_metadata := ret_metadata ret; ret_dataset := Some d |}.

Definition set_templates (ret : Ret) (t : list Template) : Ret :=
  {| ret_templates := t; ret_software := ret_software ret;
     ret_metadata := ret_metadata ret; ret_dataset := ret_dataset ret |}.

(** [ret['software'][name] = v] *)
Definition set_software (ret : Ret) (name : string) (v : pyval) : Ret :=
  {| ret_templates := ret_templates ret;
     ret_software := <[name := v]> (ret_software ret);
     ret_metadata := ret_metadata ret; ret_dataset := ret_dataset ret |}.

(** [PDBParser._parse_official_pdb] *)
Definition parse_official_pdb (fh : list string) (first_line : string)
    (ret : Ret) : Ret :=
  let '(version, details, metadata) := parse_pdb_records fh first_line in
  let l := PDBLocation (Py.strip (Py.slice 62 66 first_line)) (PStr version) details in
  let ret := set_metadata ret metadata in
  set_dataset ret (PDBDataset l).

(** [PDBParser._parse_derived_from_pdb] *)
Definition parse_derived_from_pdb (fh : list string) (first_line : string)
    (local_file : Location) (ret : Ret) : Ret :=
  let local_file := set_details local_file (PStr (parse_details fh)) in
  let db_code := Py.strip (Py.sdrop 27 first_line) in
  let d := PDBDataset local_file in
  let d := append_parent d (PDBDataset (PDBLocation db_code PNone PNone)) in
  set_dataset ret d.

(** [PDBParser._parse_derived_from_model] *)
Definition parse_derived_from_model (fh : list string) (first_line : string)
    (local_file : Location) (ret : Ret) : Ret :=
  let local_file := set_details local_file (PStr (parse_details fh)) in
  let d := ComparativeModelDataset local_file in
  let repo := {| doi := Py.strip (Py.sdrop 46 first_line) |} in
  let orig_loc := InputFileLocation "." (Some repo)
                    (PStr "Starting comparative model structure") in
  let d := append_parent d (ComparativeModelDataset orig_loc) in
  set_dataset ret d.

(** Sorting by [seq_id_range], as [sorted(..., key=...)] does: tuples
    compare lexicographically, and the sort is stable. *)
Definition range_lt (a b : Z * Z) : bool :=
  (a.1 <? b.1)%Z || ((a.1 =? b.1)%Z && (a.2 <? b.2)%Z).

Fixpoint insert_template (t : Template) (l : list Template) : list Template :=
  match l with
  | [] => [t]
  | u :: l' =>
      if range_lt (seq_id_range u) (seq_id_range t)
      then u :: insert_template t l'
      else t :: u :: l'
  end.

Fixpoint sorted_by_range (l : list Template) : list Template :=
  match l with
  | [] => []
  | t :: l' => insert_template t (sorted_by_range l')
  end.

(** The location that the code [template_code] stands for: the branch on
    [re.match(...)] in [_handle_template]. *)
Definition template_location (template_code : string)
    (template_path_map : gmap string string) : result Location :=
  match Re.match_ pdb_code_re template_code with
  | Some m =>
      let template_db_code := Py.upper (group m 1) in
      Ok (PDBLocation template_db_code PNone PNone)
  | None =>
      match template_path_map !! template_code with
      | Some fname =>
          Ok (InputFileLocation fname None (PStr "Template for comparative modeling"))
      | None => Raise (KeyError template_code)
      end
  end.

(** [PDBParser._handle_template]; the target dataset, to which a parent is
    appended, is returned with the template. *)
Definition handle_template (info : groups) (template_path_map : gmap string string)
    (target_dataset : Dataset) (alnfile : option Location)
    : result (Template * Dataset) :=
  let template_code := group info 1 in
  tstart ← Py.int (group info 2);
  tend ← Py.int (group info 4);
  let template_seq_id_range := (tstart, tend) in
  let template_asym_id := group info 3 in
  mstart ← Py.int (group info 5);
  mend ← Py.int (group info 6);
  let seq_id_range := (mstart, mend) in
  sequence_identity ← Py.float (group info 7);
  l ← template_location template_code template_path_map;
  let d := PDBDataset l in
  let target_dataset := append_parent target_dataset d in
  Ok ({| dataset := d; asym_id := template_asym_id;
         seq_id_range := seq_id_range;
         template_seq_id_range := template_seq_id_range;
         sequence_identity := sequence_identity;
         alignment_file := alnfile |}, target_dataset).

(** [[self._handle_template(t, ...) for t in template_info]] *)
Fixpoint handle_templates (template_info : list groups)
    (template_path_map : gmap string string) (target_dataset : Dataset)
    (alnfile : option Location) : result (list Template * Dataset) :=
  match template_info with
  | [] => Ok ([], target_dataset)
  | t :: rest =>
      '(tpl, target_dataset) ← handle_template t template_path_map target_dataset alnfile;
      '(tpls, target_dataset) ← handle_templates rest template_path_map target_dataset alnfile;
      Ok (tpl :: tpls, target_dataset)
  end.

(** The accumulators of the header scan in [_get_templates]. *)
Record scan : Type := {
  template_path_map : gmap string string;
  alnfile : option Location;
  template_info : list groups
}.

Definition scan0 : scan :=
  {| template_path_map := ∅; alnfile := None; template_info := [] |}.

Section Util.

(** [ihm.util._get_relative_path], which is not part of the source at
    hand: the path [path], read relative to the directory of [reference]. *)
Variable get_relative_path : string -> string -> string.

(** [ihm.format.CifWriter.unknown], the marker of an unknown value. *)
Variable unknown : pyval.

(** The body of the loop over the header lines. *)
Definition scan_line (pdbname line : string) (st : scan) : scan :=
  let st :=
    match Re.match_ tmppathre line with
    | Some m =>
        {| template_path_map :=
             <[group m 1 := get_relative_path pdbname (group m 2)]>
               (template_path_map st);
           alnfile := alnfile st; template_info := template_info st |}
    | None => st
    end in
  let st :=
    match Re.match_ alnfilere line with
    | Some m =>
        let fname := get_relative_path pdbname (group m 1) in
        {| template_path_map := template_path_map st;
           alnfile := Some (InputFileLocation fname None
                              (PStr "Alignment for starting comparative model"));
           template_info := template_info st |}
    | None => st
    end in
  match Re.match_ tmpre line with
  | Some m =>
      {| template_path_map := template_path_map st; alnfile := alnfile st;
         template_info := template_info st ++ [m] |}
  | None => st
  end.

(** [for line in fh], left at the first line that starts with [ATOM]. *)
Fixpoint scan_header (pdbname : string) (fh : list string) (st : scan) : scan :=
  match fh with
  | [] => st
  | line :: fh' =>
      if Py.startswith line "ATOM" then st
      else scan_header pdbname fh' (scan_line pdbname line st)
  end.

(** [PDBParser._get_templates]; [content] is what [open(pdbname)] reads. *)
Definition get_templates (pdbname : string) (content : list string)
    (target_dataset : Dataset) : result (list Template * Dataset) :=
  let st := scan_header pdbname content scan0 in
  '(templates, target_dataset) ←
    handle_templates (template_info st) (template_path_map st)
      target_dataset (alnfile st);
  Ok (sorted_by_range templates, target_dataset).

(** [PDBParser._handle_comparative_model]; [ret['dataset']] is the object
    whose parents [_get_templates] extends. *)
Definition handle_comparative_model (local_file : Location) (pdbname : string)
    (content : list string) (ret : Ret) : result Ret :=
  let d := ComparativeModelDataset local_file in
  '(templates, d) ← get_templates pdbname content d;
  let ret := set_dataset ret d in
  Ok (set_templates ret templates).

(** [PDBParser._parse_modeller_model] *)
Definition parse_modeller_model (first_line : string) (local_file : Location)
    (filename : string) (content : list string) (ret : Ret) : result Ret :=
  let ret := set_software ret "modeller"
               (PList (map PStr (Py.split_space_once (Py.sdrop 38 first_line)))) in
  handle_comparative_model local_file filename content ret.

(** [PDBParser._parse_phyre_model] *)
Definition parse_phyre_model (first_line : string) (local_file : Location)
    (filename : string) (content : list string) (ret : Ret) : result Ret :=
  let ret := set_software ret "phyre2" unknown in
  handle_comparative_model local_file filename content ret.

(** [PDBParser._parse_unknown_model] *)
Definition parse_unknown_model (first_line : string) (local_file : Location)
    (filename : string) (content : list string) (ret : Ret) : result Ret :=
  handle_comparative_model local_file filename content ret.

(** The six header dialects that the first line selects. *)
Inductive dialect : Type :=
| Official | DerivedFromPDB | DerivedFromModel | Modeller | Phyre | Unknown.

Definition classify (first_line : string) : dialect :=
  if Py.startswith first_line "HEADER" then Official
  else if Py.startswith first_line "EXPDTA    DERIVED FROM PDB:" then DerivedFromPDB
  else if Py.startswith first_line "EXPDTA    DERIVED FROM COMPARATIVE MODEL, DOI:"
  then DerivedFromModel
  else if Py.startswith first_line "EXPDTA    THEORETICAL MODEL, MODELLER" then Modeller
  else if Py.startswith first_line "REMARK  99  Chain ID :" then Phyre
  else Unknown.

(** [PDBParser.parse_file]; [content] is what [open(filename)] reads. *)
Definition parse_file (filename : string) (content : list string) : result Ret :=
  let ret := {| ret_templates := []; ret_software := ∅; ret_metadata := [];
                ret_dataset := None |} in
  let first_line := hd EmptyString content in
  let fh := tl content in
  let local_file := InputFileLocation filename None (PStr "Starting model structure") in
  match classify first_line with
  | Official => Ok (parse_official_pdb fh first_line ret)
  | DerivedFromPDB => Ok (parse_derived_from_pdb fh first_line local_file ret)
  | DerivedFromModel => Ok (parse_derived_from_model fh first_line local_file ret)
  | Modeller => parse_modeller_model first_line local_file filename content ret
  | Phyre => parse_phyre_model first_line local_file filename content ret
  | Unknown => parse_unknown_model first_line local_file filename content ret
  end.

End Util.

(** *** The extractors, as the specification words them *)

(** The text that a [TITLE] line contributes. *)
Definition title_text (line : string) : string := Py.rstrip (Py.sdrop 10 line).

(** The text of all [TITLE] lines among [lines], in order. *)
Fixpoint titles (lines : list string) : string :=
  match lines with
  | [] => EmptyString
  | line :: lines' =>
      if Py.startswith line "TITLE" then title_text line +:+ titles lines'
      else titles lines'
  end.

(** One raw record for each [HELIX] line among [lines]. *)
Definition helices (lines : list string) : list PDBHelix :=
  map (fun line => {| helix_line := line |})
    (List.filter (fun line => Py.startswith line "HELIX") lines).

(** Absent when there is no text. *)
Definition details_value (text : string) : pyval :=
  match text with
  | EmptyString => PNone
  | _ => PStr text
  end.

(** The invariant on [details]: [None], or text that is not empty. *)
Definition details_ok (v : pyval) : bool :=
  match v with
  | PNone => true
  | PStr s => negb (String.eqb s EmptyString)
  | _ => false
  end.

(** The shape of a canonical accession with a chain letter: a digit,
    three alphanumerics, one letter, and then nothing or a suffix that
    starts with an underscore. *)
Definition accession_shape (code : string) : bool :=
  match code with
  | String c1 (String c2 (String c3 (String c4 (String c5 suffix)))) =>
      Py.isdigit c1 && Py.isalnum c2 && Py.isalnum c3 && Py.isalnum c4
      && Py.isalpha c5
      && match suffix with
         | EmptyString => true
         | String u _ => Ascii.eqb u "_"
         end
  | _ => false
  end.

(** The numeric fields of a statistics record are accepted by [int] and
    [float]. *)
Definition numbers_ok (info : groups) : bool :=
  is_ok (Py.int (group info 2)) && is_ok (Py.int (group info 4))
  && is_ok (Py.int (group info 5)) && is_ok (Py.int (group info 6))
  && is_ok (Py.float (group info 7)).

(** Tuple order on residue ranges: by start, then by end. *)
Definition range_le (a b : Z * Z) : Prop :=
  (a.1 < b.1)%Z \/ (a.1 = b.1 /\ (a.2 <= b.2)%Z).

(** The header: the lines before the first one that starts with [ATOM]. *)
Fixpoint header_lines (content : list string) : list string :=
  match content with
  | [] => []
  | line :: content' =>
      if Py.startswith line "ATOM" then [] else line :: header_lines content'
  end.

(** The per-template statistics records of the header, as matched. *)
Definition statistics_records (content : list string) : list groups :=
  omap (Re.match_ tmpre) (header_lines content).

(** The search-path table that the header scan builds. *)
Definition search_paths (get_relative_path : string -> string -> string)
    (pdbname : string) (content : list string) : gmap string string :=
  template_path_map (scan_header get_relative_path pdbname content scan0).

(** A code resolves when it has the accession shape or the table holds
    it. *)
Definition resolvable (table : gmap string string) (code : string) : Prop :=
  accession_shape code = true \/ is_Some (table !! code).

(** A record is fine when its numbers convert and its code resolves. *)
Definition record_fine (table : gmap string string) (info : groups) : Prop :=
  numbers_ok info = true /\ resolvable table (group info 1).

(** The numeric fields of a statistics record, in the order in which
    [_handle_template] converts them, each with whether it converts. *)
Definition number_fields (info : groups) : list (string * bool) :=
  [(group info 2, is_ok (Py.int (group info 2)));
   (group info 4, is_ok (Py.int (group info 4)));
   (group info 5, is_ok (Py.int (group info 5)));
   (group info 6, is_ok (Py.int (group info 6)));
   (group info 7, is_ok (Py.float (group info 7)))].

(** The error of a record that is not fine: the conversion error of the
    first numeric field that does not convert, or, when all of them
    convert, the lookup error of a code that has not the accession shape
    and that the table does not hold. *)
Definition record_exn (table : gmap string string) (info : groups) : option exn :=
  match List.find (fun field => negb (snd field)) (number_fields info) with
  | Some field => Some (ValueError (fst field))
  | None =>
      if accession_shape (group info 1) then None
      else match table !! group info 1 with
           | Some _ => None
           | None => Some (KeyError (group info 1))
           end
  end.

(** The order in which [sorted] leaves the templates. *)
Definition template_le (t u : Template) : Prop :=
  range_le (seq_id_range t) (seq_id_range u).

(** The dialects that go through [_handle_comparative_model]. *)
Definition comparative (d : dialect) : bool :=
  match d with
  | Modeller | Phyre | Unknown => true
  | _ => false
  end.

End PDB.

(** ** util/make-mmcif.py *)

Module MakeMMCIF.

(** [not x] for an attribute that holds [None] or an object whose truth
    value is [truth]. *)
Definition falsy {A} (truth : A -> bool) (x : option A) : bool :=
  match x with
  | None => true
  | Some a => negb (truth a)
  end.

Definition str_truth (s : string) : bool := negb (String.eqb s EmptyString).

Section Classes.

(** The classes of [ihm] that the script uses are not part of the source
    at hand: their objects, their constructors and the truth values of
    their objects are parameters. *)
Variables asym segment assembly representation protocol other : Type.
Variable Assembly : list asym -> string -> assembly.
Variable AtomicSegment : asym -> bool -> segment.
Variable Representation : list segment -> representation.
Variable Protocol : string -> protocol.
Variable assembly_truth : assembly -> bool.
Variable representation_truth : representation -> bool.
Variable protocol_truth : protocol -> bool.

(** A model: the three attributes that [add_ihm_info] looks at, and the
    rest of the object. *)
Record Model : Type := {
  assembly_of : option assembly;
  representation_of : option representation;
  protocol_of : option protocol;
  model_rest : other
}.

(** A system: state groups hold states, states hold model groups, model
    groups hold models. *)
Record System : Type := {
  title : option string;
  asym_units : list asym;
  state_groups : list (list (list (list Model)));
  system_rest : other
}.

(** The body of the innermost loop. *)
Definition fill_model (default_assembly : assembly)
    (default_representation : representation) (default_protocol : protocol)
    (model : Model) : Model :=
  let model :=
    if falsy assembly_truth (assembly_of model)
    then {| assembly_of := Some default_assembly;
            representation_of := representation_of model;
            protocol_of := protocol_of model; model_rest := model_rest model |}
    else model in
  let model :=
    if falsy representation_truth (representation_of model)
    then {| assembly_of := assembly_of model;
            representation_of := Some default_representation;
            protocol_of := protocol_of model; model_rest := model_rest model |}
    else model in
  if falsy protocol_truth (protocol_of model)
  then {| assembly_of := assembly_of model;
          representation_of := representation_of model;
          protocol_of := Some default_protocol; model_rest := model_rest model |}
  else model.

(** [add_ihm_info] *)
Definition add_ihm_info (s : System) : System :=
  let s :=
    if falsy str_truth (title s)
    then {| title := Some "Auto-generated system"; asym_units := asym_units s;
            state_groups := state_groups s; system_rest := system_rest s |}
    else s in
  let default_assembly := Assembly (asym_units s) "Modeled assembly" in
  let default_representation :=
    Representation (map (fun asym => AtomicSegment asym false) (asym_units s)) in
  let default_protocol := Protocol "modeling" in
  {| title := title s; asym_units := asym_units s;
     state_groups :=
       map (fun state_group =>
              map (fun state =>
                     map (fun model_group =>
                            map (fill_model default_assembly
                                   default_representation default_protocol)
                              model_group)
                       state)
                state_group)
         (state_groups s);
     system_rest := system_rest s |}.

(** All the models of a system, in the order of the loops. *)
Definition models (s : System) : list Model :=
  concat (concat (concat (state_groups s))).

(** The sizes of the groups, level by level. *)
Definition shape (s : System) : list (list (list nat)) :=
  map (map (map length)) (state_groups s).

End Classes.

Arguments Build_Model {assembly representation protocol other}.
Arguments assembly_of {assembly representation protocol other}.
Arguments representation_of {assembly representation protocol other}.
Arguments protocol_of {assembly representation protocol other}.
Arguments model_rest {assembly representation protocol other}.
Arguments Build_System {asym assembly representation protocol other}.
Arguments title {asym assembly representation protocol other}.
Arguments asym_units {asym assembly representation protocol other}.
Arguments state_groups {asym assembly representation protocol other}.
Arguments system_rest {asym assembly representation protocol other}.
Arguments fill_model {assembly representation protocol other}.
Arguments add_ihm_info {asym segment assembly representation protocol other}.
Arguments models {asym assembly representation protocol other}.
Arguments shape {asym assembly representation protocol other}.

End MakeMMCIF.

(** ** The parser classes *)

Module Parsers.

(** The classes of [ihm.metadata]: the base class and the two parsers. *)
Inductive parser : Type := Parser | MRCParser | PDBParser.

(** What [parse_file] returns: [None] for the base class, the dictionary
    with the one key ['dataset'] for a density map, the dictionary of
    four keys for a structure file. *)
Inductive extracted : Type :=
| Nothing
| DensityMap (dataset : Dataset)
| Structure (ret : Ret).

Section World.

(** The files: what [open(filename, 'rb')] reads, and the lines that
    [open(filename)] yields. *)
Variable read_bytes : string -> list byte.
Variable read_lines : string -> list string.

(** The network: the EMDB web service. *)
Variable urlopen_json : string -> result pyval.

Variable get_relative_path : string -> string -> string.
Variable unknown : pyval.

(** [p.parse_file(filename)] *)
Definition parse_file (p : parser) (filename : string) : result extracted :=
  match p with
  | Parser => Ok Nothing
  | MRCParser =>
      d ← MRC.parse_file urlopen_json filename (read_bytes filename);
      Ok (DensityMap d)
  | PDBParser =>
      ret ← PDB.parse_file get_relative_path unknown filename (read_lines filename);
      Ok (Structure ret)
  end.

End World.

End Parsers.

(** ** Further notions used to state properties *)

Module Notions.
Import PDB.

(** The alignment file that the header names: that of its last alignment
    record, if it has one. *)
Definition header_alignment (get_relative_path : string -> string -> string)
    (pdbname : string) (content : list string) : option Location :=
  match last (omap (Re.match_ alnfilere) (header_lines content)) with
  | Some m =>
      Some (InputFileLocation (get_relative_path pdbname (group m 1)) None
              (PStr "Alignment for starting comparative model"))
  | None => None
  end.

(** The template that a statistics record stands for. *)
Definition template_of (table : gmap string string) (info : groups)
    (t : Template) : Prop :=
  Py.int (group info 2) = Ok (template_seq_id_range t).1 /\
  Py.int (group info 4) = Ok (template_seq_id_range t).2 /\
  Py.int (group info 5) = Ok (seq_id_range t).1 /\
  Py.int (group info 6) = Ok (seq_id_range t).2 /\
  Py.float (group info 7) = Ok (sequence_identity t) /\
  asym_id t = group info 3 /\
  exists l, template_location (group info 1) table = Ok l /\
            dataset t = PDBDataset l.

(** A line is a template-path record of [code]. *)
Definition path_record_of (code line : string) : Prop :=
  exists m, Re.match_ tmppathre line = Some m /\ group m 1 = code.

(** The prefixes that [PDBParser.parse_file] tests, in its order. *)
Definition dialect_prefixes : list string :=
  ["HEADER"; "EXPDTA    DERIVED FROM PDB:";
   "EXPDTA    DERIVED FROM COMPARATIVE MODEL, DOI:";
   "EXPDTA    THEORETICAL MODEL, MODELLER"; "REMARK  99  Chain ID :"].

(** The text of an EMDB code: [EMD-] and one digit or more. *)
Definition emdb_code (code : string) : Prop :=
  exists digits, code = "EMD-" +:+ digits /\ digits <> EmptyString /\
                 Py.all_chars Py.isdigit digits = true.

End Notions.

(** ** Sample inputs *)

Module Samples.

Definition nl : string := String Py.newline EmptyString.

(** A label record: [text], padded with spaces to 80 bytes. *)
Definition label (text : string) : list byte :=
  take 80 (list_byte_of_string text ++ repeat x20 80).

(** A density map whose count field holds the bytes 00 00 00 01 and whose
    first label carries an EMDB code. *)
Definition emdb_map : list byte :=
  repeat x00 220 ++ [x00; x00; x00; x01]
  ++ label "::::EMDATABANK.org::::EMD-1234::::" ++ repeat x00 800.

(** A file cut short before the count field. *)
Definition truncated_map : list byte := repeat x00 100.

(** A density map whose count field reads 11 (bytes 00 00 00 0b), with ten
    blank labels in its header (bytes 224 to 1023) and map data that
    happen to spell an EMDB marker right after the header. *)
Definition overcount_map : list byte :=
  repeat x00 220 ++ [x00; x00; x00; x0b]
  ++ repeat x20 800
  ++ list_byte_of_string "EMDATABANK.org EMD-1" ++ repeat x00 60.

(** A density map with a negative label count (bytes ff ff ff ff). *)
Definition negative_count_map : list byte :=
  repeat x00 220 ++ [xff; xff; xff; xff]
  ++ label "::::EMDATABANK.org::::EMD-1234::::" ++ repeat x00 720.

Definition emdb_summary (release title : pyval) : pyval :=
  PDict [("EMD-1234",
          PList [PDict [("deposition",
                         PDict [("map_release_date", release);
                                ("title", title)])]])].

(** Two states of the EMDB web service, and the service out of reach. *)
Definition service_2016 (url : string) : result pyval :=
  Ok (emdb_summary (PStr "2016-01-01") (PStr "A ribosome")).
Definition service_2020 (url : string) : result pyval :=
  Ok (emdb_summary (PStr "2020-06-30") (PStr "A ribosome, revised")).
Definition service_down (url : string) : result pyval :=
  Raise (URLError "unreachable").

(** A service that knows the entry EMD-1234 only. *)
Definition service_one_entry (url : string) : result pyval :=
  if String.eqb url (MRC.summary_url "EMD-1234") then service_2016 url
  else Raise (URLError "not found").

(** [os.path.join(os.path.dirname(reference), path)] on POSIX paths, as
    an instance of [_get_relative_path]. *)
Fixpoint dirname (s : string) : string :=
  match s with
  | EmptyString => EmptyString
  | String c s' =>
      match dirname s' with
      | EmptyString => if Ascii.eqb c "/" then "/" else EmptyString
      | d => String c d
      end
  end.

Definition relative_path (reference path : string) : string :=
  if Py.startswith path "/" then path
  else match dirname reference with
       | EmptyString => path
       | d => d +:+ path
       end.

Definition unknown : pyval := PStr "?".

(** The two lines of the official-record scenario, and the header line
    with the code moved one column to the right, into columns 63 to 66. *)
Definition header_line : string :=
  "HEADER    TEST STRUCTURE                         12-JAN-20   1ABC".
Definition title_line : string := "TITLE     A SAMPLE".
Definition aligned_header_line : string :=
  "HEADER    TEST STRUCTURE                          12-JAN-20   1ABC".

(** Headers of the other dialects. *)
Definition derived_pdb_line : string := "EXPDTA    DERIVED FROM PDB:1ABC".
Definition derived_model_line : string :=
  "EXPDTA    DERIVED FROM COMPARATIVE MODEL, DOI:10.1093/nar/gkt704".
Definition modeller_line : string :=
  "EXPDTA    THEORETICAL MODEL, MODELLER 9.18 2017/02/10 22:21:34".
Definition phyre_line : string := "REMARK  99  Chain ID : 1".
Definition atom_line : string :=
  "ATOM      1  N   MET A   1      27.340  24.430   2.614  1.00  9.67".

(** Template records of a MODELLER header. *)
Definition template_1xyz : string :=
  "REMARK   6 TEMPLATE: 1xyzA 10:A - 120:A MODELS 5:A - 115:A AT 45.0%".
Definition template_local : string :=
  "REMARK   6 TEMPLATE: tmpl 3:B - 90:B MODELS 1:A - 88:A AT 30.5%".
Definition template_path_local : string :=
  "REMARK   6 TEMPLATE PATH tmpl ../templates/tmpl.pdb".
Definition alignment_record : string := "REMARK   6 ALIGNMENT: model.ali".
(** A record of the statistics grammar whose first residue number is not
    a number, with a code of the accession shape and with one that is in
    no table. *)
Definition template_bad_number : string :=
  "REMARK   6 TEMPLATE: 1xyzA x:A - 120:A MODELS 5:A - 115:A AT 45.0%".
Definition template_lost_bad_number : string :=
  "REMARK   6 TEMPLATE: lost x:A - 120:A MODELS 5:A - 115:A AT 45.0%".
Definition template_lost : string :=
  "REMARK   6 TEMPLATE: lost 7:A - 120:A MODELS 5:A - 115:A AT 45.0%".

(** Text lines as the file handle yields them. *)
Definition file_lines (lines : list string) : list string :=
  map (fun line => line +:+ nl) lines.

(** A MODELLER model with two templates, the one found first lying
    further along the sequence, an alignment, and a path record that
    follows the record of the template it locates. *)
Definition modeller_file : list string :=
  file_lines [modeller_line; template_1xyz; alignment_record; template_local;
              template_path_local; atom_line; template_lost].

Definition bad_number_file : list string :=
  file_lines [modeller_line; template_bad_number].

Definition lost_template_file : list string :=
  file_lines [modeller_line; template_1xyz; template_lost].

Definition lost_bad_number_file : list string :=
  file_lines [modeller_line; template_lost_bad_number].

(** The match object of a statistics record read from a file. *)
Definition record_of (line : string) : groups :=
  default ∅ (Re.match_ PDB.tmpre (line +:+ nl)).

End Samples.

(** ** Further sample inputs *)

Module MoreSamples.

(** An answer of the web service with two entries and two elements in the
    list of the first. *)
Definition two_entries : pyval :=
  PDict [("EMD-1234",
          PList [PDict [("deposition",
                         PDict [("map_release_date", PStr "2016-01-01");
                                ("title", PStr "")])];
                 PInt 7]);
         ("EMD-9999", PNone)].

Definition service_two_entries (url : string) : result pyval := Ok two_entries.

(** A statistics record with two residue numbers that are no numbers and
    with a code that resolves to nothing. *)
Definition template_two_bad_numbers : string :=
  "REMARK   6 TEMPLATE: lost x:A - y:A MODELS 5:A - 115:A AT 45.0%".

End MoreSamples.

(** ** Strings and patterns *)

Module TextFacts.

Lemma append_cons (c : ascii) (s t : string) :
  String c s +:+ t = String c (s +:+ t).
Proof. reflexivity. Qed.

Lemma append_empty_l (t : string) : EmptyString +:+ t = t.
Proof. reflexivity. Qed.

Lemma append_empty_r (s : string) : s +:+ EmptyString = s.
Proof.
  induction s as [| c s IH]; [reflexivity |].
  rewrite append_cons, IH. reflexivity.
Qed.

Lemma append_assoc (s t u : string) : (s +:+ t) +:+ u = s +:+ (t +:+ u).
Proof.
  induction s as [| c s IH]; [reflexivity |].
  rewrite !append_cons, IH. reflexivity.
Qed.

Lemma length_append (s t : string) :
  String.length (s +:+ t) = String.length s + String.length t.
Proof.
  induction s as [| c s IH]; [reflexivity |].
  rewrite append_cons. cbn [String.length]. rewrite IH. reflexivity.
Qed.

Lemma stake_append (s t : string) : Py.stake (String.length s) (s +:+ t) = s.
Proof.
  induction s as [| c s IH]; [reflexivity |].
  rewrite append_cons. cbn [String.length Py.stake]. rewrite IH. reflexivity.
Qed.

Lemma consumed_text (run rest : string) :
  Py.stake (String.length (run +:+ rest) - String.length rest) (run +:+ rest) = run.
Proof.
  rewrite length_append.
  replace (String.length run + String.length rest - String.length rest)
    with (String.length run) by lia.
  apply stake_append.
Qed.

(** What a successful greedy repetition consumed. *)
Lemma star_match_sound {A} (p : ascii -> bool) (s : string)
    (k : string -> option A) (x : A) :
  star_match p s k = Some x ->
  exists run rest, s = run +:+ rest /\ Py.all_chars p run = true /\ k rest = Some x.
Proof.
  induction s as [| c s IH]; cbn [star_match].
  - intros Hk. exists EmptyString, EmptyString. auto.
  - destruct (p c) eqn:Hc.
    + destruct (star_match p s k) as [y |] eqn:Hstar.
      * intros [= ->]. destruct (IH eq_refl) as (run & rest & -> & Hrun & Hk).
        exists (String c run), rest. cbn [Py.all_chars]. rewrite Hc, Hrun. auto.
      * intros Hk. exists EmptyString, (String c s). auto.
    + intros Hk. exists EmptyString, (String c s). auto.
Qed.

Lemma plus_group (n : nat) (p : ascii -> bool) (s : string) (g : groups)
    (k : string -> groups -> option groups) (m : groups) :
  rmatch (Grp n (Plus p)) s g k = Some m ->
  exists run rest,
    s = run +:+ rest /\ Py.all_chars p run = true /\ k rest (<[n := run]> g) = Some m.
Proof.
  cbn [rmatch]. destruct s as [| c s]; [discriminate |].
  destruct (p c) eqn:Hc; [| discriminate].
  intros Hstar. apply star_match_sound in Hstar as (run & rest & -> & Hrun & Hk).
  exists (String c run), rest. cbn [Py.all_chars]. rewrite Hc, Hrun.
  split; [reflexivity |]. split; [reflexivity |].
  rewrite <- Hk. f_equal. f_equal. symmetry.
  exact (consumed_text (String c run) rest).
Qed.

(** A match leaves alone the groups that the pattern does not capture. *)
Lemma rmatch_keeps (r : regex) :
  forall (s : string) (g : groups) (k : string -> groups -> option groups) (m : groups),
    rmatch r s g k = Some m ->
    exists s' g', k s' g' = Some m /\
                  forall n, captures n r = false -> g' !! n = g !! n.
Proof.
  induction r as [p | p | p | p | r1 IH1 r2 IH2 | i r IH | r IH |];
    intros s g k m; cbn [rmatch captures].
  - destruct (lit_match p s) as [s' |]; [| discriminate]. eauto.
  - destruct s as [| c s]; [discriminate |]. destruct (p c); [| discriminate]. eauto.
  - intros (run & rest & _ & _ & Hk)%star_match_sound. eauto.
  - destruct s as [| c s]; [discriminate |]. destruct (p c); [| discriminate].
    intros (run & rest & _ & _ & Hk)%star_match_sound. eauto.
  - intros (s1 & g1 & H2 & Hkeep1)%IH1.
    apply IH2 in H2 as (s2 & g2 & Hk & Hkeep2).
    exists s2, g2. split; [exact Hk |].
    intros n [Hn1 Hn2]%orb_false_elim. rewrite (Hkeep2 n Hn2). exact (Hkeep1 n Hn1).
  - intros (s1 & g1 & Hk & Hkeep)%IH.
    eexists _, _. split; [exact Hk |].
    intros n [Hni Hn]%orb_false_elim. apply Nat.eqb_neq in Hni.
    rewrite lookup_insert_ne by congruence. exact (Hkeep n Hn).
  - destruct (rmatch r s g k) as [x |] eqn:Hr.
    + intros [= ->]. exact (IH _ _ _ _ Hr).
    + eauto.
  - destruct (at_end s); [| discriminate]. eauto.
Qed.

Lemma rmatch_seq (r1 r2 : regex) (s : string) (g : groups)
    (k : string -> groups -> option groups) :
  rmatch (Seq r1 r2) s g k = rmatch r1 s g (fun s' g' => rmatch r2 s' g' k).
Proof. reflexivity. Qed.

Lemma rmatch_lit (p s : string) (g : groups)
    (k : string -> groups -> option groups) :
  rmatch (Lit p) s g k
  = match lit_match p s with Some s' => k s' g | None => None end.
Proof. reflexivity. Qed.

(** The template code of a statistics record has no blank in it. *)
Lemma tmpre_code_nonspace (line : string) (info : groups) :
  Re.match_ PDB.tmpre line = Some info -> Py.all_chars nonspace (group info 1) = true.
Proof.
  unfold Re.match_, PDB.tmpre. rewrite rmatch_seq, rmatch_lit.
  destruct (lit_match _ line) as [s |]; [| discriminate].
  rewrite rmatch_seq.
  intros (run & rest & _ & Hrun & Hrest)%plus_group.
  apply rmatch_keeps in Hrest as (s' & g' & [= <-] & Hkeep).
  unfold group. rewrite (Hkeep 1 eq_refl), lookup_insert_eq. exact Hrun.
Qed.

(** A repetition that can take the whole text and then go on does so. *)
Lemma star_match_all {A} (p : ascii -> bool) (s : string)
    (k : string -> option A) (x : A) :
  Py.all_chars p s = true -> k EmptyString = Some x -> star_match p s k = Some x.
Proof.
  intros Hall Hk. induction s as [| c s IH]; [exact Hk |].
  cbn [Py.all_chars] in Hall. apply andb_prop in Hall as [Hc Hs].
  cbn [star_match]. rewrite Hc, (IH Hs). reflexivity.
Qed.

Lemma nonspace_dot (c : ascii) : nonspace c = true -> dot c = true.
Proof.
  unfold nonspace, dot. destruct (Ascii.eqb_spec c Py.newline) as [-> | _];
    [discriminate | reflexivity].
Qed.

Lemma all_chars_weaken (p q : ascii -> bool) (s : string) :
  (forall c, p c = true -> q c = true) ->
  Py.all_chars p s = true -> Py.all_chars q s = true.
Proof.
  intros Hpq. induction s as [| c s IH]; [reflexivity |].
  cbn [Py.all_chars]. intros [Hc Hs]%andb_prop.
  rewrite (Hpq c Hc), (IH Hs). reflexivity.
Qed.

(** Backtracking, on the patterns of the module: the greedy [.]
    repetition leaves the last code to the group; a greedy [\S+] gives
    back what the rest of the pattern needs. *)
Example emdb_re_last_code :
  option_map (fun m => group m 1)
    (Re.search MRC.emdb_re "see EMDATABANK.org for EMD-12 and EMD-3456b")
  = Some "EMD-3456".
Proof. vm_compute. reflexivity. Qed.

Example tmppathre_groups :
  option_map (fun m => (group m 1, group m 2))
    (Re.match_ PDB.tmppathre "REMARK   6 TEMPLATE PATH 3f3fC ../3f3fC.pdb  ")
  = Some ("3f3fC", "../3f3fC.pdb").
Proof. vm_compute. reflexivity. Qed.

Example tmpre_groups :
  option_map (fun m => map (group m) [1; 2; 3; 4; 5; 6; 7])
    (Re.match_ PDB.tmpre
       "REMARK   6 TEMPLATE: 3f3fC 33:C - 424:C MODELS 33:A - 424:A AT 100.0%")
  = Some ["3f3fC"; "33"; "C"; "424"; "33"; "424"; "100.0"].
Proof. vm_compute. reflexivity. Qed.

End TextFacts.

(** * Properties *)

(** ** The binary header scanner *)

Module MRCFacts.
Import MRC TextFacts.

Local Open Scope Z_scope.

Lemma byte_val_range (b : byte) : 0 <= byte_val b < 256.
Proof.
  unfold byte_val. pose proof (Byte.to_N_bounded b). lia.
Qed.

Lemma lor_shiftl_add (a b k : Z) :
  0 <= k -> 0 <= b < 2 ^ k -> Z.lor (Z.shiftl a k) b = a * 2 ^ k + b.
Proof.
  intros Hk Hb.
  rewrite Z.shiftl_mul_pow2 by assumption.
  rewrite <- Z.add_lor_land.
  assert (Hland : Z.land (a * 2 ^ k) b = 0).
  { apply Z.bits_inj'. intros n Hn.
    rewrite Z.land_spec, Z.bits_0.
    destruct (Z.lt_ge_cases n k) as [Hlt | Hge].
    - rewrite Z.mul_pow2_bits_low by assumption. reflexivity.
    - rewrite <- (Z.mod_small b (2 ^ k)) by assumption.
      rewrite Z.mod_pow2_bits_high by lia.
      apply andb_false_r. }
  rewrite Hland. lia.
Qed.

Lemma word_of_bytes (b0 b1 b2 b3 : byte) :
  Z.lor (Z.shiftl (byte_val b0) 24)
    (Z.lor (Z.shiftl (byte_val b1) 16)
       (Z.lor (Z.shiftl (byte_val b2) 8) (byte_val b3)))
  = word32 b0 b1 b2 b3.
Proof.
  pose proof (byte_val_range b0). pose proof (byte_val_range b1).
  pose proof (byte_val_range b2). pose proof (byte_val_range b3).
  unfold word32.
  rewrite (lor_shiftl_add (byte_val b2) (byte_val b3) 8) by lia.
  rewrite (lor_shiftl_add (byte_val b1)) by lia.
  rewrite (lor_shiftl_add (byte_val b0)) by lia.
  lia.
Qed.

Lemma word32_range (b0 b1 b2 b3 : byte) : 0 <= word32 b0 b1 b2 b3 < 2 ^ 32.
Proof.
  pose proof (byte_val_range b0). pose proof (byte_val_range b1).
  pose proof (byte_val_range b2). pose proof (byte_val_range b3).
  unfold word32. lia.
Qed.

Lemma signed32_twos_complement (u : Z) :
  0 <= u < 2 ^ 32 -> signed32 u = twos_complement32 u.
Proof.
  intros Hu. unfold signed32, twos_complement32.
  rewrite Z.testbit_eqb by lia.
  destruct (Z.ltb_spec u (2 ^ 31)) as [Hlt | Hge].
  - rewrite Z.div_small by lia. reflexivity.
  - replace (u / 2 ^ 31) with 1; [reflexivity |].
    apply Z.div_unique with (r := u - 2 ^ 31); lia.
Qed.

Lemma unpack_big_word (b0 b1 b2 b3 : byte) (rest : list byte) :
  unpack_big (b0 :: b1 :: b2 :: b3 :: rest)
  = Ok (twos_complement32 (word32 b0 b1 b2 b3)).
Proof.
  unfold unpack_big. rewrite word_of_bytes.
  rewrite signed32_twos_complement by apply word32_range. reflexivity.
Qed.

Lemma unpack_little_word (b0 b1 b2 b3 : byte) (rest : list byte) :
  unpack_little (b0 :: b1 :: b2 :: b3 :: rest)
  = Ok (twos_complement32 (word32 b3 b2 b1 b0)).
Proof.
  unfold unpack_little. rewrite word_of_bytes.
  rewrite signed32_twos_complement by apply word32_range. reflexivity.
Qed.

Local Close Scope Z_scope.

(** Reading moves the position by what was read. *)
Lemma read_rest (n : nat) (fh : handle) :
  drop (pos (read n fh).2) (data (read n fh).2) = drop n (drop (pos fh) (data fh)).
Proof.
  unfold read. simpl.
  rewrite drop_drop.
  destruct (Nat.le_gt_cases n (length (drop (pos fh) (data fh)))) as [Hle | Hgt].
  - rewrite length_take, Nat.min_l by assumption. reflexivity.
  - rewrite length_take, Nat.min_r by lia.
    rewrite length_drop in *.
    rewrite !drop_ge by lia. reflexivity.
Qed.

(** The loop visits the records that follow the position, in order. *)
Lemma scan_labels_records (passes : nat) (fh : handle) :
  scan_labels passes fh
  = first_code (label_records passes (drop (pos fh) (data fh))).
Proof.
  revert fh. induction passes as [| passes IH]; intros fh.
  - reflexivity.
  - cbn [scan_labels label_records first_code].
    pose proof (read_rest 80 fh) as Hrest.
    destruct (read 80 fh) as [raw fh'] eqn:Hread.
    assert (Hraw : raw = take 80 (drop (pos fh) (data fh))).
    { unfold read in Hread. injection Hread as <- _. reflexivity. }
    subst raw. simpl in Hrest.
    destruct (label_code _); [reflexivity |].
    rewrite IH, Hrest. reflexivity.
Qed.

Lemma count_field_bytes (content : list byte) :
  224 <= length content ->
  exists b0 b1 b2 b3, take 4 (drop 220 content) = [b0; b1; b2; b3].
Proof.
  intros Hlen.
  assert (Hl : length (take 4 (drop 220 content)) = 4).
  { rewrite length_take, length_drop. lia. }
  destruct (take 4 (drop 220 content)) as [| b0 [| b1 [| b2 [| b3 [| ? ?]]]]];
    simpl in Hl; try discriminate.
  eauto.
Qed.

(** [_get_emdb] in two steps: the count, then the records. *)
Lemma get_emdb_by_count (content : list byte) :
  get_emdb content
  = (n ← label_count content;
     Ok (first_code (label_records (Z.to_nat n) (drop 224 content)))).
Proof.
  unfold get_emdb, label_count.
  pose proof (read_rest 4 (seek 220 (open_rb content))) as Hrest.
  destruct (read 4 (seek 220 (open_rb content))) as [raw fh] eqn:Hread.
  assert (Hraw : raw = take 4 (drop 220 content)).
  { unfold read in Hread. simpl in Hread. injection Hread as <- _. reflexivity. }
  simpl in Hrest. rewrite drop_drop in Hrest.
  assert (Hl : length raw <= 4) by (subst raw; rewrite length_take; lia).
  rewrite <- Hraw.
  destruct raw as [| b0 [| b1 [| b2 [| b3 rest]]]]; try reflexivity.
  rewrite unpack_big_word, unpack_little_word. simpl.
  rewrite scan_labels_records, Hrest. reflexivity.
Qed.

Lemma label_count_short (content : list byte) :
  length content < 224 -> label_count content = Raise StructError.
Proof.
  intros Hlen. unfold label_count.
  assert (Hl : length (take 4 (drop 220 content)) < 4).
  { rewrite length_take, length_drop. lia. }
  destruct (take 4 (drop 220 content)) as [| b0 [| b1 [| b2 [| b3 rest]]]];
    try reflexivity.
  simpl in Hl. lia.
Qed.

Lemma label_code_nil : label_code [] = None.
Proof. reflexivity. Qed.

Lemma first_code_nil (n : nat) : first_code (label_records n []) = None.
Proof.
  induction n as [| n IH]; [reflexivity |].
  cbn [label_records first_code]. rewrite take_nil, drop_nil, label_code_nil.
  exact IH.
Qed.

(** Records past the end of the file are empty and hold no code. *)
Lemma first_code_past_eof (n k : nat) (rest : list byte) :
  length rest <= 80 * k ->
  first_code (label_records n rest)
  = first_code (label_records (Nat.min n k) rest).
Proof.
  revert k rest. induction n as [| n IH]; intros k rest Hk; [reflexivity |].
  destruct k as [| k].
  - assert (rest = []) as -> by (destruct rest; [reflexivity | simpl in Hk; lia]).
    rewrite first_code_nil. reflexivity.
  - cbn [Nat.min label_records first_code].
    destruct (label_code (take 80 rest)); [reflexivity |].
    apply IH. rewrite length_drop. lia.
Qed.

Lemma records_to_eof_covers (content : list byte) :
  length (drop 224 content) <= 80 * records_to_eof content.
Proof.
  unfold records_to_eof. rewrite length_drop.
  pose proof (Nat.div_mod_eq (length content - 224 + 79) 80) as Hdm.
  pose proof (Nat.mod_upper_bound (length content - 224 + 79) 80).
  lia.
Qed.

(** *** The accession pattern *)

Lemma lit_match_startswith (p s : string) :
  lit_match p s
  = if Py.startswith s p then Some (Py.sdrop (String.length p) s) else None.
Proof.
  revert s. induction p as [| a p IH]; intros [| b s]; try reflexivity.
  cbn [lit_match Py.startswith String.length Py.sdrop].
  destruct (Ascii.eqb a b); [apply IH | reflexivity].
Qed.

Lemma startswith_split (s p : string) :
  Py.startswith s p = true -> s = p +:+ Py.sdrop (String.length p) s.
Proof.
  revert s. induction p as [| a p IH]; intros [| b s]; try reflexivity;
    cbn [Py.startswith]; [discriminate |].
  intros [Hab Hp]%andb_prop. apply Ascii.eqb_eq in Hab as ->.
  rewrite append_cons. cbn [String.length Py.sdrop]. f_equal. exact (IH s Hp).
Qed.

Lemma leading_digits_split (s : string) :
  s = leading_digits s +:+ Py.sdrop (String.length (leading_digits s)) s.
Proof.
  induction s as [| c s IH]; [reflexivity |].
  cbn [leading_digits]. destruct (Py.isdigit c); [| reflexivity].
  rewrite append_cons. cbn [String.length Py.sdrop]. f_equal. exact IH.
Qed.

(** The greedy run of digits, before a continuation that accepts
    everything: all the digits are taken. *)
Lemma star_digits {A} (k : string -> A) (s : string) :
  star_match digit s (fun s' => Some (k s'))
  = Some (k (Py.sdrop (String.length (leading_digits s)) s)).
Proof.
  induction s as [| c s IH]; [reflexivity |].
  cbn [star_match leading_digits]. unfold digit at 1.
  destruct (Py.isdigit c); [| reflexivity].
  rewrite IH. reflexivity.
Qed.

(** The group of the pattern, where it is tried: the code there. *)
Lemma code_matcher (s : string) :
  option_map (fun m => group m 1)
    (rmatch (Grp 1 (Lit "EMD-" ⋅ Plus digit)) s ∅ (fun _ g => Some g))
  = code_at s.
Proof.
  cbn [rmatch]. rewrite lit_match_startswith. unfold code_at.
  destruct (Py.startswith s "EMD-") eqn:Hstart; [| reflexivity].
  apply startswith_split in Hstart.
  change (String.length "EMD-") with 4 in *.
  destruct (Py.sdrop 4 s) as [| c s4] eqn:Hdrop; [reflexivity |].
  cbn [leading_digits]. unfold digit at 1.
  destruct (Py.isdigit c) eqn:Hc; [| reflexivity].
  rewrite (star_digits (fun s5 => <[1 := Py.stake (String.length s - String.length s5) s]>
                                    (∅ : groups))).
  cbn [option_map]. f_equal. unfold group. rewrite lookup_insert_eq. cbn [default].
  set (run := leading_digits s4).
  set (rest := Py.sdrop (String.length run) s4).
  assert (Hs : s = ("EMD-" +:+ String c run) +:+ rest).
  { rewrite append_assoc, (append_cons c run rest).
    replace (run +:+ rest) with s4 by exact (leading_digits_split s4).
    exact Hstart. }
  rewrite Hs at 1 2. apply consumed_text.
Qed.

(** The greedy repetition of [.] before the group: the last code of the
    line. *)
Lemma line_matcher (s : string) :
  option_map (fun m => group m 1)
    (star_match dot s
       (fun s' => rmatch (Grp 1 (Lit "EMD-" ⋅ Plus digit)) s' ∅ (fun _ g => Some g)))
  = last_code_on_line s.
Proof.
  induction s as [| c s IH]; [reflexivity |].
  cbn [star_match last_code_on_line]. unfold dot at 1.
  destruct (Ascii.eqb c Py.newline) eqn:Hc; cbn [negb].
  - rewrite code_matcher. unfold code_at. apply Ascii.eqb_eq in Hc as ->. reflexivity.
  - destruct (star_match dot s _) as [m |] eqn:Hstar.
    + rewrite <- IH. reflexivity.
    + rewrite <- IH. apply code_matcher.
Qed.

Lemma match_marked (s : string) :
  option_map (fun m => group m 1) (Re.match_ emdb_re s)
  = if Py.startswith s "EMDATABANK.org"
    then last_code_on_line (Py.sdrop 14 s) else None.
Proof.
  unfold Re.match_, emdb_re. cbn [rmatch]. rewrite lit_match_startswith.
  destruct (Py.startswith s "EMDATABANK.org"); [| reflexivity].
  apply line_matcher.
Qed.

(** The search of the pattern gives the code that the text is marked
    with. *)
Lemma search_marked (s : string) :
  option_map (fun m => group m 1) (Re.search emdb_re s) = marked_code s.
Proof.
  induction s as [| c s IH].
  - pose proof (match_marked EmptyString) as Hm. cbn [Re.search marked_code].
    destruct (Re.match_ emdb_re EmptyString); cbn [option_map] in *;
      rewrite <- Hm; reflexivity.
  - pose proof (match_marked (String c s)) as Hm. cbn [Re.search marked_code].
    destruct (Re.match_ emdb_re (String c s)); cbn [option_map] in *;
      rewrite <- Hm; [reflexivity | exact IH].
Qed.

(** What one pass of the loop finds in a label is its accession code. *)
Lemma label_code_accession (raw : list byte) : label_code raw = accession raw.
Proof.
  unfold label_code, accession. rewrite <- search_marked.
  destruct (Re.search emdb_re _); reflexivity.
Qed.

Lemma first_code_accession (records : list (list byte)) :
  first_code records = first_accession records.
Proof.
  induction records as [| r records IH]; [reflexivity |].
  cbn [first_code first_accession]. rewrite label_code_accession, IH. reflexivity.
Qed.

(** An accession code starts with [EMD-]. *)
Lemma code_at_prefix (s code : string) :
  code_at s = Some code -> Py.startswith code "EMD-" = true.
Proof.
  unfold code_at. destruct (Py.startswith s "EMD-"); [| discriminate].
  destruct (leading_digits (Py.sdrop 4 s)); [discriminate |].
  intros [= <-]. reflexivity.
Qed.

Lemma last_code_prefix (s code : string) :
  last_code_on_line s = Some code -> Py.startswith code "EMD-" = true.
Proof.
  induction s as [| c s IH]; cbn [last_code_on_line]; [discriminate |].
  destruct (Ascii.eqb c Py.newline); [discriminate |].
  destruct (last_code_on_line s); [intros [= <-]; apply IH; reflexivity |].
  apply code_at_prefix.
Qed.

Lemma marked_code_prefix (s code : string) :
  marked_code s = Some code -> Py.startswith code "EMD-" = true.
Proof.
  induction s as [| c s IH]; cbn [marked_code].
  - destruct (Py.startswith EmptyString "EMDATABANK.org"); [| discriminate].
    destruct (last_code_on_line _) eqn:Hl; [| discriminate].
    intros [= <-]. exact (last_code_prefix _ _ Hl).
  - destruct (Py.startswith (String c s) "EMDATABANK.org"); [| exact IH].
    destruct (last_code_on_line _) eqn:Hl; [| exact IH].
    intros [= <-]. exact (last_code_prefix _ _ Hl).
Qed.

Lemma first_accession_prefix (records : list (list byte)) (code : string) :
  first_accession records = Some code -> Py.startswith code "EMD-" = true.
Proof.
  induction records as [| r records IH]; cbn [first_accession]; [discriminate |].
  destruct (accession r) eqn:Hr; [| exact IH].
  intros [= <-]. exact (marked_code_prefix _ _ Hr).
Qed.

(** C1: a density-map file holds the count field (bytes 220 to 223); the
    scanner reads it as a big-endian and as a little-endian signed 32-bit
    integer, takes the smaller reading as the label count, and returns the
    accession code of the first of that many 80-byte records that has
    one, or [None] when none of them has.  The accession code of a record
    is stated without the pattern matcher: in the text of the record
    without the white space around it, at the first [EMDATABANK.org] that
    has a code behind it on the same line, the last [EMD-] with decimal
    digits of that line, with all the digits that follow it. *)
Theorem get_emdb_scans_smaller_count (content : list byte) :
  224 <= length content ->
  exists b0 b1 b2 b3,
    take 4 (drop 220 content) = [b0; b1; b2; b3] /\
    let num_labels := Z.min (twos_complement32 (word32 b0 b1 b2 b3))
                            (twos_complement32 (word32 b3 b2 b1 b0)) in
    get_emdb content
    = Ok (first_accession
            (label_records (Z.to_nat num_labels) (drop 224 content))).
Proof.
  intros Hlen.
  destruct (count_field_bytes content Hlen) as (b0 & b1 & b2 & b3 & Hfield).
  exists b0, b1, b2, b3. split; [exact Hfield |].
  cbv zeta. rewrite get_emdb_by_count, <- first_code_accession. unfold label_count.
  rewrite Hfield, unpack_big_word, unpack_little_word. reflexivity.
Qed.

Lemma get_emdb_scans_smaller_count_witness :
  224 <= length Samples.emdb_map /\
  exists b0 b1 b2 b3,
    take 4 (drop 220 Samples.emdb_map) = [b0; b1; b2; b3] /\
    get_emdb Samples.emdb_map
    = Ok (first_accession
            (label_records
               (Z.to_nat (Z.min (twos_complement32 (word32 b0 b1 b2 b3))
                                (twos_complement32 (word32 b3 b2 b1 b0))))
               (drop 224 Samples.emdb_map))).
Proof.
  assert (Hlen : 224 <= length Samples.emdb_map) by (vm_compute; lia).
  split; [exact Hlen |].
  exact (get_emdb_scans_smaller_count Samples.emdb_map Hlen).
Defined.

(** The accession codes of sample labels: of a marked label; of the last
    code behind the marker; none without the marker, without digits, or
    with the code before the marker only. *)
Example accession_samples :
  accession (Samples.label "::::EMDATABANK.org::::EMD-1234::::") = Some "EMD-1234"
  /\ accession (Samples.label "EMDATABANK.org EMD-1 EMD-22x EMD-") = Some "EMD-22"
  /\ accession (Samples.label "EMD-1234") = None
  /\ accession (Samples.label "EMDATABANK.org EMD-") = None
  /\ accession (Samples.label "EMD-7 EMDATABANK.org") = None.
Proof. vm_compute. auto. Qed.

(** The sample map above: the smaller reading of its count field is 1,
    and the code of its first label is returned. *)
Example get_emdb_emdb_map : get_emdb Samples.emdb_map = Ok (Some "EMD-1234").
Proof. vm_compute. reflexivity. Qed.

(** C4, as the code has it: the count is not clamped and a failed read is
    not caught.  A file too short for the count field raises
    [struct.error]; otherwise the scanner reads as many 80-byte records as
    the count says, wherever they lie in the file, and only the end of the
    file bounds what it can find (records past it are empty); a count that
    is negative or zero makes it read nothing and report no code. *)
Theorem get_emdb_count_not_clamped (content : list byte) :
  (length content < 224 -> get_emdb content = Raise StructError) /\
  (forall n : Z, label_count content = Ok n ->
     get_emdb content
     = Ok (first_code (label_records (Z.to_nat n) (drop 224 content))) /\
     get_emdb content
     = Ok (first_code (label_records (Nat.min (Z.to_nat n) (records_to_eof content))
                         (drop 224 content))) /\
     ((n <= 0)%Z -> get_emdb content = Ok None)).
Proof.
  split.
  - intros Hlen. rewrite get_emdb_by_count, label_count_short by exact Hlen.
    reflexivity.
  - intros n Hn. rewrite get_emdb_by_count, Hn. cbn [mbind result_bind].
    split; [reflexivity |]. split.
    + f_equal. apply first_code_past_eof, records_to_eof_covers.
    + intros Hneg. replace (Z.to_nat n) with 0 by lia. reflexivity.
Qed.

(** C4, refuted as stated: a truncated file makes the scanner raise, and
    with a count of 11 it returns a code found in the eleventh record,
    which lies after the ten label records of the header. *)
Lemma get_emdb_reads_past_labels :
  get_emdb Samples.truncated_map = Raise StructError /\
  label_count Samples.overcount_map = Ok 11%Z /\
  first_code (label_records 10 (drop 224 Samples.overcount_map)) = None /\
  get_emdb Samples.overcount_map = Ok (Some "EMD-1").
Proof. vm_compute. auto. Qed.

(** The sample map with a negative count: nothing is read. *)
Example get_emdb_negative_count :
  label_count Samples.negative_count_map = Ok (-1)%Z /\
  get_emdb Samples.negative_count_map = Ok None.
Proof. vm_compute. auto. Qed.

(** *** The web service *)

(** A code that the scanner returns starts with [EMD-]. *)
Lemma get_emdb_code_prefix (content : list byte) (code : string) :
  get_emdb content = Ok (Some code) -> Py.startswith code "EMD-" = true.
Proof.
  rewrite get_emdb_by_count.
  destruct (label_count content) as [n | e]; cbn [mbind result_bind]; [| discriminate].
  rewrite first_code_accession. intros [= Hcode]. exact (first_accession_prefix _ _ Hcode).
Qed.

(** C9, as the code has it: the extraction of a structure file asks
    nothing of the network and depends on the file alone, and so does
    that of the base class; for a density map the extraction itself asks
    the EMDB web service about the code it found and puts the release
    date and the title of the answer into the location, so its result is
    a function of the file (name and content) and of the answer to that
    one request; when the file holds no code, no request is made and the
    result depends on the file alone. *)
Theorem parse_file_depends_only_on_summary
    (read_bytes : string -> list byte) (read_lines : string -> list string)
    (get_relative_path : string -> string -> string) (unknown : pyval)
    (service1 service2 : string -> result pyval)
    (p : Parsers.parser) (filename : string) :
  (forall emdb, p = Parsers.MRCParser ->
     get_emdb (read_bytes filename) = Ok (Some emdb) ->
     service1 (summary_url emdb) = service2 (summary_url emdb)) ->
  Parsers.parse_file read_bytes read_lines service1 get_relative_path unknown
    p filename
  = Parsers.parse_file read_bytes read_lines service2 get_relative_path unknown
      p filename
  /\ (forall emdb version title,
        p = Parsers.MRCParser ->
        get_emdb (read_bytes filename) = Ok (Some emdb) ->
        get_emdb_info service1 emdb = Ok (version, title) ->
        Parsers.parse_file read_bytes read_lines service1 get_relative_path unknown
          p filename
        = Ok (Parsers.DensityMap
                (EMDensityDataset
                   (EMDBLocation emdb version
                      (if truthy title then title
                       else PStr "Electron microscopy density map")))))
  /\ (p = Parsers.MRCParser ->
      get_emdb (read_bytes filename) = Ok None ->
      Parsers.parse_file read_bytes read_lines service1 get_relative_path unknown
        p filename
      = Ok (Parsers.DensityMap
              (EMDensityDataset
                 (InputFileLocation filename None
                    (PStr "Electron microscopy density map"))))).
Proof.
  intros Hsame. split; [| split].
  - destruct p; [reflexivity | | reflexivity].
    unfold Parsers.parse_file, parse_file.
    destruct (get_emdb (read_bytes filename)) as [[emdb |] | e] eqn:Hemdb;
      cbn [mbind result_bind]; [| reflexivity | reflexivity].
    destruct emdb as [| c emdb]; [reflexivity |].
    unfold get_emdb_info. rewrite (Hsame (String c emdb) eq_refl eq_refl). reflexivity.
  - intros emdb version title -> Hemdb Hinfo.
    unfold Parsers.parse_file, parse_file. rewrite Hemdb. cbn [mbind result_bind].
    pose proof (get_emdb_code_prefix _ _ Hemdb) as Hprefix.
    destruct emdb as [| c emdb]; [discriminate |].
    rewrite Hinfo. reflexivity.
  - intros -> Hemdb. unfold Parsers.parse_file, parse_file. rewrite Hemdb. reflexivity.
Qed.

Lemma parse_file_depends_only_on_summary_witness :
  Parsers.parse_file (fun _ => Samples.emdb_map) (fun _ => Samples.modeller_file)
    Samples.service_2016 Samples.relative_path Samples.unknown
    Parsers.MRCParser "map.mrc"
  = Parsers.parse_file (fun _ => Samples.emdb_map) (fun _ => Samples.modeller_file)
      Samples.service_one_entry Samples.relative_path Samples.unknown
      Parsers.MRCParser "map.mrc".
Proof.
  refine (proj1 (parse_file_depends_only_on_summary
                   (fun _ => Samples.emdb_map) (fun _ => Samples.modeller_file)
                   Samples.relative_path Samples.unknown
                   Samples.service_2016 Samples.service_one_entry
                   Parsers.MRCParser "map.mrc" _)).
  intros emdb _ Hemdb. vm_compute in Hemdb.
  injection Hemdb as <-. vm_compute. reflexivity.
Defined.

(** A structure file, read while the service gives different answers or
    none: the same result. *)
Example structure_file_asks_nothing :
  Parsers.parse_file (fun _ => Samples.emdb_map) (fun _ => Samples.modeller_file)
    Samples.service_2016 Samples.relative_path Samples.unknown
    Parsers.PDBParser "run/model.pdb"
  = Parsers.parse_file (fun _ => Samples.emdb_map) (fun _ => Samples.modeller_file)
      Samples.service_down Samples.relative_path Samples.unknown
      Parsers.PDBParser "run/model.pdb".
Proof. reflexivity. Qed.

(** C9, refuted as stated: the same file, read while the service gives
    different answers, yields different results, and no result at all
    while the service is out of reach. *)
Lemma parse_file_asks_the_service :
  parse_file Samples.service_2016 "map.mrc" Samples.emdb_map
  = Ok (EMDensityDataset
          (EMDBLocation "EMD-1234" (PStr "2016-01-01") (PStr "A ribosome"))) /\
  parse_file Samples.service_2020 "map.mrc" Samples.emdb_map
  = Ok (EMDensityDataset
          (EMDBLocation "EMD-1234" (PStr "2020-06-30")
             (PStr "A ribosome, revised"))) /\
  parse_file Samples.service_down "map.mrc" Samples.emdb_map
  = Raise (URLError "unreachable").
Proof. vm_compute. auto. Qed.

End MRCFacts.

(** ** The structure-file extractors *)

Module PDBFacts.
Import PDB TextFacts.

(** The record names exclude one another. *)
Lemma helix_not_title (line : string) :
  Py.startswith line "HELIX" = true -> Py.startswith line "TITLE" = false.
Proof.
  destruct line as [| c line]; [discriminate |].
  cbn [Py.startswith]. destruct (Ascii.eqb_spec "H" c) as [<- | _];
    [reflexivity | discriminate].
Qed.

Lemma atom_not_title (line : string) :
  Py.startswith line "ATOM" = true -> Py.startswith line "TITLE" = false.
Proof.
  destruct line as [| c line]; [discriminate |].
  cbn [Py.startswith]. destruct (Ascii.eqb_spec "A" c) as [<- | _];
    [reflexivity | discriminate].
Qed.

Lemma atom_not_helix (line : string) :
  Py.startswith line "ATOM" = true -> Py.startswith line "HELIX" = false.
Proof.
  destruct line as [| c line]; [discriminate |].
  cbn [Py.startswith]. destruct (Ascii.eqb_spec "A" c) as [<- | _];
    [reflexivity | discriminate].
Qed.

Lemma titles_app (l1 l2 : list string) : titles (l1 ++ l2) = titles l1 +:+ titles l2.
Proof.
  induction l1 as [| line l1 IH]; [reflexivity |].
  simpl. destruct (Py.startswith line "TITLE"); [| exact IH].
  rewrite IH, append_assoc. reflexivity.
Qed.

Lemma helices_app (l1 l2 : list string) : helices (l1 ++ l2) = helices l1 ++ helices l2.
Proof. unfold helices. rewrite List.filter_app, map_app. reflexivity. Qed.

(** The loop of [_parse_pdb_records] visits every line. *)
Lemma pdb_records_loop_all (fh : list string) (details : string)
    (metadata : list PDBHelix) :
  pdb_records_loop fh details metadata
  = (details +:+ titles fh, metadata ++ helices fh).
Proof.
  revert details metadata. induction fh as [| line fh IH]; intros details metadata.
  - simpl. rewrite append_empty_r, app_nil_r. reflexivity.
  - cbn [pdb_records_loop titles]. unfold helices. cbn [List.filter].
    destruct (Py.startswith line "TITLE") eqn:Htitle.
    + rewrite IH, append_assoc. unfold title_text.
      destruct (Py.startswith line "HELIX") eqn:Hhelix; [| reflexivity].
      apply helix_not_title in Hhelix. congruence.
    + destruct (Py.startswith line "HELIX").
      * rewrite IH. cbn [map]. rewrite <- app_assoc. reflexivity.
      * apply IH.
Qed.

Lemma parse_pdb_records_all (fh : list string) (first_line : string) :
  parse_pdb_records fh first_line
  = (Py.strip (Py.slice 50 59 first_line), details_value (titles fh), helices fh).
Proof.
  unfold parse_pdb_records. rewrite pdb_records_loop_all. simpl.
  destruct (titles fh); reflexivity.
Qed.

(** The loop of [_parse_details] does not read past an [ATOM] line. *)
Lemma details_loop_stops (pre post : list string) (atom details : string) :
  Py.startswith atom "ATOM" = true ->
  details_loop (pre ++ atom :: post) details = details_loop pre details.
Proof.
  intros Hatom. revert details.
  induction pre as [| line pre IH]; intros details.
  - simpl. rewrite (atom_not_title atom Hatom), Hatom. reflexivity.
  - simpl. destruct (Py.startswith line "TITLE"); [apply IH |].
    destruct (Py.startswith line "ATOM"); [reflexivity | apply IH].
Qed.

(** What [_parse_details] returns: the title text of the header, never
    [None]. *)
Lemma details_loop_titles (fh : list string) (details : string) :
  details_loop fh details = details +:+ titles (header_lines fh).
Proof.
  revert details. induction fh as [| line fh IH]; intros details.
  - cbn. rewrite append_empty_r. reflexivity.
  - cbn [details_loop header_lines].
    destruct (Py.startswith line "ATOM") eqn:Hatom.
    + rewrite (atom_not_title line Hatom). cbn [titles].
      rewrite append_empty_r. reflexivity.
    + cbn [titles]. destruct (Py.startswith line "TITLE").
      * rewrite IH, append_assoc. reflexivity.
      * apply IH.
Qed.

Lemma parse_details_titles (fh : list string) :
  parse_details fh = titles (header_lines fh).
Proof. unfold parse_details. rewrite details_loop_titles. reflexivity. Qed.

Section Stops.

Variable get_relative_path : string -> string -> string.

(** Neither does the header scan of [_get_templates]. *)
Lemma scan_header_stops (pdbname : string) (pre post : list string)
    (atom : string) (st : scan) :
  Py.startswith atom "ATOM" = true ->
  scan_header get_relative_path pdbname (pre ++ atom :: post) st
  = scan_header get_relative_path pdbname pre st.
Proof.
  intros Hatom. revert st.
  induction pre as [| line pre IH]; intros st.
  - simpl. rewrite Hatom. reflexivity.
  - simpl. destruct (Py.startswith line "ATOM"); [reflexivity | apply IH].
Qed.

(** C10: the official-record extractor reads every line to the end of the
    file, so the [TITLE] and [HELIX] lines that come after a coordinate
    record still contribute to the details and to the raw records; the
    title scan of the derived-from extractors and the header scan of the
    template recovery end at the first line that starts with [ATOM]. *)
Theorem official_scan_reads_past_atom (pdbname first_line atom : string)
    (pre post : list string) (target_dataset : Dataset) :
  Py.startswith atom "ATOM" = true ->
  parse_pdb_records (pre ++ atom :: post) first_line
  = (Py.strip (Py.slice 50 59 first_line),
     details_value (titles pre +:+ titles post),
     helices pre ++ helices post)
  /\ parse_details (pre ++ atom :: post) = parse_details pre
  /\ get_templates get_relative_path pdbname (pre ++ atom :: post) target_dataset
     = get_templates get_relative_path pdbname pre target_dataset.
Proof.
  intros Hatom. split; [| split].
  - rewrite parse_pdb_records_all, titles_app, helices_app.
    cbn [titles]. unfold helices at 2. cbn [List.filter].
    rewrite (atom_not_title atom Hatom), (atom_not_helix atom Hatom).
    reflexivity.
  - apply details_loop_stops. exact Hatom.
  - unfold get_templates. rewrite scan_header_stops by exact Hatom. reflexivity.
Qed.

End Stops.

Lemma official_scan_reads_past_atom_witness :
  let pre := Samples.file_lines [Samples.title_line] in
  let post := Samples.file_lines ["TITLE     , CONTINUED"; "HELIX    1"] in
  parse_pdb_records (pre ++ Samples.atom_line :: post) Samples.header_line
  = (Py.strip (Py.slice 50 59 Samples.header_line),
     details_value (titles pre +:+ titles post),
     helices pre ++ helices post)
  /\ parse_details (pre ++ Samples.atom_line :: post) = parse_details pre
  /\ get_templates Samples.relative_path "model.pdb"
       (pre ++ Samples.atom_line :: post) (ComparativeModelDataset
          (InputFileLocation "model.pdb" None PNone))
     = get_templates Samples.relative_path "model.pdb" pre
         (ComparativeModelDataset (InputFileLocation "model.pdb" None PNone)).
Proof.
  cbv zeta.
  apply (official_scan_reads_past_atom Samples.relative_path).
  reflexivity.
Defined.

(** On sample lines: the official extractor gathers the title and the
    helix that follow the coordinate record, the title scan of the
    derived-from extractors does not. *)
Example scans_differ :
  let fh := Samples.file_lines [Samples.title_line] ++ Samples.atom_line
            :: Samples.file_lines ["TITLE     , CONTINUED"; "HELIX    1"] in
  parse_pdb_records fh Samples.header_line
  = ("2-JAN-20", PStr "A SAMPLE, CONTINUED",
     [{| helix_line := "HELIX    1" +:+ Samples.nl |}])
  /\ parse_details fh = "A SAMPLE".
Proof. vm_compute. auto. Qed.

(** *** The official-record scenario *)

Lemma header_line_fields :
  classify (Samples.header_line +:+ Samples.nl) = Official /\
  Py.strip (Py.slice 62 66 (Samples.header_line +:+ Samples.nl)) = "ABC" /\
  Py.strip (Py.slice 50 59 (Samples.header_line +:+ Samples.nl)) = "2-JAN-20".
Proof. vm_compute. auto. Qed.

Lemma aligned_header_line_fields :
  classify (Samples.aligned_header_line +:+ Samples.nl) = Official /\
  Py.strip (Py.slice 62 66 (Samples.aligned_header_line +:+ Samples.nl)) = "1ABC" /\
  Py.strip (Py.slice 50 59 (Samples.aligned_header_line +:+ Samples.nl)) = "12-JAN-20".
Proof. vm_compute. auto. Qed.

Lemma title_line_fields :
  Py.startswith (Samples.title_line +:+ Samples.nl) "TITLE" = true /\
  title_text (Samples.title_line +:+ Samples.nl) = "A SAMPLE".
Proof. vm_compute. auto. Qed.

Section Scenario.

Variable get_relative_path : string -> string -> string.
Variable unknown : pyval.

(** What the official-record extractor returns, whatever the lines. *)
Lemma parse_file_official (filename first_line : string) (fh : list string) :
  classify first_line = Official ->
  parse_file get_relative_path unknown filename (first_line :: fh)
  = Ok {| ret_templates := []; ret_software := ∅; ret_metadata := helices fh;
          ret_dataset :=
            Some (PDBDataset
                    (PDBLocation (Py.strip (Py.slice 62 66 first_line))
                       (PStr (Py.strip (Py.slice 50 59 first_line)))
                       (details_value (titles fh)))) |}.
Proof.
  intros Hcls. unfold parse_file. cbn [hd tl]. rewrite Hcls.
  unfold parse_official_pdb. rewrite parse_pdb_records_all. reflexivity.
Qed.

(** C5, as the code has it: the accession is [first_line[62:66]], stripped.
    In the 65-character header line of the scenario the code 1ABC starts
    at index 61, so the accession field holds ABC; with a later
    [TITLE     A SAMPLE] line and no other title text, the dataset is a
    PDB (experimental-structure) dataset with accession ABC, details
    [A SAMPLE] and no parents.  With the code in columns 63 to 66 the
    accession is 1ABC. *)
Theorem official_header_scenario (filename : string) (pre post : list string) :
  titles pre = EmptyString -> titles post = EmptyString ->
  let fh := pre ++ (Samples.title_line +:+ Samples.nl) :: post in
  (exists ret,
     parse_file get_relative_path unknown filename
       ((Samples.header_line +:+ Samples.nl) :: fh) = Ok ret /\
     ret_dataset ret
     = Some (mkDataset PDBKind
               (PDBLocation "ABC" (PStr "2-JAN-20") (PStr "A SAMPLE")) []))
  /\
  (exists ret,
     parse_file get_relative_path unknown filename
       ((Samples.aligned_header_line +:+ Samples.nl) :: fh) = Ok ret /\
     ret_dataset ret
     = Some (mkDataset PDBKind
               (PDBLocation "1ABC" (PStr "12-JAN-20") (PStr "A SAMPLE")) [])).
Proof.
  intros Hpre Hpost fh.
  assert (Htitles : titles fh = "A SAMPLE").
  { unfold fh. rewrite titles_app. cbn [titles].
    destruct title_line_fields as [-> ->].
    rewrite Hpre, Hpost. reflexivity. }
  destruct header_line_fields as (Hcls & Hacc & Hver).
  destruct aligned_header_line_fields as (Hcls' & Hacc' & Hver').
  split; eexists; (split; [apply parse_file_official; assumption |]);
    cbn [ret_dataset]; rewrite Htitles.
  - rewrite Hacc, Hver. reflexivity.
  - rewrite Hacc', Hver'. reflexivity.
Qed.

End Scenario.

Lemma official_header_scenario_witness :
  (exists ret,
     parse_file Samples.relative_path Samples.unknown "1abc.pdb"
       ((Samples.header_line +:+ Samples.nl)
        :: Samples.file_lines ["REMARK   2"]
           ++ (Samples.title_line +:+ Samples.nl)
              :: Samples.file_lines [Samples.atom_line]) = Ok ret /\
     ret_dataset ret
     = Some (mkDataset PDBKind
               (PDBLocation "ABC" (PStr "2-JAN-20") (PStr "A SAMPLE")) []))
  /\
  (exists ret,
     parse_file Samples.relative_path Samples.unknown "1abc.pdb"
       ((Samples.aligned_header_line +:+ Samples.nl)
        :: Samples.file_lines ["REMARK   2"]
           ++ (Samples.title_line +:+ Samples.nl)
              :: Samples.file_lines [Samples.atom_line]) = Ok ret /\
     ret_dataset ret
     = Some (mkDataset PDBKind
               (PDBLocation "1ABC" (PStr "12-JAN-20") (PStr "A SAMPLE")) [])).
Proof.
  apply (official_header_scenario Samples.relative_path Samples.unknown
           "1abc.pdb" (Samples.file_lines ["REMARK   2"])
           (Samples.file_lines [Samples.atom_line]));
    reflexivity.
Defined.

(** C5, refuted as stated: on the two lines of the scenario the accession
    that is returned is ABC, not 1ABC. *)
Lemma official_header_cuts_code :
  parse_file Samples.relative_path Samples.unknown "1abc.pdb"
    (Samples.file_lines [Samples.header_line; Samples.title_line])
  = Ok {| ret_templates := []; ret_software := ∅; ret_metadata := [];
          ret_dataset :=
            Some (mkDataset PDBKind
                    (PDBLocation "ABC" (PStr "2-JAN-20") (PStr "A SAMPLE")) []) |}
  /\ "ABC" <> "1ABC".
Proof. split; [vm_compute; reflexivity | discriminate]. Qed.

(** *** Details of the local file *)

Section Details.

Variable get_relative_path : string -> string -> string.
Variable unknown : pyval.

(** C6, as the code has it: the derived-from extractors give the local
    file the title text of the header as details, as a string in every
    case; the details are the empty string, neither [None] nor text that
    is not empty, exactly when the header has no title text. *)
Theorem derived_details_title_text (filename first_line : string)
    (fh : list string) :
  classify first_line = DerivedFromPDB \/ classify first_line = DerivedFromModel ->
  exists ret d,
    parse_file get_relative_path unknown filename (first_line :: fh) = Ok ret /\
    ret_dataset ret = Some d /\
    location d
    = InputFileLocation filename None (PStr (titles (header_lines fh))) /\
    details_ok (details_of (location d))
    = negb (String.eqb (titles (header_lines fh)) EmptyString).
Proof.
  intros [Hcls | Hcls]; unfold parse_file; cbn [hd tl]; rewrite Hcls;
    eexists _, _; (split; [reflexivity |]); (split; [reflexivity |]);
    cbn; rewrite parse_details_titles; auto.
Qed.

End Details.

Lemma derived_details_title_text_witness :
  exists ret d,
    parse_file Samples.relative_path Samples.unknown "model.pdb"
      ((Samples.derived_pdb_line +:+ Samples.nl)
       :: Samples.file_lines [Samples.atom_line]) = Ok ret /\
    ret_dataset ret = Some d /\
    location d
    = InputFileLocation "model.pdb" None
        (PStr (titles (header_lines (Samples.file_lines [Samples.atom_line])))) /\
    details_ok (details_of (location d))
    = negb (String.eqb
              (titles (header_lines (Samples.file_lines [Samples.atom_line])))
              EmptyString).
Proof.
  apply (derived_details_title_text Samples.relative_path Samples.unknown
           "model.pdb" (Samples.derived_pdb_line +:+ Samples.nl)
           (Samples.file_lines [Samples.atom_line])).
  left. reflexivity.
Defined.

(** At the failing input: a derived-from header with no [TITLE] line
    gives the local file the empty string as details. *)
Example derived_details_empty_text :
  parse_file Samples.relative_path Samples.unknown "model.pdb"
    (Samples.file_lines [Samples.derived_pdb_line; Samples.atom_line])
  = Ok {| ret_templates := []; ret_software := ∅; ret_metadata := [];
          ret_dataset :=
            Some (mkDataset PDBKind
                    (InputFileLocation "model.pdb" None (PStr EmptyString))
                    [PDBDataset (PDBLocation "1ABC" PNone PNone)]) |}
  /\
  parse_file Samples.relative_path Samples.unknown "model.pdb"
    (Samples.file_lines [Samples.derived_model_line; Samples.atom_line])
  = Ok {| ret_templates := []; ret_software := ∅; ret_metadata := [];
          ret_dataset :=
            Some (mkDataset ComparativeModelKind
                    (InputFileLocation "model.pdb" None (PStr EmptyString))
                    [ComparativeModelDataset
                       (InputFileLocation "."
                          (Some {| doi := "10.1093/nar/gkt704" |})
                          (PStr "Starting comparative model structure"))]) |}
  /\ details_ok (PStr EmptyString) = false.
Proof. repeat split; vm_compute; reflexivity. Qed.

(** The official-record extractor, on the same kind of input, gives
    [None]. *)
Example official_details_none :
  parse_file Samples.relative_path Samples.unknown "1abc.pdb"
    (Samples.file_lines [Samples.aligned_header_line; Samples.atom_line])
  = Ok {| ret_templates := []; ret_software := ∅; ret_metadata := [];
          ret_dataset :=
            Some (PDBDataset (PDBLocation "1ABC" (PStr "12-JAN-20") PNone)) |}.
Proof. vm_compute. reflexivity. Qed.

(** *** Software hints *)

Section Hints.

Variable get_relative_path : string -> string -> string.
Variable unknown : pyval.

Lemma handle_comparative_model_software (local_file : Location)
    (pdbname : string) (content : list string) (ret ret' : Ret) :
  handle_comparative_model get_relative_path local_file pdbname content ret = Ok ret' ->
  ret_software ret' = ret_software ret.
Proof.
  unfold handle_comparative_model.
  destruct (get_templates _ _ _ _) as [[templates d] | e]; cbn [mbind result_bind];
    [| discriminate].
  intros [= <-]. reflexivity.
Qed.

(** C7, as the code has it: for a MODELLER header the value stored under
    [modeller] is the list that [split(' ', 1)] returns for the text after
    column 38 (the version and, when there is one, the rest of the line),
    not the version string; for a Phyre2 header the value stored under
    [phyre2] is the unknown marker. *)
Theorem software_hints_of_dialect (filename : string) (content : list string)
    (ret : Ret) :
  parse_file get_relative_path unknown filename content = Ok ret ->
  match classify (hd EmptyString content) with
  | Modeller =>
      ret_software ret
      = {[ "modeller" :=
             PList (map PStr (Py.split_space_once
                                (Py.sdrop 38 (hd EmptyString content)))) ]}
  | Phyre => ret_software ret = {[ "phyre2" := unknown ]}
  | _ => ret_software ret = ∅
  end.
Proof.
  unfold parse_file.
  destruct (classify (hd EmptyString content)); intros Hret.
  - injection Hret as <-. unfold parse_official_pdb.
    destruct (parse_pdb_records _ _) as [[version details] metadata]. reflexivity.
  - injection Hret as <-. reflexivity.
  - injection Hret as <-. reflexivity.
  - apply handle_comparative_model_software in Hret. rewrite Hret. reflexivity.
  - apply handle_comparative_model_software in Hret. rewrite Hret. reflexivity.
  - apply handle_comparative_model_software in Hret. rewrite Hret. reflexivity.
Qed.

End Hints.

Lemma software_hints_of_dialect_witness :
  exists ret,
    parse_file Samples.relative_path Samples.unknown "model.pdb"
      (Samples.file_lines [Samples.modeller_line; Samples.template_1xyz]) = Ok ret /\
    ret_software ret
    = {[ "modeller" := PList [PStr "9.18"; PStr ("2017/02/10 22:21:34" +:+ Samples.nl)] ]}.
Proof.
  destruct (parse_file Samples.relative_path Samples.unknown "model.pdb"
              (Samples.file_lines [Samples.modeller_line; Samples.template_1xyz]))
    as [ret | e] eqn:Hret; [| vm_compute in Hret; discriminate].
  exists ret. split; [reflexivity |].
  exact (software_hints_of_dialect Samples.relative_path Samples.unknown
           "model.pdb" _ ret Hret).
Defined.

(** *** Template codes *)

Lemma prefix_length (c1 c2 c3 c4 c5 : ascii) (suffix : string) :
  String.length (String c1 (String c2 (String c3 (String c4 (String c5 suffix)))))
  - String.length (String c5 suffix) = 4.
Proof. cbn [String.length]. lia. Qed.

(** The pattern of [_handle_template] accepts the codes of the accession
    shape, and its first group is their first four characters. *)
Lemma pdb_code_match (code : string) :
  Py.all_chars nonspace code = true -> accession_shape code = true ->
  exists m, Re.match_ pdb_code_re code = Some m /\ group m 1 = Py.stake 4 code.
Proof.
  intros Hns Hshape.
  destruct code as [| c1 [| c2 [| c3 [| c4 [| c5 suffix]]]]]; try discriminate.
  cbn [accession_shape] in Hshape.
  apply andb_prop in Hshape as [Hshape Hsuffix].
  apply andb_prop in Hshape as [Hshape H5].
  apply andb_prop in Hshape as [Hshape H4].
  apply andb_prop in Hshape as [Hshape H3].
  apply andb_prop in Hshape as [H1 H2].
  unfold Re.match_, pdb_code_re. cbn [rmatch]. unfold digit.
  rewrite H1, H2, H3, H4, H5, prefix_length.
  destruct suffix as [| u suffix].
  - cbn [lit_match at_end]. eexists. split; [reflexivity |].
    unfold group. rewrite lookup_insert_eq. reflexivity.
  - apply Ascii.eqb_eq in Hsuffix as ->.
    cbn [lit_match]. rewrite Ascii.eqb_refl.
    erewrite star_match_all; [| | reflexivity].
    + eexists. split; [reflexivity |].
      unfold group. rewrite lookup_insert_ne by discriminate.
      rewrite lookup_insert_eq. reflexivity.
    + apply (all_chars_weaken nonspace); [exact nonspace_dot |].
      cbn [Py.all_chars] in Hns.
      repeat (apply andb_prop in Hns as [_ Hns]). exact Hns.
Qed.

(** It accepts no other code. *)
Lemma pdb_code_no_match (code : string) :
  Py.all_chars nonspace code = true -> accession_shape code = false ->
  Re.match_ pdb_code_re code = None.
Proof.
  intros Hns Hshape.
  unfold Re.match_, pdb_code_re.
  destruct code as [| c1 [| c2 [| c3 [| c4 [| c5 suffix]]]]];
    cbn [rmatch]; unfold digit;
    repeat match goal with
           | |- (if ?b then _ else None) = None => destruct b eqn:?; [| reflexivity]
           end; try reflexivity.
  cbn [accession_shape] in Hshape.
  repeat match goal with H : _ = true |- _ => rewrite H in Hshape; clear H end.
  cbn [andb] in Hshape.
  destruct suffix as [| u rest]; [discriminate |].
  cbn [lit_match]. rewrite Ascii.eqb_sym, Hshape.
  destruct rest as [| v rest]; [| reflexivity].
  cbn [at_end].
  destruct (Ascii.eqb_spec u Py.newline) as [-> | _]; [| reflexivity].
  cbn [Py.all_chars] in Hns.
  do 5 (apply andb_prop in Hns as [_ Hns]).
  vm_compute in Hns. discriminate.
Qed.

Lemma shaped_location (code : string) (table : gmap string string) :
  Py.all_chars nonspace code = true -> accession_shape code = true ->
  template_location code table
  = Ok (PDBLocation (Py.upper (Py.stake 4 code)) PNone PNone).
Proof.
  intros Hns Hshape. unfold template_location.
  destruct (pdb_code_match code Hns Hshape) as (m & -> & ->). reflexivity.
Qed.

Lemma unshaped_location (code : string) (table : gmap string string) :
  Py.all_chars nonspace code = true -> accession_shape code = false ->
  template_location code table
  = match table !! code with
    | Some fname =>
        Ok (InputFileLocation fname None (PStr "Template for comparative modeling"))
    | None => Raise (KeyError code)
    end.
Proof.
  intros Hns Hshape. unfold template_location.
  rewrite (pdb_code_no_match code Hns Hshape). reflexivity.
Qed.

Lemma resolvable_location (code : string) (table : gmap string string) :
  Py.all_chars nonspace code = true -> resolvable table code ->
  exists l, template_location code table = Ok l.
Proof.
  intros Hns Hres. destruct (accession_shape code) eqn:Hshape.
  - rewrite (shaped_location code table Hns Hshape). eauto.
  - destruct Hres as [Hres | [fname Hfname]]; [congruence |].
    rewrite (unshaped_location code table Hns Hshape), Hfname. eauto.
Qed.

(** The codes of the statistics records have no blank in them. *)
Lemma record_code_nonspace (content : list string) (info : groups) :
  info ∈ statistics_records content ->
  Py.all_chars nonspace (group info 1) = true.
Proof.
  unfold statistics_records. intros (line & _ & Hline)%list_elem_of_omap.
  exact (tmpre_code_nonspace line info Hline).
Qed.

(** What [_handle_template] returns when it returns. *)
Lemma handle_template_inv (info : groups) (table : gmap string string)
    (target : Dataset) (aln : option Location) (t : Template) (target' : Dataset) :
  handle_template info table target aln = Ok (t, target') ->
  exists l,
    template_location (group info 1) table = Ok l /\
    dataset t = PDBDataset l /\
    target' = append_parent target (PDBDataset l) /\
    numbers_ok info = true.
Proof.
  unfold handle_template, numbers_ok.
  destruct (Py.int (group info 2)); cbn [mbind result_bind]; [| discriminate].
  destruct (Py.int (group info 4)); cbn [mbind result_bind]; [| discriminate].
  destruct (Py.int (group info 5)); cbn [mbind result_bind]; [| discriminate].
  destruct (Py.int (group info 6)); cbn [mbind result_bind]; [| discriminate].
  destruct (Py.float (group info 7)); cbn [mbind result_bind]; [| discriminate].
  destruct (template_location (group info 1) table) as [l | e];
    cbn [mbind result_bind]; [| discriminate].
  intros [= <- <-]. exists l. auto.
Qed.

Section Resolution.

Variable get_relative_path : string -> string -> string.

(** The header scan is a pass of [scan_line] over the header lines. *)
Lemma scan_header_fold (pdbname : string) (content : list string) (st : scan) :
  scan_header get_relative_path pdbname content st
  = foldl (fun st line => scan_line get_relative_path pdbname line st) st
      (header_lines content).
Proof.
  revert st. induction content as [| line content IH]; intros st; [reflexivity |].
  cbn [scan_header header_lines].
  destruct (Py.startswith line "ATOM"); [reflexivity |].
  cbn [foldl]. apply IH.
Qed.

(** Only a template-path record changes the table. *)
Lemma scan_line_path_map (pdbname line : string) (st : scan) :
  template_path_map (scan_line get_relative_path pdbname line st)
  = match Re.match_ tmppathre line with
    | Some m =>
        <[group m 1 := get_relative_path pdbname (group m 2)]> (template_path_map st)
    | None => template_path_map st
    end.
Proof.
  unfold scan_line.
  destruct (Re.match_ tmppathre line); destruct (Re.match_ alnfilere line);
    destruct (Re.match_ tmpre line); reflexivity.
Qed.




End Resolution.


(** A code of the accession shape that the table also holds, and a code
    that only the table holds, after the scan of its path record. *)
Example resolution_samples :
  template_location "1xyzA" {[ "1xyzA" := "elsewhere.pdb" ]}
  = Ok (PDBLocation "1XYZ" PNone PNone)
  /\ template_location "tmpl"
       (search_paths Samples.relative_path "run/model.pdb" Samples.modeller_file)
     = Ok (InputFileLocation "run/../templates/tmpl.pdb" None
             (PStr "Template for comparative modeling")).
Proof. vm_compute. auto. Qed.

(** *** Template recovery *)

Lemma handle_template_ok (info : groups) (table : gmap string string)
    (target : Dataset) (aln : option Location) (l : Location) :
  numbers_ok info = true ->
  template_location (group info 1) table = Ok l ->
  exists t, handle_template info table target aln
            = Ok (t, append_parent target (PDBDataset l)).
Proof.
  unfold handle_template, numbers_ok. intros Hnum Hl.
  apply andb_prop in Hnum as [Hnum H7].
  apply andb_prop in Hnum as [Hnum H6].
  apply andb_prop in Hnum as [Hnum H5].
  apply andb_prop in Hnum as [H2 H4].
  destruct (Py.int (group info 2)); [| discriminate].
  destruct (Py.int (group info 4)); [| discriminate].
  destruct (Py.int (group info 5)); [| discriminate].
  destruct (Py.int (group info 6)); [| discriminate].
  destruct (Py.float (group info 7)); [| discriminate].
  rewrite Hl. cbn [mbind result_bind]. eauto.
Qed.

(** A code that resolves to nothing makes [_handle_template] raise: the
    lookup error, unless a conversion of a numeric field failed before. *)
Lemma handle_template_unresolved (info : groups) (table : gmap string string)
    (target : Dataset) (aln : option Location) (e : exn) :
  template_location (group info 1) table = Raise e ->
  (exists e', handle_template info table target aln = Raise e')
  /\ (numbers_ok info = true -> handle_template info table target aln = Raise e).
Proof.
  unfold handle_template, numbers_ok. intros Hl.
  destruct (Py.int (group info 2)); cbn [mbind result_bind is_ok andb];
    [| split; [eauto | discriminate]].
  destruct (Py.int (group info 4)); cbn [mbind result_bind is_ok andb];
    [| split; [eauto | discriminate]].
  destruct (Py.int (group info 5)); cbn [mbind result_bind is_ok andb];
    [| split; [eauto | discriminate]].
  destruct (Py.int (group info 6)); cbn [mbind result_bind is_ok andb];
    [| split; [eauto | discriminate]].
  destruct (Py.float (group info 7)); cbn [mbind result_bind is_ok andb];
    [| split; [eauto | discriminate]].
  rewrite Hl. cbn [mbind result_bind]. eauto.
Qed.

(** The comprehension, on records that convert and resolve. *)
Lemma handle_templates_fine (infos : list groups) (table : gmap string string)
    (target : Dataset) (aln : option Location) :
  Forall (fun info => numbers_ok info = true /\
                      exists l, template_location (group info 1) table = Ok l)
    infos ->
  exists templates target',
    handle_templates infos table target aln = Ok (templates, target') /\
    length templates = length infos /\
    parents target' = parents target ++ map dataset templates.
Proof.
  intros Hfine. revert target.
  induction Hfine as [| info infos [Hnum [l Hl]] _ IH]; intros target.
  - exists [], target. cbn. rewrite app_nil_r. auto.
  - destruct (handle_template_ok info table target aln l Hnum Hl) as (t & Ht).
    destruct (IH (append_parent target (PDBDataset l)))
      as (templates & target' & Hrest & Hlen & Hpar).
    exists (t :: templates), target'.
    cbn [handle_templates]. rewrite Ht. cbn [mbind result_bind].
    rewrite Hrest. cbn [mbind result_bind].
    split; [reflexivity |]. split; [cbn; rewrite Hlen; reflexivity |].
    rewrite Hpar. cbn [map].
    apply handle_template_inv in Ht as (l' & Hl' & Hd & _ & _).
    rewrite Hd. assert (l' = l) as -> by congruence.
    destruct target. cbn. rewrite <- app_assoc. reflexivity.
Qed.

(** The comprehension stops at the first record that raises. *)
Lemma handle_templates_raise (pre post : list groups) (info : groups)
    (table : gmap string string) (aln : option Location) :
  (forall target, exists e, handle_template info table target aln = Raise e) ->
  forall target,
    exists e, handle_templates (pre ++ info :: post) table target aln = Raise e.
Proof.
  intros Hinfo. induction pre as [| i pre IH]; intros target.
  - destruct (Hinfo target) as (e & He). exists e.
    cbn [app handle_templates]. rewrite He. reflexivity.
  - cbn [app handle_templates].
    destruct (handle_template i table target aln) as [[t target'] | e];
      cbn [mbind result_bind]; [| eauto].
    destruct (IH target') as (e & He). exists e. rewrite He. reflexivity.
Qed.

Lemma handle_templates_first_raise (pre post : list groups) (info : groups)
    (table : gmap string string) (aln : option Location) (e : exn) :
  Forall (fun info => numbers_ok info = true /\
                      exists l, template_location (group info 1) table = Ok l)
    pre ->
  (forall target, handle_template info table target aln = Raise e) ->
  forall target,
    handle_templates (pre ++ info :: post) table target aln = Raise e.
Proof.
  intros Hpre Hinfo. induction Hpre as [| i pre [Hnum [l Hl]] _ IH]; intros target.
  - cbn [app handle_templates]. rewrite Hinfo. reflexivity.
  - cbn [app handle_templates].
    destruct (handle_template_ok i table target aln l Hnum Hl) as (t & ->).
    cbn [mbind result_bind]. rewrite IH. reflexivity.
Qed.

(** Records of the header that are fine convert and resolve. *)
Lemma fine_records_run (content : list string) (table : gmap string string)
    (infos : list groups) :
  infos ⊆ statistics_records content ->
  Forall (record_fine table) infos ->
  Forall (fun info => numbers_ok info = true /\
                      exists l, template_location (group info 1) table = Ok l)
    infos.
Proof.
  intros Hsub Hfine. apply Forall_forall. intros info Hin.
  destruct (proj1 (Forall_forall _ _) Hfine info Hin) as [Hnum Hres].
  split; [exact Hnum |].
  apply resolvable_location; [| exact Hres].
  apply (record_code_nonspace content), Hsub, Hin.
Qed.

(** Sorting *)

Lemma range_lt_le (a b : Z * Z) : range_lt a b = true -> range_le a b.
Proof.
  unfold range_lt, range_le. intros [H | [H1 H2]%andb_prop]%orb_prop; lia.
Qed.

Lemma range_not_lt_le (a b : Z * Z) : range_lt a b = false -> range_le b a.
Proof.
  unfold range_lt, range_le. intros [H1 H2]%orb_false_elim.
  apply andb_false_iff in H2. destruct H2; lia.
Qed.

Lemma insert_template_length (t : Template) (l : list Template) :
  length (insert_template t l) = S (length l).
Proof.
  induction l as [| u l IH]; [reflexivity |].
  cbn [insert_template]. destruct (range_lt _ _); cbn; [rewrite IH |]; reflexivity.
Qed.

Lemma sorted_by_range_length (l : list Template) :
  length (sorted_by_range l) = length l.
Proof.
  induction l as [| t l IH]; [reflexivity |].
  cbn [sorted_by_range]. rewrite insert_template_length, IH. reflexivity.
Qed.

Lemma insert_template_perm (t : Template) (l : list Template) :
  Permutation (t :: l) (insert_template t l).
Proof.
  induction l as [| u l IH]; [reflexivity |].
  cbn [insert_template]. destruct (range_lt _ _); [| reflexivity].
  rewrite perm_swap. apply perm_skip, IH.
Qed.

Lemma sorted_by_range_perm (l : list Template) : Permutation l (sorted_by_range l).
Proof.
  induction l as [| t l IH]; [reflexivity |].
  cbn [sorted_by_range]. rewrite <- insert_template_perm. apply perm_skip, IH.
Qed.

Lemma insert_template_hd (x t : Template) (l : list Template) :
  HdRel template_le x l -> template_le x t -> HdRel template_le x (insert_template t l).
Proof.
  intros Hhd Hxt. destruct l as [| u l]; [constructor; exact Hxt |].
  cbn [insert_template]. destruct (range_lt _ _); constructor;
    [inversion Hhd; assumption | exact Hxt].
Qed.

Lemma insert_template_sorted (t : Template) (l : list Template) :
  Sorted template_le l -> Sorted template_le (insert_template t l).
Proof.
  induction 1 as [| u l Hsorted IH Hhd]; [repeat constructor |].
  cbn [insert_template]. destruct (range_lt _ _) eqn:Hlt.
  - constructor; [exact IH |].
    apply insert_template_hd; [exact Hhd | apply range_lt_le, Hlt].
  - constructor; [constructor; assumption |].
    constructor. apply range_not_lt_le, Hlt.
Qed.

Lemma sorted_by_range_sorted (l : list Template) :
  Sorted template_le (sorted_by_range l).
Proof.
  induction l as [| t l IH]; [constructor |].
  cbn [sorted_by_range]. apply insert_template_sorted, IH.
Qed.

(** The sort is stable: templates of one range keep their order. *)
Lemma insert_template_stable (r : Z * Z) (t : Template) (l : list Template) :
  Sorted template_le l ->
  List.filter (fun u => bool_decide (seq_id_range u = r)) (insert_template t l)
  = List.filter (fun u => bool_decide (seq_id_range u = r)) (t :: l).
Proof.
  induction 1 as [| u l Hsorted IH Hhd]; [reflexivity |].
  cbn [insert_template]. destruct (range_lt _ _) eqn:Hlt; [| reflexivity].
  cbn [List.filter] in *. rewrite IH.
  destruct (bool_decide (seq_id_range t = r)) eqn:Ht; [| reflexivity].
  destruct (bool_decide (seq_id_range u = r)) eqn:Hu; [| reflexivity].
  apply bool_decide_eq_true in Ht, Hu. rewrite Ht, Hu in Hlt.
  unfold range_lt in Hlt. apply orb_prop in Hlt as [Hlt | [_ Hlt]%andb_prop]; lia.
Qed.

Lemma sorted_by_range_stable (r : Z * Z) (l : list Template) :
  List.filter (fun u => bool_decide (seq_id_range u = r)) (sorted_by_range l)
  = List.filter (fun u => bool_decide (seq_id_range u = r)) l.
Proof.
  induction l as [| t l IH]; [reflexivity |].
  cbn [sorted_by_range].
  rewrite insert_template_stable by apply sorted_by_range_sorted.
  cbn [List.filter]. rewrite IH. reflexivity.
Qed.

Lemma sorted_adjacent (l : list Template) :
  Sorted template_le l ->
  forall i t u, l !! i = Some t -> l !! S i = Some u -> template_le t u.
Proof.
  induction 1 as [| x l Hsorted IH Hhd]; intros i t u Ht Hu; [discriminate |].
  destruct i as [| i].
  - cbn in Ht, Hu. injection Ht as <-.
    destruct l as [| y l]; [discriminate |].
    cbn in Hu. injection Hu as <-. inversion Hhd; assumption.
  - exact (IH i t u Ht Hu).
Qed.

Section Recovery.

Variable get_relative_path : string -> string -> string.
Variable unknown : pyval.

(** The records that the header scan queues are the statistics records of
    the header. *)
Lemma scan_header_records (pdbname : string) (content : list string) (st : scan) :
  template_info (scan_header get_relative_path pdbname content st)
  = template_info st ++ statistics_records content.
Proof.
  unfold statistics_records. revert st.
  induction content as [| line content IH]; intros st.
  - cbn. rewrite app_nil_r. reflexivity.
  - cbn [scan_header header_lines].
    destruct (Py.startswith line "ATOM"); [cbn; rewrite app_nil_r; reflexivity |].
    rewrite IH. cbn [omap list_omap]. unfold scan_line.
    destruct (Re.match_ tmppathre line); destruct (Re.match_ alnfilere line);
      destruct (Re.match_ tmpre line); cbn [template_info];
      rewrite <- ?app_assoc, ?app_nil_r; reflexivity.
Qed.

(** C2, as the code has it: when every statistics record of the header
    has numeric fields that [int] and [float] accept and a code that
    resolves (accession shape, or held by the search-path table), the
    recovery returns as many templates as there are records (none when
    there is no record), each next to one whose [seq_id_range] is not
    smaller in tuple order; they are the templates of the records,
    reordered, whose datasets are appended to the parents of the target
    in the order of the records. *)
Theorem get_templates_sorted (pdbname : string) (content : list string)
    (target : Dataset) :
  Forall (record_fine (search_paths get_relative_path pdbname content))
    (statistics_records content) ->
  exists templates target',
    get_templates get_relative_path pdbname content target
    = Ok (templates, target') /\
    length templates = length (statistics_records content) /\
    (forall i t u, templates !! i = Some t -> templates !! S i = Some u ->
                   range_le (seq_id_range t) (seq_id_range u)) /\
    exists found, Permutation found templates /\
                  parents target' = parents target ++ map dataset found.
Proof.
  intros Hfine. unfold get_templates.
  pose proof (scan_header_records pdbname content scan0) as Hinfo.
  cbn [template_info scan0 app] in Hinfo.
  apply (fine_records_run content) in Hfine; [| reflexivity].
  rewrite Hinfo.
  destruct (handle_templates_fine _ _ target
              (alnfile (scan_header get_relative_path pdbname content scan0)) Hfine)
    as (found & target' & Hrun & Hlen & Hpar).
  fold (search_paths get_relative_path pdbname content).
  rewrite Hrun. cbn [mbind result_bind].
  exists (sorted_by_range found), target'.
  split; [reflexivity |].
  split; [rewrite sorted_by_range_length; exact Hlen |].
  split; [apply sorted_adjacent, sorted_by_range_sorted |].
  exists found. split; [apply sorted_by_range_perm | exact Hpar].
Qed.

(** A failure of the recovery is a failure of the extraction. *)
Lemma parse_file_comparative (filename : string) (content : list string) (e : exn) :
  comparative (classify (hd EmptyString content)) = true ->
  get_templates get_relative_path filename content
    (ComparativeModelDataset
       (InputFileLocation filename None (PStr "Starting model structure")))
  = Raise e ->
  parse_file get_relative_path unknown filename content = Raise e.
Proof.
  intros Hcmp Hget. unfold parse_file.
  destruct (classify (hd EmptyString content)); try discriminate;
    unfold parse_modeller_model, parse_phyre_model, parse_unknown_model,
      handle_comparative_model;
    rewrite Hget; reflexivity.
Qed.

(** The error of a conversion names the text that does not convert. *)
Lemma int_error (s : string) (e : exn) : Py.int s = Raise e -> e = ValueError s.
Proof.
  unfold Py.int. destruct (match Py.strip s with EmptyString => _ | String _ _ => _ end);
    [discriminate | intros [= <-]; reflexivity].
Qed.

Lemma float_error (s : string) (e : exn) : Py.float s = Raise e -> e = ValueError s.
Proof.
  unfold Py.float. destruct (Py.float_unsigned_ok _);
    [discriminate | intros [= <-]; reflexivity].
Qed.

(** What [_handle_template] does with a record: it raises the error of
    the record, and returns when the record has none. *)
Lemma handle_template_outcome (info : groups) (table : gmap string string)
    (target : Dataset) (aln : option Location) :
  Py.all_chars nonspace (group info 1) = true ->
  match record_exn table info with
  | Some e => handle_template info table target aln = Raise e
  | None => record_fine table info
            /\ is_ok (handle_template info table target aln) = true
  end.
Proof.
  intros Hns.
  unfold record_exn, number_fields, record_fine, numbers_ok, handle_template.
  destruct (Py.int (group info 2)) as [z2 | e2] eqn:H2;
    cbn [List.find snd fst is_ok negb mbind result_bind andb];
    [| rewrite (int_error _ _ H2); reflexivity].
  destruct (Py.int (group info 4)) as [z4 | e4] eqn:H4;
    cbn [List.find snd fst is_ok negb mbind result_bind andb];
    [| rewrite (int_error _ _ H4); reflexivity].
  destruct (Py.int (group info 5)) as [z5 | e5] eqn:H5;
    cbn [List.find snd fst is_ok negb mbind result_bind andb];
    [| rewrite (int_error _ _ H5); reflexivity].
  destruct (Py.int (group info 6)) as [z6 | e6] eqn:H6;
    cbn [List.find snd fst is_ok negb mbind result_bind andb];
    [| rewrite (int_error _ _ H6); reflexivity].
  destruct (Py.float (group info 7)) as [f7 | e7] eqn:H7;
    cbn [List.find snd fst is_ok negb mbind result_bind andb];
    [| rewrite (float_error _ _ H7); reflexivity].
  destruct (accession_shape (group info 1)) eqn:Hshape.
  - rewrite (shaped_location _ table Hns Hshape). cbn [mbind result_bind is_ok].
    split; [split; [reflexivity | left; exact Hshape] | reflexivity].
  - rewrite (unshaped_location _ table Hns Hshape).
    destruct (table !! group info 1) as [fname |] eqn:Htable;
      cbn [mbind result_bind is_ok]; [| reflexivity].
    split; [split; [reflexivity | right; eauto] | reflexivity].
Qed.

(** The comprehension raises the error of the first record that has
    one. *)
Lemma handle_templates_first_error (infos : list groups) (table : gmap string string)
    (target : Dataset) (aln : option Location) (e : exn) :
  Forall (fun info => Py.all_chars nonspace (group info 1) = true) infos ->
  handle_templates infos table target aln = Raise e ->
  exists before bad after,
    infos = before ++ bad :: after /\
    Forall (record_fine table) before /\
    record_exn table bad = Some e.
Proof.
  intros Hns. revert target.
  induction Hns as [| info infos Hinfo _ IH]; intros target;
    cbn [handle_templates]; [discriminate |].
  pose proof (handle_template_outcome info table target aln Hinfo) as Hout.
  destruct (record_exn table info) as [e' |] eqn:Hexn.
  - rewrite Hout. cbn [mbind result_bind]. intros [= <-].
    exists [], info, infos. auto.
  - destruct Hout as [Hfine Hok].
    destruct (handle_template info table target aln) as [[t tg] |];
      [| discriminate]. cbn [mbind result_bind].
    destruct (handle_templates infos table tg aln) as [[ts tg'] |] eqn:Hrest;
      cbn [mbind result_bind]; [discriminate |].
    intros [= <-]. destruct (IH tg Hrest) as (before & bad & after & -> & Hbefore & Hbad).
    exists (info :: before), bad, after. auto.
Qed.

(** The first record that is not fine comes no later than a record that
    is not fine. *)
Lemma first_bad_before {A} (P : A -> Prop) (pre post before after : list A)
    (info bad : A) :
  pre ++ info :: post = before ++ bad :: after ->
  Forall P before -> ~ P info ->
  exists after', pre ++ [info] = before ++ bad :: after'.
Proof.
  revert before. induction pre as [| a pre IH]; intros [| b before]; cbn [app].
  - intros [= -> _] _ _. exists []. reflexivity.
  - intros [= -> _] Hall Hinfo. destruct Hinfo.
    exact (proj1 (Forall_cons_1 _ _ _ Hall)).
  - intros [= -> _] _ _. exists (pre ++ [info]). reflexivity.
  - intros [= -> Heq] Hall Hinfo.
    destruct (IH before Heq (proj2 (Forall_cons_1 _ _ _ Hall)) Hinfo) as (after' & ->).
    exists after'. reflexivity.
Qed.

(** C3, as the code has it: a comparative-model input with a statistics
    record whose code has not the accession shape and is not in the
    search-path table makes the extraction raise, so that no result is
    returned and no template is dropped silently.  The error is the one
    raised first: that of the first statistics record, this one or one
    before it, that is not fine, which is the conversion error of its
    first numeric field that does not convert or, when its numeric fields
    convert, the lookup error of its code.  So the error is the lookup
    error of the code of this record when the records before it are fine
    and its own numeric fields convert. *)
Theorem unresolved_template_fails (filename : string) (content : list string)
    (pre post : list groups) (info : groups) :
  comparative (classify (hd EmptyString content)) = true ->
  statistics_records content = pre ++ info :: post ->
  accession_shape (group info 1) = false ->
  search_paths get_relative_path filename content !! group info 1 = None ->
  (exists e before bad after,
     parse_file get_relative_path unknown filename content = Raise e /\
     pre ++ [info] = before ++ bad :: after /\
     Forall (record_fine (search_paths get_relative_path filename content)) before /\
     record_exn (search_paths get_relative_path filename content) bad = Some e)
  /\ (Forall (record_fine (search_paths get_relative_path filename content)) pre ->
      numbers_ok info = true ->
      parse_file get_relative_path unknown filename content
      = Raise (KeyError (group info 1))).
Proof.
  intros Hcmp Hrecords Hshape Htable.
  assert (Hns : Py.all_chars nonspace (group info 1) = true).
  { apply (record_code_nonspace content). rewrite Hrecords.
    apply elem_of_app. right. apply elem_of_cons. left. reflexivity. }
  assert (Hloc : template_location (group info 1)
                   (search_paths get_relative_path filename content)
                 = Raise (KeyError (group info 1))).
  { rewrite (unshaped_location _ _ Hns Hshape), Htable. reflexivity. }
  pose proof (scan_header_records filename content scan0) as Hinfo.
  cbn [template_info scan0 app] in Hinfo.
  set (target := ComparativeModelDataset
                   (InputFileLocation filename None (PStr "Starting model structure"))).
  split.
  - destruct (handle_templates_raise pre post info
                (search_paths get_relative_path filename content)
                (alnfile (scan_header get_relative_path filename content scan0))
                (fun tg => proj1 (handle_template_unresolved info _ tg _ _ Hloc))
                target) as (e & He).
    assert (Hall : Forall (fun i => Py.all_chars nonspace (group i 1) = true)
                     (pre ++ info :: post)).
    { rewrite <- Hrecords. apply Forall_forall. intros i Hi.
      exact (record_code_nonspace content i Hi). }
    destruct (handle_templates_first_error _ _ _ _ _ Hall He)
      as (before & bad & after & Hsplit & Hbefore & Hbad).
    assert (Hunfit : ~ record_fine (search_paths get_relative_path filename content)
                       info).
    { intros [_ [Hs | [fname Hfname]]]; congruence. }
    destruct (first_bad_before _ _ _ _ _ _ _ Hsplit Hbefore Hunfit) as (after' & Hcut).
    exists e, before, bad, after'.
    split; [| split; [exact Hcut | split; [exact Hbefore | exact Hbad]]].
    apply parse_file_comparative; [exact Hcmp |].
    unfold get_templates. rewrite Hinfo, Hrecords.
    fold (search_paths get_relative_path filename content). fold target.
    rewrite He. reflexivity.
  - intros Hpre Hnum. apply parse_file_comparative; [exact Hcmp |].
    apply (fine_records_run content) in Hpre;
      [| rewrite Hrecords; intros i Hi; apply elem_of_app; left; exact Hi].
    unfold get_templates. rewrite Hinfo, Hrecords.
    fold (search_paths get_relative_path filename content). fold target.
    rewrite (handle_templates_first_raise pre post info _ _
               (KeyError (group info 1)) Hpre); [reflexivity |].
    intros tg. exact (proj2 (handle_template_unresolved info _ tg _ _ Hloc) Hnum).
Qed.

End Recovery.

Lemma get_templates_sorted_witness :
  exists templates target',
    get_templates Samples.relative_path "run/model.pdb" Samples.modeller_file
      (ComparativeModelDataset (InputFileLocation "run/model.pdb" None PNone))
    = Ok (templates, target') /\
    length templates = length (statistics_records Samples.modeller_file) /\
    (forall i t u, templates !! i = Some t -> templates !! S i = Some u ->
                   range_le (seq_id_range t) (seq_id_range u)) /\
    exists found, Permutation found templates /\
                  parents target'
                  = parents (ComparativeModelDataset
                               (InputFileLocation "run/model.pdb" None PNone))
                    ++ map dataset found.
Proof.
  assert (Hrecords : statistics_records Samples.modeller_file
                     = [Samples.record_of Samples.template_1xyz;
                        Samples.record_of Samples.template_local])
    by (vm_compute; reflexivity).
  apply (get_templates_sorted Samples.relative_path "run/model.pdb"
           Samples.modeller_file).
  rewrite Hrecords.
  constructor; [| constructor; [| constructor]]; (split; [vm_compute; reflexivity |]).
  - left. vm_compute. reflexivity.
  - right. exists "run/../templates/tmpl.pdb". vm_compute. reflexivity.
Defined.

(** The sample MODELLER file: the template found second comes first. *)
Example modeller_file_templates :
  (fun r => match r with
            | Ok (templates, target) =>
                (map seq_id_range templates,
                 map (fun t => access_code (location (dataset t))) templates,
                 map (fun d => access_code (location d)) (parents target))
            | Raise _ => ([], [], [])
            end)
    (get_templates Samples.relative_path "run/model.pdb" Samples.modeller_file
       (ComparativeModelDataset (InputFileLocation "run/model.pdb" None PNone)))
  = ([(1, 88); (5, 115)]%Z, [None; Some "1XYZ"], [Some "1XYZ"; None]).
Proof. vm_compute. reflexivity. Qed.

(** C2, refuted as stated: one statistics record, whose code has the
    accession shape and so resolves, and no template list, because its
    first residue number does not convert. *)
Lemma get_templates_bad_number :
  map (fun info => group info 1) (statistics_records Samples.bad_number_file)
  = ["1xyzA"] /\
  accession_shape "1xyzA" = true /\
  get_templates Samples.relative_path "model.pdb" Samples.bad_number_file
    (ComparativeModelDataset
       (InputFileLocation "model.pdb" None (PStr "Starting model structure")))
  = Raise (ValueError "x").
Proof. vm_compute. auto. Qed.

Lemma unresolved_template_fails_witness :
  (exists e before bad after,
     parse_file Samples.relative_path Samples.unknown "model.pdb"
       Samples.lost_template_file = Raise e /\
     [Samples.record_of Samples.template_1xyz]
     ++ [Samples.record_of Samples.template_lost] = before ++ bad :: after /\
     Forall (record_fine (search_paths Samples.relative_path "model.pdb"
                            Samples.lost_template_file)) before /\
     record_exn (search_paths Samples.relative_path "model.pdb"
                   Samples.lost_template_file) bad = Some e)
  /\ (Forall (record_fine (search_paths Samples.relative_path "model.pdb"
                             Samples.lost_template_file))
        [Samples.record_of Samples.template_1xyz] ->
      numbers_ok (Samples.record_of Samples.template_lost) = true ->
      parse_file Samples.relative_path Samples.unknown "model.pdb"
        Samples.lost_template_file
      = Raise (KeyError (group (Samples.record_of Samples.template_lost) 1))).
Proof.
  apply (unresolved_template_fails Samples.relative_path Samples.unknown
           "model.pdb" Samples.lost_template_file
           [Samples.record_of Samples.template_1xyz] []
           (Samples.record_of Samples.template_lost));
    vm_compute; reflexivity.
Defined.

(** The sample file with the lost template: the lookup error. *)
Example lost_template_key_error :
  parse_file Samples.relative_path Samples.unknown "model.pdb"
    Samples.lost_template_file = Raise (KeyError "lost").
Proof. vm_compute. reflexivity. Qed.

(** C3, refuted as stated: the code of the one statistics record has not
    the accession shape and is in no table, and the error that ends the
    extraction is the conversion error of its first residue number, not a
    lookup error. *)
Lemma lost_template_conversion_error :
  map (fun info => group info 1)
    (statistics_records Samples.lost_bad_number_file) = ["lost"] /\
  accession_shape "lost" = false /\
  search_paths Samples.relative_path "model.pdb" Samples.lost_bad_number_file
    !! "lost" = None /\
  parse_file Samples.relative_path Samples.unknown "model.pdb"
    Samples.lost_bad_number_file = Raise (ValueError "x").
Proof. vm_compute. auto. Qed.

End PDBFacts.

(** ** More on the binary header scanner and the web service *)

Module MRCMore.
Import MRC Notions TextFacts.

Lemma lit_match_sound (p s s' : string) : lit_match p s = Some s' -> s = p +:+ s'.
Proof.
  revert s. induction p as [| a p IH]; intros s; cbn [lit_match].
  - intros [= ->]. reflexivity.
  - destruct s as [| b s]; [discriminate |].
    destruct (Ascii.eqb_spec a b) as [-> | _]; [| discriminate].
    intros Hs%IH. rewrite append_cons, <- Hs. reflexivity.
Qed.

(** A search succeeds with a match somewhere in the text. *)
Lemma search_sound (r : regex) (s : string) (m : groups) :
  Re.search r s = Some m -> exists t, Re.match_ r t = Some m.
Proof.
  induction s as [| c s IH]; cbn [Re.search].
  - destruct (Re.match_ r EmptyString) eqn:H; [| discriminate].
    intros [= <-]. eauto.
  - destruct (Re.match_ r (String c s)) eqn:H; [intros [= <-]; eauto | exact IH].
Qed.

(** The group of the EMDB pattern holds [EMD-] and digits. *)
Lemma emdb_re_code (t : string) (m : groups) :
  Re.match_ emdb_re t = Some m -> emdb_code (group m 1).
Proof.
  unfold Re.match_, emdb_re. rewrite rmatch_seq, rmatch_lit.
  destruct (lit_match _ t) as [s |]; [| discriminate].
  rewrite rmatch_seq. cbn [rmatch].
  intros (skipped & rest & _ & _ & Hgroup)%star_match_sound.
  destruct (lit_match "EMD-" rest) as [r1 |] eqn:Hlit; [| discriminate].
  apply lit_match_sound in Hlit as ->.
  destruct r1 as [| c r1]; [discriminate |].
  destruct (digit c) eqn:Hc; [| discriminate].
  apply star_match_sound in Hgroup as (run & r3 & -> & Hrun & [= <-]).
  unfold group. rewrite lookup_insert_eq. cbn [default].
  exists (String c run). split; [| split].
  - unfold id.
    etransitivity; [| exact (stake_append ("EMD-" +:+ String c run) r3)].
    f_equal.
    change (String.length ("EMD-" +:+ String c run)) with (5 + String.length run).
    rewrite length_append. lia.
  - discriminate.
  - cbn [Py.all_chars]. unfold digit in Hc, Hrun. rewrite Hc, Hrun. reflexivity.
Qed.

Lemma label_code_emdb (raw : list byte) (code : string) :
  label_code raw = Some code -> emdb_code code.
Proof.
  unfold label_code.
  destruct (Re.search emdb_re _) as [m |] eqn:Hsearch; [| discriminate].
  intros [= <-]. apply search_sound in Hsearch as (t & Ht).
  exact (emdb_re_code t m Ht).
Qed.

Lemma first_code_emdb (records : list (list byte)) (code : string) :
  first_code records = Some code -> emdb_code code.
Proof.
  induction records as [| r records IH]; [discriminate |].
  cbn [first_code]. destruct (label_code r) as [c |] eqn:Hr; [| exact IH].
  intros [= <-]. exact (label_code_emdb r c Hr).
Qed.

Lemma get_emdb_first_code (content : list byte) (code : string) :
  get_emdb content = Ok (Some code) ->
  exists records, first_code records = Some code.
Proof.
  rewrite MRCFacts.get_emdb_by_count.
  destruct (label_count content) as [n | e]; [| discriminate].
  cbn [mbind result_bind]. intros [= Hfirst]. eauto.
Qed.

(** X1: a code that [_get_emdb] returns is the text [EMD-] followed by
    one decimal digit or more. *)
Theorem get_emdb_code_shape (content : list byte) (code : string) :
  get_emdb content = Ok (Some code) -> emdb_code code.
Proof.
  intros (records & Hfirst)%get_emdb_first_code.
  exact (first_code_emdb records code Hfirst).
Qed.

Lemma get_emdb_code_shape_witness : emdb_code "EMD-1234".
Proof.
  apply (get_emdb_code_shape Samples.emdb_map). vm_compute. reflexivity.
Defined.

Lemma emdb_code_nonempty (code : string) : emdb_code code -> code <> EmptyString.
Proof. intros (digits & -> & _). discriminate. Qed.

Lemma count_field (header rest : list byte) (b0 b1 b2 b3 : byte) :
  length header = 220 ->
  take 4 (drop 220 (header ++ b0 :: b1 :: b2 :: b3 :: rest)) = [b0; b1; b2; b3]
  /\ drop 224 (header ++ b0 :: b1 :: b2 :: b3 :: rest) = rest.
Proof.
  intros Hlen. split.
  - rewrite drop_app_length' by (symmetry; exact Hlen). reflexivity.
  - change 224 with (220 + 4). rewrite <- drop_drop.
    rewrite drop_app_length' by (symmetry; exact Hlen). reflexivity.
Qed.

(** X15: the scanner does not depend on the byte order of the count
    field: a header whose count bytes are reversed gives the same result;
    and a count below 128 that is stored in three zero bytes and one byte,
    in either order, is the number of label records that are scanned. *)
Theorem get_emdb_byte_order (header rest : list byte) (b0 b1 b2 b3 n : byte) :
  length header = 220 ->
  get_emdb (header ++ b0 :: b1 :: b2 :: b3 :: rest)
  = get_emdb (header ++ b3 :: b2 :: b1 :: b0 :: rest)
  /\ ((byte_val n < 128)%Z ->
      get_emdb (header ++ x00 :: x00 :: x00 :: n :: rest)
      = Ok (first_code (label_records (Z.to_nat (byte_val n)) rest))).
Proof.
  intros Hlen. split.
  - rewrite !MRCFacts.get_emdb_by_count. unfold label_count.
    destruct (count_field header rest b0 b1 b2 b3 Hlen) as [-> ->].
    destruct (count_field header rest b3 b2 b1 b0 Hlen) as [-> ->].
    rewrite !MRCFacts.unpack_big_word, !MRCFacts.unpack_little_word. cbn [mbind result_bind].
    rewrite Z.min_comm. reflexivity.
  - intros Hn. rewrite MRCFacts.get_emdb_by_count. unfold label_count.
    destruct (count_field header rest x00 x00 x00 n Hlen) as [-> ->].
    rewrite MRCFacts.unpack_big_word, MRCFacts.unpack_little_word. cbn [mbind result_bind].
    pose proof (MRCFacts.byte_val_range n) as Hr.
    assert (Hbig : word32 x00 x00 x00 n = byte_val n)
      by (unfold word32; change (byte_val x00) with 0%Z; lia).
    assert (Hlittle : word32 n x00 x00 x00 = (byte_val n * 2 ^ 24)%Z)
      by (unfold word32; change (byte_val x00) with 0%Z; lia).
    rewrite Hbig, Hlittle. unfold twos_complement32.
    destruct (Z.ltb_spec (byte_val n) (2 ^ 31)) as [_ | Hge]; [| lia].
    destruct (Z.ltb_spec (byte_val n * 2 ^ 24) (2 ^ 31)) as [_ | Hge]; [| lia].
    rewrite Z.min_l by lia. reflexivity.
Qed.

Lemma get_emdb_byte_order_witness :
  get_emdb (repeat x00 220 ++ x00 :: x00 :: x00 :: x01
            :: Samples.label "::::EMDATABANK.org::::EMD-1234::::")
  = get_emdb (repeat x00 220 ++ x01 :: x00 :: x00 :: x00
              :: Samples.label "::::EMDATABANK.org::::EMD-1234::::")
  /\ get_emdb (repeat x00 220 ++ x01 :: x00 :: x00 :: x00
               :: Samples.label "::::EMDATABANK.org::::EMD-1234::::")
     = Ok (Some "EMD-1234").
Proof.
  destruct (get_emdb_byte_order (repeat x00 220)
              (Samples.label "::::EMDATABANK.org::::EMD-1234::::")
              x00 x00 x00 x01 x01 eq_refl) as [Hswap Hcount].
  split; [exact Hswap |].
  rewrite <- Hswap. rewrite Hcount by (vm_compute; reflexivity).
  vm_compute. reflexivity.
Defined.

Section Service.

Variable service : string -> result pyval.

(** X2: [_get_emdb_info] passes on an error of the request, raises
    [AttributeError] for an answer that is no dictionary and
    [IndexError] for an empty one, and otherwise reads the first element
    of the list under the first key only: the other keys, and the other
    elements of that list, have no effect on what it returns. *)
Theorem get_emdb_info_first_entry (emdb : string) :
  (forall e, service (summary_url emdb) = Raise e ->
     get_emdb_info service emdb = Raise e)
  /\ (service (summary_url emdb) = Ok (PDict []) ->
      get_emdb_info service emdb = Raise IndexError)
  /\ (forall v, service (summary_url emdb) = Ok v ->
        (forall items, v <> PDict items) ->
        get_emdb_info service emdb = Raise AttributeError)
  /\ (forall key first others rest,
        service (summary_url emdb)
        = Ok (PDict ((key, PList (first :: others)) :: rest)) ->
        get_emdb_info service emdb
        = (info ← getitem first "deposition";
           date ← getitem info "map_release_date";
           title ← getitem info "title";
           Ok (date, title))).
Proof.
  unfold get_emdb_info. repeat split.
  - intros e ->. reflexivity.
  - intros ->. reflexivity.
  - intros v -> Hv. destruct v; try reflexivity. destruct (Hv items eq_refl).
  - intros key first others rest ->. cbn. rewrite String.eqb_refl. reflexivity.
Qed.

(** X3: when [MRCParser.parse_file] returns, the dataset is a density-map
    dataset without parents whose details are never empty or [None];
    its location is the file itself, with the stock description, when
    the file holds no code, and otherwise the EMDB entry of the code,
    with the release date as version and with the title as details, or
    the stock description when the title is empty. *)
Theorem parse_file_result (filename : string) (content : list byte) (d : Dataset) :
  parse_file service filename content = Ok d ->
  kind d = EMDensityKind /\ parents d = [] /\
  truthy (details_of (location d)) = true /\
  ((get_emdb content = Ok None /\
    location d = InputFileLocation filename None
                   (PStr "Electron microscopy density map"))
   \/ exists code version title,
        get_emdb content = Ok (Some code) /\
        get_emdb_info service code = Ok (version, title) /\
        location d = EMDBLocation code version
                       (if truthy title then title
                        else PStr "Electron microscopy density map")).
Proof.
  unfold parse_file.
  destruct (get_emdb content) as [[code |] | e] eqn:Hemdb;
    cbn [mbind result_bind]; [| | discriminate].
  - destruct (get_emdb_first_code content code Hemdb) as (records & Hfirst).
    pose proof (emdb_code_nonempty code (first_code_emdb records code Hfirst)).
    destruct code as [| c code]; [congruence |].
    destruct (get_emdb_info service (String c code)) as [[version title] | e]
      eqn:Hinfo; cbn [mbind result_bind]; [| discriminate].
    intros [= <-]. cbn. split; [reflexivity |]. split; [reflexivity |]. split.
    + destruct (truthy title) eqn:Ht; [exact Ht | reflexivity].
    + right. exists (String c code), version, title.
      split; [reflexivity |]. split; [exact Hinfo | reflexivity].
  - intros [= <-]. cbn. do 3 (split; [reflexivity |]). left. split; reflexivity.
Qed.

End Service.

Lemma parse_file_result_witness :
  let d := EMDensityDataset
             (EMDBLocation "EMD-1234" (PStr "2016-01-01")
                (PStr "Electron microscopy density map")) in
  kind d = EMDensityKind /\ parents d = [] /\
  truthy (details_of (location d)) = true /\
  ((get_emdb Samples.emdb_map = Ok None /\
    location d = InputFileLocation "map.mrc" None
                   (PStr "Electron microscopy density map"))
   \/ exists code version title,
        get_emdb Samples.emdb_map = Ok (Some code) /\
        get_emdb_info MoreSamples.service_two_entries code = Ok (version, title) /\
        location d = EMDBLocation code version
                       (if truthy title then title
                        else PStr "Electron microscopy density map")).
Proof.
  cbv zeta.
  apply (parse_file_result MoreSamples.service_two_entries "map.mrc"
           Samples.emdb_map).
  vm_compute. reflexivity.
Defined.

(** An answer with two entries and an empty title: the first entry is
    read, and the stock description stands in for the title. *)
Example two_entries_summary :
  get_emdb_info MoreSamples.service_two_entries "EMD-1234"
  = Ok (PStr "2016-01-01", PStr "").
Proof. vm_compute. reflexivity. Qed.

End MRCMore.

(** ** More on the structure-file extractors *)

Module PDBMore.
Import PDB Notions TextFacts PDBFacts.

(** A location that is found is that of a code that resolves. *)
Lemma location_resolvable (code : string) (table : gmap string string) (l : Location) :
  Py.all_chars nonspace code = true ->
  template_location code table = Ok l -> resolvable table code.
Proof.
  intros Hns Hl. destruct (accession_shape code) eqn:Hshape; [left; exact Hshape |].
  right. rewrite (unshaped_location code table Hns Hshape) in Hl.
  destruct (table !! code); [eauto | discriminate].
Qed.

(** What [_handle_template] returns, field by field. *)
Lemma handle_template_fields (info : groups) (table : gmap string string)
    (target : Dataset) (aln : option Location) (t : Template) (target' : Dataset) :
  handle_template info table target aln = Ok (t, target') ->
  template_of table info t /\ alignment_file t = aln /\
  target' = append_parent target (dataset t).
Proof.
  unfold handle_template, template_of.
  destruct (Py.int (group info 2)); cbn [mbind result_bind]; [| discriminate].
  destruct (Py.int (group info 4)); cbn [mbind result_bind]; [| discriminate].
  destruct (Py.int (group info 5)); cbn [mbind result_bind]; [| discriminate].
  destruct (Py.int (group info 6)); cbn [mbind result_bind]; [| discriminate].
  destruct (Py.float (group info 7)); cbn [mbind result_bind]; [| discriminate].
  destruct (template_location (group info 1) table) as [l | e];
    cbn [mbind result_bind]; [| discriminate].
  intros [= <- <-]. cbn. repeat split; eauto.
Qed.

(** The comprehension, when it returns. *)
Lemma handle_templates_inv (infos : list groups) (table : gmap string string)
    (target : Dataset) (aln : option Location)
    (templates : list Template) (target' : Dataset) :
  handle_templates infos table target aln = Ok (templates, target') ->
  Forall2 (template_of table) infos templates /\
  Forall (fun t => alignment_file t = aln) templates /\
  parents target' = parents target ++ map dataset templates.
Proof.
  revert target templates target'.
  induction infos as [| info infos IH]; intros target templates target';
    cbn [handle_templates].
  - intros [= <- <-]. cbn. rewrite app_nil_r. auto.
  - destruct (handle_template info table target aln) as [[t tg] |] eqn:Ht;
      cbn [mbind result_bind]; [| discriminate].
    destruct (handle_templates infos table tg aln) as [[ts tg'] |] eqn:Hts;
      cbn [mbind result_bind]; [| discriminate].
    intros [= <- <-].
    apply handle_template_fields in Ht as (Hof & Haln & ->).
    destruct (IH _ _ _ Hts) as (Hall & Halns & Hpar).
    split; [constructor; assumption |]. split; [constructor; assumption |].
    rewrite Hpar. destruct target. cbn. rewrite <- app_assoc. reflexivity.
Qed.

(** The recovery leaves the kind and the location of the target. *)
Lemma handle_templates_frame (infos : list groups) (table : gmap string string)
    (target : Dataset) (aln : option Location)
    (templates : list Template) (target' : Dataset) :
  handle_templates infos table target aln = Ok (templates, target') ->
  kind target' = kind target /\ location target' = location target.
Proof.
  revert target templates target'.
  induction infos as [| info infos IH]; intros target templates target';
    cbn [handle_templates].
  - intros [= <- <-]. auto.
  - destruct (handle_template info table target aln) as [[t tg] |] eqn:Ht;
      cbn [mbind result_bind]; [| discriminate].
    destruct (handle_templates infos table tg aln) as [[ts tg'] |] eqn:Hts;
      cbn [mbind result_bind]; [| discriminate].
    intros [= <- <-].
    apply handle_template_fields in Ht as (_ & _ & ->).
    destruct (IH _ _ _ Hts) as [-> ->]. destruct target. auto.
Qed.

Lemma Forall2_elem_l {A B} (P : A -> B -> Prop) (l : list A) (k : list B) (x : A) :
  Forall2 P l k -> x ∈ l -> exists y, y ∈ k /\ P x y.
Proof.
  induction 1 as [| a b l k Hab _ IH]; intros Hin.
  - apply elem_of_nil in Hin. destruct Hin.
  - apply elem_of_cons in Hin as [-> | Hin].
    + exists b. split; [left | exact Hab].
    + destruct (IH Hin) as (y & Hy & Hxy). exists y. split; [right; exact Hy | exact Hxy].
Qed.

(** A record that gives a template is fine. *)
Lemma template_of_fine (content : list string) (table : gmap string string)
    (info : groups) (t : Template) :
  info ∈ statistics_records content ->
  template_of table info t -> record_fine table info.
Proof.
  intros Hin (H2 & H4 & H5 & H6 & H7 & _ & l & Hl & _).
  split.
  - unfold numbers_ok. rewrite H2, H4, H5, H6, H7. reflexivity.
  - apply (location_resolvable _ _ l); [| exact Hl].
    exact (record_code_nonspace content info Hin).
Qed.

(** X5: [_handle_template] checks a record in a fixed order, the
    conversions of the numeric fields first: the error it raises is the
    [ValueError] of the first field, in the order of groups 2, 4, 5, 6
    and then the identity, that does not convert, whatever the later
    fields and the code are; when all fields convert it is the [KeyError]
    of a code that has not the accession shape and is not in the
    search-path table. *)
Theorem handle_template_first_error (info : groups) (table : gmap string string)
    (target : Dataset) (aln : option Location) (e : exn) :
  Py.all_chars nonspace (group info 1) = true ->
  record_exn table info = Some e ->
  handle_template info table target aln = Raise e.
Proof.
  intros Hns Hexn.
  pose proof (handle_template_outcome info table target aln Hns) as Hout.
  rewrite Hexn in Hout. exact Hout.
Qed.

Lemma handle_template_first_error_witness :
  map (group (Samples.record_of MoreSamples.template_two_bad_numbers)) [1; 2; 4]
  = ["lost"; "x"; "y"]%string /\
  handle_template (Samples.record_of MoreSamples.template_two_bad_numbers) ∅
    (ComparativeModelDataset (InputFileLocation "model.pdb" None PNone)) None
  = Raise (ValueError "x").
Proof.
  split; [vm_compute; reflexivity |].
  apply (handle_template_first_error
           (Samples.record_of MoreSamples.template_two_bad_numbers) ∅
           (ComparativeModelDataset (InputFileLocation "model.pdb" None PNone))
           None (ValueError "x")); vm_compute; reflexivity.
Defined.

Section Outcome.

Variable get_relative_path : string -> string -> string.
Variable unknown : pyval.

(** The extraction, for the dialects that recover templates. *)
Lemma parse_file_comparative_eq (filename : string) (content : list string) :
  comparative (classify (hd EmptyString content)) = true ->
  is_ok (parse_file get_relative_path unknown filename content)
  = is_ok (get_templates get_relative_path filename content
             (ComparativeModelDataset
                (InputFileLocation filename None (PStr "Starting model structure"))))
  /\ forall e,
       parse_file get_relative_path unknown filename content = Raise e <->
       get_templates get_relative_path filename content
         (ComparativeModelDataset
            (InputFileLocation filename None (PStr "Starting model structure")))
       = Raise e.
Proof.
  intros Hcmp. unfold parse_file.
  destruct (classify (hd EmptyString content)); try discriminate;
    unfold parse_modeller_model, parse_phyre_model, parse_unknown_model,
      handle_comparative_model;
    destruct (get_templates _ _ _ _) as [[ts d] | e']; cbn [mbind result_bind is_ok];
    (split; [reflexivity | intros e; split; congruence]).
Qed.

Lemma parse_file_other_ok (filename : string) (content : list string) :
  comparative (classify (hd EmptyString content)) = false ->
  is_ok (parse_file get_relative_path unknown filename content) = true.
Proof.
  unfold parse_file. destruct (classify (hd EmptyString content));
    try discriminate; reflexivity.
Qed.

Lemma get_templates_ok_fine (pdbname : string) (content : list string)
    (target : Dataset) :
  is_ok (get_templates get_relative_path pdbname content target) = true <->
  Forall (record_fine (search_paths get_relative_path pdbname content))
    (statistics_records content).
Proof.
  unfold get_templates.
  pose proof (scan_header_records get_relative_path pdbname content scan0) as Hinfo.
  cbn [template_info scan0 app] in Hinfo. rewrite Hinfo.
  fold (search_paths get_relative_path pdbname content).
  split.
  - destruct (handle_templates _ _ _ _) as [[ts tg] |] eqn:Hrun; [| discriminate].
    intros _. apply handle_templates_inv in Hrun as (Hall & _ & _).
    apply Forall_forall. intros info Hin.
    destruct (Forall2_elem_l _ _ _ info Hall Hin) as (t & _ & Ht).
    exact (template_of_fine content _ info t Hin Ht).
  - intros Hfine. apply (fine_records_run content) in Hfine; [| reflexivity].
    destruct (handle_templates_fine _ _ target
                (alnfile (scan_header get_relative_path pdbname content scan0)) Hfine)
      as (found & target' & -> & _). reflexivity.
Qed.

Lemma atom_unknown (atom : string) :
  Py.startswith atom "ATOM" = true -> classify atom = Unknown.
Proof.
  destruct atom as [| c atom]; [discriminate |].
  cbn [Py.startswith]. destruct (Ascii.eqb_spec "A" c) as [<- | _];
    [reflexivity | discriminate].
Qed.

(** X6: for every dialect but the official one, the extraction reads the
    header only: what follows the first line that starts with [ATOM],
    that line included, has no effect on the result. *)
Theorem parse_file_reads_header_only (filename atom : string)
    (pre post : list string) :
  classify (hd EmptyString (pre ++ atom :: post)) <> Official ->
  Py.startswith atom "ATOM" = true ->
  parse_file get_relative_path unknown filename (pre ++ atom :: post)
  = parse_file get_relative_path unknown filename pre.
Proof.
  intros Hcls Hatom.
  pose proof (scan_header_stops get_relative_path filename pre post atom scan0 Hatom)
    as Hscan.
  assert (Hget : forall target,
            get_templates get_relative_path filename (pre ++ atom :: post) target
            = get_templates get_relative_path filename pre target).
  { intros target. unfold get_templates. rewrite Hscan. reflexivity. }
  unfold parse_file, parse_modeller_model, parse_phyre_model, parse_unknown_model,
    handle_comparative_model.
  destruct pre as [| first pre].
  - cbn [app hd tl] in *. rewrite (atom_unknown atom Hatom).
    change (classify EmptyString) with Unknown. cbv iota.
    rewrite Hget. reflexivity.
  - cbn [app hd tl] in Hcls |- *. change (first :: pre ++ atom :: post)
      with ((first :: pre) ++ atom :: post).
    destruct (classify first); [congruence | | | | |]; try (rewrite Hget; reflexivity).
    + unfold parse_derived_from_pdb, parse_details.
      rewrite (details_loop_stops pre post atom _ Hatom). reflexivity.
    + unfold parse_derived_from_model, parse_details.
      rewrite (details_loop_stops pre post atom _ Hatom). reflexivity.
Qed.

(** The alignment file that the scan of a line leaves. *)
Lemma scan_line_alnfile (pdbname line : string) (st : scan) :
  alnfile (scan_line get_relative_path pdbname line st)
  = match Re.match_ alnfilere line with
    | Some m =>
        Some (InputFileLocation (get_relative_path pdbname (group m 1)) None
                (PStr "Alignment for starting comparative model"))
    | None => alnfile st
    end.
Proof.
  unfold scan_line.
  destruct (Re.match_ tmppathre line); destruct (Re.match_ alnfilere line);
    destruct (Re.match_ tmpre line); reflexivity.
Qed.

Lemma scan_lines_alnfile (pdbname : string) (lines : list string) (st : scan) :
  alnfile (foldl (fun st line => scan_line get_relative_path pdbname line st) st lines)
  = match last (omap (Re.match_ alnfilere) lines) with
    | Some m =>
        Some (InputFileLocation (get_relative_path pdbname (group m 1)) None
                (PStr "Alignment for starting comparative model"))
    | None => alnfile st
    end.
Proof.
  revert st. induction lines as [| line lines IH]; intros st; [reflexivity |].
  cbn [foldl omap list_omap]. rewrite IH, scan_line_alnfile.
  destruct (Re.match_ alnfilere line) as [m |]; [| reflexivity].
  rewrite last_cons. destruct (last (omap (Re.match_ alnfilere) lines)); reflexivity.
Qed.

Lemma scan_header_alnfile (pdbname : string) (content : list string) :
  alnfile (scan_header get_relative_path pdbname content scan0)
  = header_alignment get_relative_path pdbname content.
Proof.
  rewrite scan_header_fold, scan_lines_alnfile. unfold header_alignment.
  destruct (last _); reflexivity.
Qed.

(** What the recovery returns: the templates of the records, sorted. *)
Lemma get_templates_inv (pdbname : string) (content : list string)
    (target : Dataset) (templates : list Template) (target' : Dataset) :
  get_templates get_relative_path pdbname content target = Ok (templates, target') ->
  exists found,
    templates = sorted_by_range found /\
    Forall2 (template_of (search_paths get_relative_path pdbname content))
      (statistics_records content) found /\
    Forall (fun t => alignment_file t
                     = header_alignment get_relative_path pdbname content) found /\
    parents target' = parents target ++ map dataset found.
Proof.
  unfold get_templates.
  pose proof (scan_header_records get_relative_path pdbname content scan0) as Hinfo.
  cbn [template_info scan0 app] in Hinfo. rewrite Hinfo, scan_header_alnfile.
  fold (search_paths get_relative_path pdbname content).
  destruct (handle_templates _ _ _ _) as [[found tg] |] eqn:Hrun;
    cbn [mbind result_bind]; [| discriminate].
  intros [= <- <-]. exists found. split; [reflexivity |].
  exact (handle_templates_inv _ _ _ _ _ _ Hrun).
Qed.

(** X4: a result of the extraction of a file of a dialect that recovers
    templates has one template for each statistics record of the header,
    and every one of these records is fine: its numeric fields convert
    and its code resolves.  No record is left out of a result. *)
Theorem parse_file_result_records_fine (filename : string) (content : list string)
    (ret : Ret) :
  parse_file get_relative_path unknown filename content = Ok ret ->
  comparative (classify (hd EmptyString content)) = true ->
  Forall (record_fine (search_paths get_relative_path filename content))
    (statistics_records content)
  /\ length (ret_templates ret) = length (statistics_records content).
Proof.
  intros Hret Hcmp. split.
  - apply (get_templates_ok_fine filename content
             (ComparativeModelDataset
                (InputFileLocation filename None (PStr "Starting model structure")))).
    rewrite <- (proj1 (parse_file_comparative_eq filename content Hcmp)), Hret.
    reflexivity.
  - unfold parse_file in Hret.
    destruct (classify (hd EmptyString content)); try discriminate;
      unfold parse_modeller_model, parse_phyre_model, parse_unknown_model,
        handle_comparative_model in Hret;
      destruct (get_templates _ _ _ _) as [[ts d] |] eqn:Hget;
      cbn [mbind result_bind] in Hret; try discriminate;
      injection Hret as <-; cbn [ret_templates set_templates set_dataset];
      apply get_templates_inv in Hget as (found & -> & Hof & _);
      rewrite sorted_by_range_length; symmetry; exact (Forall2_length _ _ _ Hof).
Qed.

(** X7: every template that the recovery returns carries the same
    alignment file: that of the last alignment record of the header,
    also when the record of the template comes before it, and none when
    the header has no alignment record. *)
Theorem templates_share_alignment (pdbname : string) (content : list string)
    (target : Dataset) (templates : list Template) (target' : Dataset) :
  get_templates get_relative_path pdbname content target = Ok (templates, target') ->
  Forall (fun t => alignment_file t
                   = header_alignment get_relative_path pdbname content) templates.
Proof.
  intros (found & -> & _ & Haln & _)%get_templates_inv.
  rewrite <- (sorted_by_range_perm found). exact Haln.
Qed.

(** X8: the templates that the recovery returns are those of the
    statistics records of the header, one for each record, with the
    residue ranges, the identity and the chain of the record and with the
    PDB dataset of the location of its code; they are returned in the
    order of their [seq_id_range], templates of one range in the order of
    their records. *)
Theorem templates_of_records (pdbname : string) (content : list string)
    (target : Dataset) (templates : list Template) (target' : Dataset) :
  get_templates get_relative_path pdbname content target = Ok (templates, target') ->
  exists found,
    Forall2 (template_of (search_paths get_relative_path pdbname content))
      (statistics_records content) found /\
    Permutation found templates /\
    Sorted template_le templates /\
    forall r, List.filter (fun t => bool_decide (seq_id_range t = r)) templates
              = List.filter (fun t => bool_decide (seq_id_range t = r)) found.
Proof.
  intros (found & -> & Hof & _ & _)%get_templates_inv.
  exists found. split; [exact Hof |].
  split; [apply sorted_by_range_perm |].
  split; [apply sorted_by_range_sorted |].
  intros r. apply sorted_by_range_stable.
Qed.

Lemma scan_lines_path_map (pdbname code : string) (lines : list string) (st : scan) :
  is_Some (template_path_map
             (foldl (fun st line => scan_line get_relative_path pdbname line st)
                st lines) !! code)
  <-> is_Some (template_path_map st !! code) \/ Exists (path_record_of code) lines.
Proof.
  revert st. induction lines as [| line lines IH]; intros st.
  - cbn [foldl]. rewrite Exists_nil. tauto.
  - cbn [foldl]. rewrite IH, Exists_cons, scan_line_path_map.
    unfold path_record_of at 2.
    destruct (Re.match_ tmppathre line) as [m |].
    + rewrite lookup_insert_is_Some'. split.
      * intros [[Hm | Hst] | Hrest]; [right; left; eauto | left; exact Hst
                                      | right; right; exact Hrest].
      * intros [Hst | [(m' & [= <-] & Hm) | Hrest]];
          [left; right; exact Hst | left; left; exact Hm | right; exact Hrest].
    + split.
      * intros [Hst | Hrest]; [left; exact Hst | right; right; exact Hrest].
      * intros [Hst | [(m' & Hm & _) | Hrest]];
          [left; exact Hst | discriminate | right; exact Hrest].
Qed.

(** X9: the search-path table holds a code exactly when a line of the
    header is a template-path record of that code. *)
Theorem search_paths_holds_iff (pdbname code : string) (content : list string) :
  is_Some (search_paths get_relative_path pdbname content !! code)
  <-> Exists (path_record_of code) (header_lines content).
Proof.
  unfold search_paths. rewrite scan_header_fold, scan_lines_path_map.
  cbn [template_path_map scan0]. rewrite lookup_empty. split.
  - intros [[x Hx] | H]; [discriminate | exact H].
  - intros H. right. exact H.
Qed.

(** X10: the provenance that the extraction returns is one level deep:
    the result always holds a dataset, whose parents have no parents
    themselves; an official record has no parent, a derived file has one,
    and a comparative model has the datasets of its templates as
    parents; raw records are returned for the official record only and
    templates for the comparative models only. *)
Theorem provenance_shape (filename : string) (content : list string) (ret : Ret) :
  parse_file get_relative_path unknown filename content = Ok ret ->
  exists d,
    ret_dataset ret = Some d /\
    Forall (fun p => parents p = []) (parents d) /\
    match classify (hd EmptyString content) with
    | Official => parents d = [] /\ ret_templates ret = []
    | DerivedFromPDB | DerivedFromModel =>
        length (parents d) = 1 /\ ret_templates ret = [] /\ ret_metadata ret = []
    | _ => Permutation (parents d) (map dataset (ret_templates ret))
           /\ ret_metadata ret = []
    end.
Proof.
  assert (Hcmp : forall local ret0,
            ret_metadata ret0 = [] ->
            handle_comparative_model get_relative_path local filename content ret0
            = Ok ret ->
            exists d, ret_dataset ret = Some d /\
                      Forall (fun p => parents p = []) (parents d) /\
                      Permutation (parents d) (map dataset (ret_templates ret)) /\
                      ret_metadata ret = []).
  { intros local ret0 Hmeta. unfold handle_comparative_model.
    destruct (get_templates _ _ _ _) as [[ts d] |] eqn:Hget;
      cbn [mbind result_bind]; [| discriminate].
    intros [= <-]. exists d. cbn.
    apply get_templates_inv in Hget as (found & -> & Hof & _ & Hpar).
    cbn in Hpar. split; [reflexivity |]. split; [| split; [| exact Hmeta]].
    - rewrite Hpar. apply List.Forall_forall. intros p (tm & <- & Hin)%in_map_iff.
      apply list_elem_of_In in Hin.
      destruct (Forall2_elem_l
                  (fun t i => template_of
                                (search_paths get_relative_path filename content) i t)
                  found (statistics_records content) tm) as (i & _ & Hi);
        [apply Forall2_flip; exact Hof | exact Hin |].
      destruct Hi as (_ & _ & _ & _ & _ & _ & l & _ & ->). reflexivity.
    - rewrite Hpar. apply Permutation_map, sorted_by_range_perm. }
  unfold parse_file.
  destruct (classify (hd EmptyString content)).
  - intros [= <-]. unfold parse_official_pdb.
    destruct (parse_pdb_records _ _) as [[version details] metadata].
    eexists. cbn. auto.
  - intros [= <-]. eexists. cbn. repeat split. repeat constructor.
  - intros [= <-]. eexists. cbn. repeat split. repeat constructor.
  - intros Hret. apply Hcmp in Hret as (d & ? & ? & ? & ?); eauto.
  - intros Hret. apply Hcmp in Hret as (d & ? & ? & ? & ?); eauto.
  - intros Hret. apply Hcmp in Hret as (d & ? & ? & ? & ?); eauto.
Qed.

Lemma details_value_ok (text : string) : details_ok (details_value text) = true.
Proof. destruct text; reflexivity. Qed.

Lemma template_location_details (code : string) (table : gmap string string)
    (l : Location) :
  template_location code table = Ok l -> details_ok (details_of l) = true.
Proof.
  unfold template_location. destruct (Re.match_ pdb_code_re code).
  - intros [= <-]. reflexivity.
  - destruct (table !! code); [| discriminate]. intros [= <-]. reflexivity.
Qed.

(** X16: in every result of the extraction, the details of a location
    are absent or a text that is not empty, for the dataset and for each
    of its parents, with one exception: the dataset of a file derived from
    a PDB entry or from a comparative model whose header has no title text
    has the empty text as details. *)
Theorem details_absent_or_text (filename : string) (content : list string)
    (ret : Ret) :
  parse_file get_relative_path unknown filename content = Ok ret ->
  exists d,
    ret_dataset ret = Some d /\
    Forall (fun p => details_ok (details_of (location p)) = true) (parents d) /\
    (details_ok (details_of (location d)) = true
     \/ ((classify (hd EmptyString content) = DerivedFromPDB
          \/ classify (hd EmptyString content) = DerivedFromModel)
         /\ titles (header_lines (tl content)) = EmptyString
         /\ location d = InputFileLocation filename None (PStr EmptyString))).
Proof.
  assert (Hcmp : forall ret0,
            handle_comparative_model get_relative_path
              (InputFileLocation filename None (PStr "Starting model structure"))
              filename content ret0 = Ok ret ->
            exists d, ret_dataset ret = Some d /\
                      Forall (fun p => details_ok (details_of (location p)) = true)
                        (parents d) /\
                      details_ok (details_of (location d)) = true).
  { intros ret0. unfold handle_comparative_model.
    destruct (get_templates _ _ _ _) as [[ts d] |] eqn:Hget;
      cbn [mbind result_bind]; [| discriminate].
    intros [= <-]. exists d. cbn. split; [reflexivity |].
    pose proof Hget as (found & -> & Hof & _ & Hpar)%get_templates_inv.
    unfold get_templates in Hget.
    destruct (handle_templates _ _ _ _) as [[found' tg] |] eqn:Hrun;
      cbn [mbind result_bind] in Hget; [| discriminate].
    injection Hget as _ <-.
    apply handle_templates_frame in Hrun as [_ Hloc].
    split; [| rewrite Hloc; reflexivity].
    rewrite Hpar. cbn [parents ComparativeModelDataset app].
    apply List.Forall_forall. intros p (tm & <- & Hin)%in_map_iff.
    apply list_elem_of_In in Hin.
    destruct (Forall2_elem_l
                (fun t i => template_of
                              (search_paths get_relative_path filename content) i t)
                found (statistics_records content) tm) as (i & _ & Hi);
      [apply Forall2_flip; exact Hof | exact Hin |].
    destruct Hi as (_ & _ & _ & _ & _ & _ & l & Hl & ->). cbn.
    exact (template_location_details _ _ l Hl). }
  unfold parse_file.
  destruct (classify (hd EmptyString content)).
  - intros [= <-]. unfold parse_official_pdb. rewrite parse_pdb_records_all.
    eexists. cbn. split; [reflexivity |]. split; [constructor |].
    left. apply details_value_ok.
  - intros [= <-]. eexists. cbn. split; [reflexivity |].
    split; [repeat constructor |]. rewrite parse_details_titles.
    destruct (titles (header_lines (tl content))); [right | left]; auto.
  - intros [= <-]. eexists. cbn. split; [reflexivity |].
    split; [repeat constructor |]. rewrite parse_details_titles.
    destruct (titles (header_lines (tl content))); [right | left]; auto.
  - intros Hret. apply Hcmp in Hret as (d & ? & ? & ?); eauto.
  - intros Hret. apply Hcmp in Hret as (d & ? & ? & ?); eauto.
  - intros Hret. apply Hcmp in Hret as (d & ? & ? & ?); eauto.
Qed.

End Outcome.

Lemma details_absent_or_text_witness :
  exists ret,
    parse_file Samples.relative_path Samples.unknown "run/model.pdb"
      Samples.modeller_file = Ok ret /\
    exists d,
      ret_dataset ret = Some d /\
      Forall (fun p => details_ok (details_of (location p)) = true) (parents d) /\
      (details_ok (details_of (location d)) = true
       \/ ((classify (hd EmptyString Samples.modeller_file) = DerivedFromPDB
            \/ classify (hd EmptyString Samples.modeller_file) = DerivedFromModel)
           /\ titles (header_lines (tl Samples.modeller_file)) = EmptyString
           /\ location d = InputFileLocation "run/model.pdb" None (PStr EmptyString))).
Proof.
  destruct (parse_file Samples.relative_path Samples.unknown "run/model.pdb"
              Samples.modeller_file) as [ret | e] eqn:Hret;
    [| vm_compute in Hret; discriminate].
  exists ret. split; [reflexivity |].
  exact (details_absent_or_text Samples.relative_path Samples.unknown "run/model.pdb"
           Samples.modeller_file ret Hret).
Defined.

Lemma parse_file_result_records_fine_witness :
  exists ret,
    parse_file Samples.relative_path Samples.unknown "run/model.pdb"
      Samples.modeller_file = Ok ret /\
    Forall (record_fine (search_paths Samples.relative_path "run/model.pdb"
                           Samples.modeller_file))
      (statistics_records Samples.modeller_file) /\
    length (ret_templates ret) = length (statistics_records Samples.modeller_file).
Proof.
  destruct (parse_file Samples.relative_path Samples.unknown "run/model.pdb"
              Samples.modeller_file) as [ret | e] eqn:Hret;
    [| vm_compute in Hret; discriminate].
  exists ret. split; [reflexivity |].
  apply (parse_file_result_records_fine Samples.relative_path Samples.unknown
           "run/model.pdb" Samples.modeller_file ret Hret).
  vm_compute. reflexivity.
Defined.

Lemma parse_file_reads_header_only_witness :
  classify (hd EmptyString
              (Samples.file_lines [Samples.modeller_line; Samples.template_1xyz]
               ++ (Samples.atom_line +:+ Samples.nl)
                  :: Samples.file_lines [Samples.template_lost]))
  = Modeller /\
  Py.startswith (Samples.atom_line +:+ Samples.nl) "ATOM" = true /\
  parse_file Samples.relative_path Samples.unknown "model.pdb"
    (Samples.file_lines [Samples.modeller_line; Samples.template_1xyz]
     ++ (Samples.atom_line +:+ Samples.nl)
        :: Samples.file_lines [Samples.template_lost])
  = parse_file Samples.relative_path Samples.unknown "model.pdb"
      (Samples.file_lines [Samples.modeller_line; Samples.template_1xyz]).
Proof.
  split; [vm_compute; reflexivity |]. split; [vm_compute; reflexivity |].
  apply (parse_file_reads_header_only Samples.relative_path Samples.unknown
           "model.pdb" (Samples.atom_line +:+ Samples.nl)
           (Samples.file_lines [Samples.modeller_line; Samples.template_1xyz])
           (Samples.file_lines [Samples.template_lost])).
  - vm_compute. discriminate.
  - vm_compute. reflexivity.
Defined.

Lemma templates_share_alignment_witness :
  exists templates target',
    get_templates Samples.relative_path "run/model.pdb" Samples.modeller_file
      (ComparativeModelDataset (InputFileLocation "run/model.pdb" None PNone))
    = Ok (templates, target') /\
    length templates = 2 /\
    header_alignment Samples.relative_path "run/model.pdb" Samples.modeller_file
    = Some (InputFileLocation "run/model.ali" None
              (PStr "Alignment for starting comparative model")) /\
    Forall (fun t => alignment_file t
                     = header_alignment Samples.relative_path "run/model.pdb"
                         Samples.modeller_file) templates.
Proof.
  destruct (get_templates Samples.relative_path "run/model.pdb" Samples.modeller_file
              (ComparativeModelDataset (InputFileLocation "run/model.pdb" None PNone)))
    as [[templates target'] | e] eqn:Hget; [| vm_compute in Hget; discriminate].
  exists templates, target'. split; [reflexivity |].
  split; [vm_compute in Hget; injection Hget as <- _; reflexivity |].
  split; [vm_compute; reflexivity |].
  exact (templates_share_alignment Samples.relative_path "run/model.pdb"
           Samples.modeller_file _ templates target' Hget).
Defined.

Lemma templates_of_records_witness :
  exists templates target',
    get_templates Samples.relative_path "run/model.pdb" Samples.modeller_file
      (ComparativeModelDataset (InputFileLocation "run/model.pdb" None PNone))
    = Ok (templates, target') /\
    exists found,
      Forall2 (template_of (search_paths Samples.relative_path "run/model.pdb"
                              Samples.modeller_file))
        (statistics_records Samples.modeller_file) found /\
      Permutation found templates /\
      Sorted template_le templates /\
      forall r, List.filter (fun t => bool_decide (seq_id_range t = r)) templates
                = List.filter (fun t => bool_decide (seq_id_range t = r)) found.
Proof.
  destruct (get_templates Samples.relative_path "run/model.pdb" Samples.modeller_file
              (ComparativeModelDataset (InputFileLocation "run/model.pdb" None PNone)))
    as [[templates target'] | e] eqn:Hget; [| vm_compute in Hget; discriminate].
  exists templates, target'. split; [reflexivity |].
  exact (templates_of_records Samples.relative_path "run/model.pdb"
           Samples.modeller_file _ templates target' Hget).
Defined.

Lemma provenance_shape_witness :
  exists ret,
    parse_file Samples.relative_path Samples.unknown "run/model.pdb"
      Samples.modeller_file = Ok ret /\
    length (ret_templates ret) = 2 /\
    exists d,
      ret_dataset ret = Some d /\
      Forall (fun p => parents p = []) (parents d) /\
      Permutation (parents d) (map dataset (ret_templates ret)) /\
      ret_metadata ret = [].
Proof.
  destruct (parse_file Samples.relative_path Samples.unknown "run/model.pdb"
              Samples.modeller_file) as [ret | e] eqn:Hret;
    [| vm_compute in Hret; discriminate].
  exists ret. split; [reflexivity |].
  split; [vm_compute in Hret; injection Hret as <-; reflexivity |].
  exact (provenance_shape Samples.relative_path Samples.unknown "run/model.pdb"
           Samples.modeller_file ret Hret).
Defined.

(** Two prefixes of one line: one is a prefix of the other. *)
Lemma startswith_both (s p q : string) :
  Py.startswith s p = true -> Py.startswith s q = true ->
  Py.startswith p q = true \/ Py.startswith q p = true.
Proof.
  revert p q. induction s as [| c s IH]; intros [| a p] [| b q]; cbn [Py.startswith];
    try (intros; (left; reflexivity) || (right; reflexivity) || discriminate).
  intros [Ha Hp]%andb_prop [Hb Hq]%andb_prop.
  apply Ascii.eqb_eq in Ha, Hb. subst a b. rewrite Ascii.eqb_refl. cbn [andb].
  exact (IH p q Hp Hq).
Qed.

(** No line starts with two of the prefixes that select a dialect. *)
Lemma dialect_prefixes_apart (line p q : string) :
  p ∈ dialect_prefixes -> q ∈ dialect_prefixes ->
  Py.startswith line p = true -> Py.startswith line q = true -> p = q.
Proof.
  intros Hp Hq Hlp Hlq.
  destruct (startswith_both line p q Hlp Hlq) as [H | H];
    unfold dialect_prefixes in Hp, Hq;
    repeat (apply elem_of_cons in Hp as [-> | Hp]);
    try (apply elem_of_nil in Hp; destruct Hp);
    repeat (apply elem_of_cons in Hq as [-> | Hq]);
    try (apply elem_of_nil in Hq; destruct Hq);
    try reflexivity; vm_compute in H; discriminate.
Qed.

(** X11: the dialect of a file is that of the one prefix its first line
    starts with, whatever the order of the tests: no line starts with
    two of the five prefixes, and the file is taken as a comparative model
    of unknown origin exactly when its first line starts with none. *)
Theorem classify_by_prefix (line : string) :
  (classify line = Official <-> Py.startswith line "HEADER" = true) /\
  (classify line = DerivedFromPDB
   <-> Py.startswith line "EXPDTA    DERIVED FROM PDB:" = true) /\
  (classify line = DerivedFromModel
   <-> Py.startswith line "EXPDTA    DERIVED FROM COMPARATIVE MODEL, DOI:" = true) /\
  (classify line = Modeller
   <-> Py.startswith line "EXPDTA    THEORETICAL MODEL, MODELLER" = true) /\
  (classify line = Phyre <-> Py.startswith line "REMARK  99  Chain ID :" = true) /\
  (classify line = Unknown
   <-> Forall (fun p => Py.startswith line p = false) dialect_prefixes).
Proof.
  assert (Hapart : forall p q, p ∈ dialect_prefixes -> q ∈ dialect_prefixes ->
                     Py.startswith line p = true -> p <> q ->
                     Py.startswith line q = false).
  { intros p q Hp Hq Hlp Hne. destruct (Py.startswith line q) eqn:Hlq; [| reflexivity].
    destruct Hne. exact (dialect_prefixes_apart line p q Hp Hq Hlp Hlq). }
  assert (Hin : Forall (fun p => p ∈ dialect_prefixes) dialect_prefixes)
    by (apply Forall_forall; auto).
  unfold dialect_prefixes in Hin.
  repeat match goal with
         | H : Forall _ (_ :: _) |- _ => apply Forall_cons in H as [? H]
         end.
  unfold classify.
  destruct (Py.startswith line "HEADER") eqn:Ea.
  { rewrite (Hapart "HEADER" "EXPDTA    DERIVED FROM PDB:"),
      (Hapart "HEADER" "EXPDTA    DERIVED FROM COMPARATIVE MODEL, DOI:"),
      (Hapart "HEADER" "EXPDTA    THEORETICAL MODEL, MODELLER"),
      (Hapart "HEADER" "REMARK  99  Chain ID :") by (assumption || discriminate).
    repeat split; try discriminate; try reflexivity.
    intros (Hf & _)%Forall_cons. congruence. }
  destruct (Py.startswith line "EXPDTA    DERIVED FROM PDB:") eqn:Eb.
  { rewrite (Hapart "EXPDTA    DERIVED FROM PDB:"
               "EXPDTA    DERIVED FROM COMPARATIVE MODEL, DOI:"),
      (Hapart "EXPDTA    DERIVED FROM PDB:" "EXPDTA    THEORETICAL MODEL, MODELLER"),
      (Hapart "EXPDTA    DERIVED FROM PDB:" "REMARK  99  Chain ID :")
      by (assumption || discriminate).
    repeat split; try discriminate; try reflexivity.
    intros (_ & (Hf & _)%Forall_cons)%Forall_cons. congruence. }
  destruct (Py.startswith line "EXPDTA    DERIVED FROM COMPARATIVE MODEL, DOI:") eqn:Ec.
  { rewrite (Hapart "EXPDTA    DERIVED FROM COMPARATIVE MODEL, DOI:"
               "EXPDTA    THEORETICAL MODEL, MODELLER"),
      (Hapart "EXPDTA    DERIVED FROM COMPARATIVE MODEL, DOI:" "REMARK  99  Chain ID :")
      by (assumption || discriminate).
    repeat split; try discriminate; try reflexivity.
    intros (_ & (_ & (Hf & _)%Forall_cons)%Forall_cons)%Forall_cons. congruence. }
  destruct (Py.startswith line "EXPDTA    THEORETICAL MODEL, MODELLER") eqn:Ed.
  { rewrite (Hapart "EXPDTA    THEORETICAL MODEL, MODELLER" "REMARK  99  Chain ID :")
      by (assumption || discriminate).
    repeat split; try discriminate; try reflexivity.
    intros (_ & (_ & (_ & (Hf & _)%Forall_cons)%Forall_cons)%Forall_cons)%Forall_cons.
    congruence. }
  destruct (Py.startswith line "REMARK  99  Chain ID :") eqn:Ee.
  { repeat split; try discriminate; try reflexivity.
    intros (_ & (_ & (_ & (_ & (Hf & _)%Forall_cons)%Forall_cons)%Forall_cons)%Forall_cons)%Forall_cons.
    congruence. }
  repeat split; try discriminate; try reflexivity.
  intros _. unfold dialect_prefixes. repeat constructor; assumption.
Qed.

End PDBMore.

(** * Facts about [add_ihm_info] *)

Module MakeMMCIFFacts.
Import MakeMMCIF.

Section Classes.

Context {asym segment assembly representation protocol other : Type}.
Variable Assembly : list asym -> string -> assembly.
Variable AtomicSegment : asym -> bool -> segment.
Variable Representation : list segment -> representation.
Variable Protocol : string -> protocol.
Variable assembly_truth : assembly -> bool.
Variable representation_truth : representation -> bool.
Variable protocol_truth : protocol -> bool.

Local Abbreviation fill := (fill_model assembly_truth representation_truth protocol_truth).
Local Abbreviation add :=
  (add_ihm_info Assembly AtomicSegment Representation Protocol
     assembly_truth representation_truth protocol_truth).
Local Abbreviation Model := (@Model assembly representation protocol other).
Local Abbreviation System := (@System asym assembly representation protocol other).

(** What the three tests of the innermost loop leave, attribute by
    attribute. *)
Lemma fill_model_eq (da : assembly) (dr : representation) (dp : protocol)
    (m : Model) :
  fill da dr dp m
  = {| assembly_of := if falsy assembly_truth (assembly_of m)
                      then Some da else assembly_of m;
       representation_of := if falsy representation_truth (representation_of m)
                            then Some dr else representation_of m;
       protocol_of := if falsy protocol_truth (protocol_of m)
                      then Some dp else protocol_of m;
       model_rest := model_rest m |}.
Proof.
  destruct m as [a r p rest]. unfold fill_model. cbn.
  destruct (falsy assembly_truth a); cbn;
    destruct (falsy representation_truth r); cbn;
    destruct (falsy protocol_truth p); reflexivity.
Qed.

(** A test that has set the default sets it again or leaves it. *)
Lemma refill {A} (truth : A -> bool) (d : A) (x : option A) :
  (if falsy truth (if falsy truth x then Some d else x)
   then Some d else if falsy truth x then Some d else x)
  = if falsy truth x then Some d else x.
Proof.
  destruct (falsy truth x) eqn:Hx.
  - destruct (falsy truth (Some d)); reflexivity.
  - rewrite Hx. reflexivity.
Qed.

Lemma fill_model_twice (da : assembly) (dr : representation) (dp : protocol)
    (m : Model) :
  fill da dr dp (fill da dr dp m) = fill da dr dp m.
Proof.
  rewrite (fill_model_eq da dr dp (fill da dr dp m)).
  rewrite (fill_model_eq da dr dp m). cbn [assembly_of representation_of protocol_of
                                           model_rest].
  rewrite !refill. reflexivity.
Qed.

Lemma map4_ext {A B} (f g : A -> B) (l : list (list (list (list A)))) :
  (forall x, f x = g x) ->
  map (map (map (map f))) l = map (map (map (map g))) l.
Proof.
  intros Hfg. apply map_ext. intros l1. apply map_ext. intros l2.
  apply map_ext. intros l3. apply map_ext. exact Hfg.
Qed.

Lemma map4_map4 {A B C} (f : B -> C) (g : A -> B) (l : list (list (list (list A)))) :
  map (map (map (map f))) (map (map (map (map g))) l)
  = map (map (map (map (fun x => f (g x))))) l.
Proof.
  rewrite map_map. apply map_ext. intros l1.
  rewrite map_map. apply map_ext. intros l2.
  rewrite map_map. apply map_ext. intros l3.
  apply map_map.
Qed.

Lemma concat3_map4 {A B} (f : A -> B) (l : list (list (list (list A)))) :
  concat (concat (concat (map (map (map (map f))) l)))
  = map f (concat (concat (concat l))).
Proof. rewrite !concat_map. reflexivity. Qed.

(** The title that [add_ihm_info] leaves. *)
Lemma add_title (s : System) :
  title (add s)
  = if falsy str_truth (title s) then Some "Auto-generated system"%string else title s.
Proof. unfold add_ihm_info. destruct (falsy str_truth (title s)); reflexivity. Qed.

Lemma add_title_truthy (s : System) : falsy str_truth (title (add s)) = false.
Proof.
  rewrite add_title. destruct (falsy str_truth (title s)) eqn:Ht; [reflexivity | exact Ht].
Qed.

Lemma add_asym_units (s : System) : asym_units (add s) = asym_units s.
Proof. unfold add_ihm_info. destruct (falsy str_truth (title s)); reflexivity. Qed.

Lemma add_system_rest (s : System) : system_rest (add s) = system_rest s.
Proof. unfold add_ihm_info. destruct (falsy str_truth (title s)); reflexivity. Qed.

Lemma add_state_groups (s : System) :
  state_groups (add s)
  = map (map (map (map (fill (Assembly (asym_units s) "Modeled assembly")
                          (Representation
                             (map (fun asym => AtomicSegment asym false)
                                (asym_units s)))
                          (Protocol "modeling")))))
      (state_groups s).
Proof. unfold add_ihm_info. destruct (falsy str_truth (title s)); reflexivity. Qed.

(** The models afterwards: those before, each with its attributes
    completed, in the same order. *)
Lemma add_models (s : System) :
  models (add s)
  = map (fill (Assembly (asym_units s) "Modeled assembly")
           (Representation (map (fun asym => AtomicSegment asym false) (asym_units s)))
           (Protocol "modeling"))
      (models s).
Proof. unfold models. rewrite add_state_groups. apply concat3_map4. Qed.

Lemma system_eq (s t : System) :
  title s = title t -> asym_units s = asym_units t ->
  state_groups s = state_groups t -> system_rest s = system_rest t -> s = t.
Proof. destruct s, t. cbn. intros -> -> -> ->. reflexivity. Qed.

(** X12: [add_ihm_info] is idempotent: a system that it has completed is
    left as it is by a second run, also when a default that the first run
    has set counts as false (an assembly without chains) and is set
    again. *)
Theorem add_ihm_info_idempotent (s : System) : add (add s) = add s.
Proof.
  apply system_eq.
  - rewrite (add_title (add s)), add_title_truthy. reflexivity.
  - apply add_asym_units.
  - rewrite (add_state_groups (add s)), add_asym_units, add_state_groups, map4_map4.
    apply map4_ext. intros m. apply fill_model_twice.
  - apply add_system_rest.
Qed.

(** X13: after [add_ihm_info] the system has a title that is not empty,
    and no model of it lacks an assembly, a representation or a
    protocol. *)
Theorem add_ihm_info_complete (s : System) :
  (exists t, title (add s) = Some t /\ t <> EmptyString) /\
  Forall (fun m => is_Some (assembly_of m) /\ is_Some (representation_of m)
                   /\ is_Some (protocol_of m))
    (models (add s)).
Proof.
  split.
  - pose proof (add_title_truthy s) as Ht.
    destruct (title (add s)) as [t |]; [| discriminate].
    exists t. split; [reflexivity |]. intros ->. discriminate.
  - rewrite add_models. apply List.Forall_forall. intros m' (m & <- & _)%in_map_iff.
    rewrite fill_model_eq. cbn [assembly_of representation_of protocol_of].
    destruct m as [[a |] [r |] [p |] rest]; cbn [assembly_of representation_of protocol_of falsy];
      repeat split;
      repeat match goal with |- context [if ?b then _ else _] => destruct b end; eauto.
Qed.

(** X14: [add_ihm_info] changes nothing but what is missing: the chains,
    the grouping of the models and the order of the models stay; the title
    and, in each model, the assembly, the representation and the protocol
    stay where they are set and count as true, and are the defaults
    elsewhere: the one assembly of all chains of the system, the one atomic
    non-rigid representation of all chains, the one protocol. *)
Theorem add_ihm_info_keeps (s : System) :
  asym_units (add s) = asym_units s /\
  system_rest (add s) = system_rest s /\
  shape (add s) = shape s /\
  title (add s)
  = (if falsy str_truth (title s) then Some "Auto-generated system"%string
     else title s) /\
  Forall2
    (fun m m' =>
       model_rest m' = model_rest m /\
       assembly_of m'
       = (if falsy assembly_truth (assembly_of m)
          then Some (Assembly (asym_units s) "Modeled assembly")
          else assembly_of m) /\
       representation_of m'
       = (if falsy representation_truth (representation_of m)
          then Some (Representation
                       (map (fun asym => AtomicSegment asym false) (asym_units s)))
          else representation_of m) /\
       protocol_of m'
       = (if falsy protocol_truth (protocol_of m)
          then Some (Protocol "modeling") else protocol_of m))
    (models s) (models (add s)).
Proof.
  split; [apply add_asym_units |]. split; [apply add_system_rest |].
  split; [| split; [apply add_title |]].
  - unfold shape. rewrite add_state_groups.
    rewrite map_map. apply map_ext. intros l1.
    rewrite map_map. apply map_ext. intros l2.
    rewrite map_map. apply map_ext. intros l3.
    apply length_map.
  - rewrite add_models. induction (models s) as [| m ms IH]; cbn [map]; constructor.
    + rewrite fill_model_eq. cbn. auto.
    + exact IH.
Qed.

End Classes.

End MakeMMCIFFacts.
